(** * ecs-logs: the syslog writer, the journald reader and the log-call adapter

    A shallow embedding of [lib/syslog/writer.go], [lib/journald/reader.go]
    and the [lib] log handler, with the properties of the specification
    stated and proved (or refuted) over it.

    Go strings are byte sequences: they are modelled by [string], whose
    characters are the 256 values of [ascii].  Go's [int] is 64 bits wide
    and is modelled by [Z] with the wrap-around written out. *)

From Stdlib Require Import ZArith String Ascii List Bool Lia DecimalString.
From stdpp Require Import base option gmap strings list.

Import ListNotations.
Local Open Scope string_scope.
Local Open Scope list_scope.

(** ** Go's [strings] package and string slicing *)
Module GoStrings.

(** [len(s)]: the number of bytes. *)
Definition len (s : string) : nat := String.length s.

(** [strings.HasPrefix(s, prefix)]. *)
Definition HasPrefix (s pre : string) : bool := String.prefix pre s.

(** [strings.HasSuffix(s, suffix)]:
    [len(s) >= len(suffix) && s[len(s)-len(suffix):] == suffix]. *)
Definition HasSuffix (s suffix : string) : bool :=
  (len suffix <=? len s)%nat
  && String.eqb (String.substring (len s - len suffix) (len suffix) s) suffix.

(** [s[:max]] for [0 <= max <= len(s)]. *)
Definition slice_to (s : string) (max : nat) : string :=
  String.substring 0 max s.

(** [strings.Replace(s, old, new, -1)] for a non-empty [old]: every
    non-overlapping occurrence of [old], leftmost first, becomes [new].
    [skip] counts the bytes of a matched occurrence still to be dropped. *)
Fixpoint replace_from (skip : nat) (s old new : string) : string :=
  match s with
  | EmptyString => EmptyString
  | String c rest =>
      match skip with
      | S k => replace_from k rest old new
      | O =>
          if String.prefix old s
          then new +:+ replace_from (len old - 1) rest old new
          else String c (replace_from 0 rest old new)
      end
  end.

Definition Replace (s old new : string) : string := replace_from 0 s old new.

(** The string with [f] applied to each byte. *)
Fixpoint map_bytes (f : ascii -> ascii) (s : string) : string :=
  match s with
  | EmptyString => EmptyString
  | String c rest => String (f c) (map_bytes f rest)
  end.

(** What the two replacements of [sanitizeStreamName] do to one byte. *)
Definition slash_for_colon_star (x : ascii) : ascii :=
  (fun x => if Ascii.eqb x "*" then "/"%char else x)
    ((fun x => if Ascii.eqb x ":" then "/"%char else x) x).

(** A byte that is neither [':'] nor ['*']. *)
Definition clean_byte (x : ascii) : bool :=
  negb (Ascii.eqb ":" x) && negb (Ascii.eqb "*" x).


Fixpoint all_bytes (p : ascii -> bool) (s : string) : bool :=
  match s with
  | EmptyString => true
  | String c rest => p c && all_bytes p rest
  end.


(** [strings.Contains(s, string(c))] for a single byte [c]. *)
Fixpoint contains_byte (c : ascii) (s : string) : bool :=
  match s with
  | EmptyString => false
  | String d rest => Ascii.eqb c d || contains_byte c rest
  end.

(** The number of newline bytes that end [s]: [seen] of them have just
    been read. *)
Fixpoint trailing_newlines_from (seen : nat) (s : string) : nat :=
  match s with
  | EmptyString => seen
  | String c rest =>
      if Ascii.eqb c "010" then trailing_newlines_from (S seen) rest
      else trailing_newlines_from 0 rest
  end.

Definition trailing_newlines (s : string) : nat := trailing_newlines_from 0 s.

End GoStrings.

(** ** The Go runtime: errors, machine integers, panics *)
Module Go.

(** The [error] interface.  [io_EOF] is the sentinel [io.EOF]; every
    other error is identified by its message. *)
Inductive error : Type :=
| io_EOF
| errorString (msg : string).

Definition Error (e : error) : string :=
  match e with
  | io_EOF => "EOF"
  | errorString msg => msg
  end.

(** [err != nil] *)
Definition non_nil {A : Type} (e : option A) : bool :=
  match e with Some _ => true | None => false end.

(** [int] is a signed 64-bit integer; arithmetic wraps around. *)
Definition wrap_int (z : Z) : Z := ((z + 2 ^ 63) mod 2 ^ 64 - 2 ^ 63)%Z.
Definition int_sub (a b : Z) : Z := wrap_int (a - b).
Definition int_add (a b : Z) : Z := wrap_int (a + b).

(** [uint64] arithmetic. *)
Definition wrap_uint64 (z : Z) : Z := (z mod 2 ^ 64)%Z.

(** [strconv.Itoa]. *)
Definition Itoa (i : Z) : string := NilZero.string_of_int (Z.to_int i).

(** [time.Second], a [time.Duration] in nanoseconds. *)
Definition time_Second : Z := 1000000000.

(** [time.Stamp]. *)
Definition time_Stamp : string := "Jan _2 15:04:05".

(** What running a piece of code comes to: it returns, it panics, or the
    model's fuel ran out before it did either. *)
Inductive outcome (A : Type) : Type :=
| Ret (a : A)
| Panic (v : error)
| OutOfFuel.
Arguments Ret {A} a.
Arguments Panic {A} v.
Arguments OutOfFuel {A}.

Definition bind {A B : Type} (m : outcome A) (k : A -> outcome B) : outcome B :=
  match m with
  | Ret a => k a
  | Panic v => Panic v
  | OutOfFuel => OutOfFuel
  end.

(** A buffered channel [make(chan A, cap)], used without blocking. *)
Record chan (A : Type) : Type := mkChan { chan_cap : nat; chan_buf : list A }.
Arguments mkChan {A} chan_cap chan_buf.
Arguments chan_cap {A} c.
Arguments chan_buf {A} c.

Definition make_chan {A : Type} (cap : nat) : chan A := mkChan cap [].

(** [select { case ch <- v: ... default: ... }] *)
Definition try_send {A : Type} (ch : chan A) (v : A) : option (chan A) :=
  if (List.length (chan_buf ch) <? chan_cap ch)%nat
  then Some (mkChan (chan_cap ch) (chan_buf ch ++ [v]))
  else None.

(** [select { case v = <-ch: ... default: ... }] *)
Definition try_recv {A : Type} (ch : chan A) : option (A * chan A) :=
  match chan_buf ch with
  | [] => None
  | v :: rest => Some (v, mkChan (chan_cap ch) rest)
  end.

End Go.

Notation "'run' x <~ m ; k" := (Go.bind m (fun x => k))
  (at level 10, x pattern, m at level 100, k at level 200).

(** ** Libraries outside the repository

    Each class collects what the code calls in one imported package; the
    development is parametric in them. *)

(** Package [time]. *)
Class TimeLib : Type := {
  time_Time : Type;
  (** [time.Time{}] *)
  time_zero : time_Time;
  time_eq_dec :: EqDecision time_Time;
  (** [t.Format(layout)] *)
  time_Format : time_Time -> string -> string;
  (** [time.Unix(sec, nsec)] *)
  time_Unix : Z -> Z -> time_Time
}.

(** Package [github.com/kapralVV/ecs-logs-go]: the event type and its
    helpers.  [Level] is an [int]; its zero value is [NONE]. *)
Module ecslogs.

Definition Level : Type := Z.
Definition NONE : Level := 0%Z.

Module EventInfo.
Record t : Type := mk {
  Host : string;
  Source : string;
  ID : string;
  PID : Z;
  UID : Z;
  GID : Z
}.
Definition zero : t := mk "" "" "" 0 0 0.
Definition set_Host (v : string) (i : t) : t := mk v (Source i) (ID i) (PID i) (UID i) (GID i).
Definition set_Source (v : string) (i : t) : t := mk (Host i) v (ID i) (PID i) (UID i) (GID i).
Definition set_ID (v : string) (i : t) : t := mk (Host i) (Source i) v (PID i) (UID i) (GID i).
Definition set_PID (v : Z) (i : t) : t := mk (Host i) (Source i) (ID i) v (UID i) (GID i).
Definition set_UID (v : Z) (i : t) : t := mk (Host i) (Source i) (ID i) (PID i) v (GID i).
Definition set_GID (v : Z) (i : t) : t := mk (Host i) (Source i) (ID i) (PID i) (UID i) v.
End EventInfo.

Module FuncInfo.
Record t : Type := mk { File : string; Func : string; Line : Z }.
End FuncInfo.

Module Event.
Section WithTime.
Context `{TimeLib}.
Context {EventData : Type}.
Record t : Type := mk {
  Level : ecslogs.Level;
  Time : time_Time;
  Info : EventInfo.t;
  Data : EventData;
  (** a [json.RawMessage] *)
  Message : string;
  IsMessageJson : bool;
  WasMessagequoted : bool
}.
Definition set_Level (v : ecslogs.Level) (e : t) : t :=
  mk v (Time e) (Info e) (Data e) (Message e) (IsMessageJson e) (WasMessagequoted e).
Definition set_Time (v : time_Time) (e : t) : t :=
  mk (Level e) v (Info e) (Data e) (Message e) (IsMessageJson e) (WasMessagequoted e).
Definition set_Info (v : EventInfo.t) (e : t) : t :=
  mk (Level e) (Time e) v (Data e) (Message e) (IsMessageJson e) (WasMessagequoted e).
(** The three assignments [Message], [IsMessageJson],
    [WasMessagequoted] that the reader always makes together. *)
Definition set_body (m : string) (isJson quoted : bool) (e : t) : t :=
  mk (Level e) (Time e) (Info e) (Data e) m isJson quoted.
End WithTime.
Arguments t {_} EventData.
End Event.

End ecslogs.

Class EcslogsLib `{TimeLib} : Type := {
  (** [ecslogs.EventData], with its zero value (a nil map) *)
  EventData : Type;
  EventData_zero : EventData;
  (** [ecslogs.INFO] *)
  ecslogs_INFO : ecslogs.Level;
  (** [ecslogs.MakeLevel] *)
  ecslogs_MakeLevel : Z -> ecslogs.Level;
  (** [FuncInfo.String] *)
  FuncInfo_String : ecslogs.FuncInfo.t -> string;
  (** [Event.String] *)
  Event_String : ecslogs.Event.t EventData -> string
}.

(** Packages [encoding/json] and [strconv]. *)
Class EncodingLib : Type := {
  (** [json.Unmarshal([]byte(str), &js)] for a [json.RawMessage] [js] *)
  json_Unmarshal_RawMessage : string -> string + Go.error;
  (** [json.Marshal(s)] for a string [s]; it cannot fail *)
  json_Marshal_string : string -> string;
  strconv_Unquote : string -> string + Go.error;
  (** [strconv.Atoi]: a value is returned also with an error *)
  strconv_Atoi : string -> Z * option Go.error
}.

(** Packages [github.com/apex/log] and [ecs-logs-go/apex], and the two
    helpers of [ecs-logs-go] that walk the call stack. *)
Class ApexLib `{EcslogsLib} : Type := {
  log_Entry : Type;
  apex_MakeEvent : log_Entry -> ecslogs.Event.t EventData;
  (** a program counter *)
  uintptr : Type;
  ecslogs_GuessCaller : Z -> Z -> list string -> uintptr * bool;
  ecslogs_GetFuncInfo : uintptr -> ecslogs.FuncInfo.t * bool
}.

(** ** Package [lib]: messages, the queue, the log handler *)
Module lib.
Import GoStrings Go.

Module Message.
Section WithEvent.
Context `{EcslogsLib}.
(** Modelled from the spec: the declaration of [lib.Message] is not among
    the sources.  A message has a [Group], a [Stream] and an [Event]. *)
Record t : Type := mk {
  Group : string;
  Stream : string;
  Event : ecslogs.Event.t EventData
}.
Definition set_Group (v : string) (m : t) : t := mk v (Stream m) (Event m).
Definition set_Stream (v : string) (m : t) : t := mk (Group m) v (Event m).
Definition set_Event (v : ecslogs.Event.t EventData) (m : t) : t :=
  mk (Group m) (Stream m) v.
(** The zero value [lib.Message{}]. *)
Definition zero : t :=
  mk "" "" (ecslogs.Event.mk ecslogs.NONE time_zero ecslogs.EventInfo.zero
              EventData_zero "" false false).
End WithEvent.
End Message.

Section Lib.
Context `{ApexLib}.

(** Modelled from the spec: a [lib.MessageBatch] is an ordered sequence
    of messages. *)
Definition MessageBatch : Type := list Message.t.

(** Modelled from the spec: [lib.MessageQueue] is not among the
    sources.  [Push] enqueues one message, in call order, without
    blocking; [Notify] wakes a consumer waiting for availability. *)
Record MessageQueue : Type := mkQueue {
  queued : list Message.t;
  notified : bool
}.

Definition Push (msg : Message.t) (q : MessageQueue) : MessageQueue :=
  mkQueue (queued q ++ [msg]) (notified q).

Definition Notify (q : MessageQueue) : MessageQueue :=
  mkQueue (queued q) true.

(** [LogHandler]; the field [Queue] is a pointer, the queue it points
    to is passed to [HandleLog] and returned by it. *)
Record LogHandler : Type := mkLogHandler {
  Group : string;
  Stream : string;
  Hostname : string
}.

Definition HandleLog (h : LogHandler) (entry : log_Entry) (Queue : MessageQueue)
  : MessageQueue * option error :=
  let msg := Message.mk (Group h) (Stream h) (apex_MakeEvent entry) in
  let ev := Message.Event msg in
  let info := ecslogs.Event.Info ev in
  let info :=
    if (len (ecslogs.EventInfo.Host info) =? 0)%nat
    then ecslogs.EventInfo.set_Host (Hostname h) info
    else info in
  let info :=
    if (len (ecslogs.EventInfo.Source info) =? 0)%nat then
      let '(pc, ok) :=
        ecslogs_GuessCaller 0 10
          ["github.com/kapralVV/ecs-logs/lib"; "github.com/apex/log"] in
      if ok then
        let '(finfo, ok) := ecslogs_GetFuncInfo pc in
        if ok then ecslogs.EventInfo.set_Source (FuncInfo_String finfo) info
        else info
      else info
    else info in
  let msg := Message.set_Event (ecslogs.Event.set_Info info ev) msg in
  let Queue := Push msg Queue in
  let Queue := Notify Queue in
  (Queue, None).

End Lib.
End lib.

(** ** Package [journald]: [lib/journald/reader.go] *)
Module journald.
Import GoStrings Go.

Definition sanitizeStreamName (name : string) : string :=
  let name := Replace name ":" "/" in
  let name := Replace name "*" "/" in
  let max := len name in
  let max := if (512 <? max)%nat then 512%nat else max in
  slice_to name max.

Section Reader.
Context `{EcslogsLib} `{EncodingLib}.

(** The journal entry under the read cursor: its fields, what
    [GetRealtimeUsec] answers for it, and the wall clock. *)
Record Journal : Type := mkJournal {
  fields : gmap string string;
  realtime_usec : Z + error;
  time_Now : time_Time;
  closed : bool
}.

Record reader : Type := mkReader {
  streamName : string;
  stopped : Z;
  journal : Journal
}.

(** [sdjournal.Journal.GetDataValue]: the value of a field of the
    current entry, or the empty string and an error when the entry has
    no such field. *)
Definition GetDataValue (r : reader) (field : string) : string * option error :=
  match fields (journal r) !! field with
  | Some v => (v, None)
  | None => ("", Some (errorString "no such field"))
  end.

Definition getString (r : reader) (k : string) : string :=
  fst (GetDataValue r k).

Definition getInt (r : reader) (k : string) : Z :=
  fst (strconv_Atoi (getString r k)).

Definition getTime (r : reader) : time_Time :=
  match realtime_usec (journal r) with
  | inl u => time_Unix (u / 1000000) ((u mod 1000000) * 1000)
  | inr _ => time_Now (journal r)
  end.

Definition getPriority (r : reader) : ecslogs.Level :=
  match strconv_Atoi (getString r "PRIORITY") with
  | (_, Some _) => ecslogs_INFO
  | (v, None) => ecslogs_MakeLevel v
  end.

Definition stringToRawMessage (str : string) : string * bool :=
  match json_Unmarshal_RawMessage str with
  | inl js => (js, true)
  | inr _ => ("", false)
  end.

(** Lines 282-340 of [getMessage]: the body and the enrichment of the
    event, once group and stream are known. *)
Definition fillEvent (r : reader) (ev : ecslogs.Event.t EventData)
  : ecslogs.Event.t EventData :=
  let s := getString r "MESSAGE" in
  let ev :=
    let '(raw, ok) := stringToRawMessage s in
    if ok then
      match strconv_Unquote s with
      | inl unquoted =>
          let '(raw1, ok1) := stringToRawMessage unquoted in
          if ok1 then ecslogs.Event.set_body raw1 true true ev
          else ecslogs.Event.set_body raw true false ev
      | inr _ => ecslogs.Event.set_body raw true false ev
      end
    else ecslogs.Event.set_body (json_Marshal_string s) false false ev in
  let ev :=
    if (ecslogs.Event.Level ev =? ecslogs.NONE)%Z
    then ecslogs.Event.set_Level (getPriority r) ev else ev in
  let info := ecslogs.Event.Info ev in
  let info :=
    if (len (ecslogs.EventInfo.Host info) =? 0)%nat
    then ecslogs.EventInfo.set_Host (getString r "_HOSTNAME") info else info in
  let info :=
    if (len (ecslogs.EventInfo.Source info) =? 0)%nat
    then ecslogs.EventInfo.set_Source
           (FuncInfo_String
              (ecslogs.FuncInfo.mk (getString r "CODE_FILE")
                 (getString r "CODE_FUNC") (getInt r "CODE_LINE"))) info
    else info in
  let info :=
    if (len (ecslogs.EventInfo.ID info) =? 0)%nat
    then ecslogs.EventInfo.set_ID (getString r "MESSAGE_ID") info else info in
  let info :=
    if (ecslogs.EventInfo.PID info =? 0)%Z
    then ecslogs.EventInfo.set_PID (getInt r "_PID") info else info in
  let info :=
    if (ecslogs.EventInfo.GID info =? 0)%Z
    then ecslogs.EventInfo.set_GID (getInt r "_GID") info else info in
  let info :=
    if (ecslogs.EventInfo.UID info =? 0)%Z
    then ecslogs.EventInfo.set_UID (getInt r "_UID") info else info in
  let ev := ecslogs.Event.set_Info info ev in
  if bool_decide (ecslogs.Event.Time ev = time_zero)
  then ecslogs.Event.set_Time (getTime r) ev else ev.

(** [getMessage] returns [(msg, ok, err)]. *)
Definition getMessage (r : reader) : lib.Message.t * bool * option error :=
  let msg := lib.Message.zero in
  let '(group, err) := GetDataValue r "CONTAINER_TAG" in
  let msg := lib.Message.set_Group group msg in
  if (len (lib.Message.Group msg) =? 0)%nat then
    (msg, false, None)
  else
    let '(stream, err) := GetDataValue r (streamName r) in
    let msg := lib.Message.set_Stream stream msg in
    let '(msg, err) :=
      if non_nil err then
        let '(stream, err) := GetDataValue r "CONTAINER_ID_FULL" in
        (lib.Message.set_Stream stream msg, err)
      else (msg, err) in
    if non_nil err then
      (msg, false,
       Some (errorString
               ("missing CONTAINER_ID_FULL in message with CONTAINER_TAG="
                +:+ lib.Message.Group msg)))
    else
      let msg :=
        lib.Message.set_Stream (sanitizeStreamName (lib.Message.Stream msg)) msg in
      let msg := lib.Message.set_Event (fillEvent r (lib.Message.Event msg)) msg in
      (msg, true, None).

(** [reader.Close]. *)
Definition Close (r : reader) : reader * option error :=
  (mkReader (streamName r) 1 (journal r), None).

(** What the journal and the other goroutines do while [ReadMessage]
    runs, one item per turn of its loop: [Close] is called from
    elsewhere, [Next] fails, [Next] finds no new entry, or [Next] moves
    the cursor to a new entry. *)
Inductive turn : Type :=
| ClosedElsewhere
| NextFails (e : error)
| NextNothing
| NextEntry (j : Journal).

Inductive read_result : Type :=
| Returned (r : reader) (msg : lib.Message.t) (err : option error)
(** still inside the loop when the described turns are over *)
| Reading (r : reader).

(** The reader once [Next] has moved its cursor to the entry [j]. *)
Definition at_entry (r : reader) (j : Journal) : reader :=
  mkReader (streamName r) (stopped r) j.

Fixpoint ReadMessage_from (r : reader) (msg : lib.Message.t) (turns : list turn)
  : read_result :=
  if (stopped r =? 0)%Z then
    match turns with
    | [] => Reading r
    | ClosedElsewhere :: rest => ReadMessage_from (fst (Close r)) msg rest
    | NextFails e :: _ => Returned r msg (Some e)
    | NextNothing :: rest => ReadMessage_from r msg rest
    | NextEntry j :: rest =>
        let r := at_entry r j in
        let '(msg, ok, err) := getMessage r in
        if ok || non_nil err then Returned r msg err
        else ReadMessage_from r msg rest
    end
  else
    let j := journal r in
    let r := mkReader (streamName r) (stopped r)
               (mkJournal (fields j) (realtime_usec j) (time_Now j) true) in
    Returned r msg (Some io_EOF).

Definition ReadMessage (r : reader) (turns : list turn) : read_result :=
  ReadMessage_from r lib.Message.zero turns.

(** The stream of an entry: the configured field, or
    [CONTAINER_ID_FULL] when the entry does not have it. *)
Definition stream_source (r : reader) (v : string) : Prop :=
  fields (journal r) !! streamName r = Some v
  \/ (fields (journal r) !! streamName r = None
      /\ fields (journal r) !! "CONTAINER_ID_FULL" = Some v).

End Reader.
End journald.

(** ** Package [syslog]: [lib/syslog/writer.go] *)
Module syslog.
Import GoStrings Go.

(** The data handed to the template. *)
Record message : Type := mkMessage {
  PRIVAL : Z;
  HOSTNAME : string;
  PROCID : string;
  MSGID : string;
  GROUP : string;
  STREAM : string;
  TAG : string;
  MSG : string;
  TIMESTAMP : string
}.

Definition set_HOSTNAME (v : string) (m : message) : message :=
  mkMessage (PRIVAL m) v (PROCID m) (MSGID m) (GROUP m) (STREAM m) (TAG m) (MSG m)
    (TIMESTAMP m).
Definition set_PROCID (v : string) (m : message) : message :=
  mkMessage (PRIVAL m) (HOSTNAME m) v (MSGID m) (GROUP m) (STREAM m) (TAG m) (MSG m)
    (TIMESTAMP m).
Definition set_MSGID (v : string) (m : message) : message :=
  mkMessage (PRIVAL m) (HOSTNAME m) (PROCID m) v (GROUP m) (STREAM m) (TAG m) (MSG m)
    (TIMESTAMP m).
Definition set_MSG (v : string) (m : message) : message :=
  mkMessage (PRIVAL m) (HOSTNAME m) (PROCID m) (MSGID m) (GROUP m) (STREAM m) (TAG m) v
    (TIMESTAMP m).

(** A parsed [*template.Template], known by its name and its text. *)
Record Template : Type := mkTemplate { tpl_name : string; tpl_text : string }.

(** Package [text/template]. *)
Class TemplateLib : Type := {
  (** the error of [t.Parse(text)], if any *)
  template_Parse_error : string -> option error;
  (** [t.Execute(wr, data)]: the byte strings it passes to [wr.Write], in
      order, as long as no write fails, and the error of the execution
      itself, if any, met after the last of them *)
  template_Execute : Template -> message -> list string * option error
}.

(** [io.WriteCloser], and the optional [bufferedWriter] interface. *)
Class WriteCloser (B : Type) : Type := {
  io_Write : B -> string -> B * option error;
  io_Close : B -> B * option error;
  (** whether the dynamic type of the value has a [Flush] method *)
  has_Flush : B -> bool;
  buf_Flush : B -> B * option error
}.

(** Packages [net], [crypto/tls] and [golang.org/x/net/proxy]; [World] is
    the state of everything a dial can reach. *)
Class NetLib : Type := {
  World : Type;
  net_Conn : Type;
  tls_Config : Type;
  proxy_Dialer : Type;
  net_Dial : string -> string -> World -> World * (net_Conn + error);
  (** [tls.Dial(network, address, config)], [config] may be nil *)
  tls_Dial : string -> string -> option tls_Config -> World -> World * (net_Conn + error);
  (** [proxy.SOCKS5(network, addr, nil, proxy.Direct)] *)
  proxy_SOCKS5 : string -> string -> proxy_Dialer + error;
  proxy_Dial : proxy_Dialer -> string -> string -> World -> World * (net_Conn + error);
  (** [tls.Client(rawConn, config)] followed by [Handshake()] *)
  tls_Client_Handshake : net_Conn -> tls_Config -> World -> World * (net_Conn + error)
}.

(** The two [io.WriteCloser] values that [dialWriter] makes of a
    connection: the connection itself, and
    [bufferedConn{conn: conn, buf: bufio.NewWriter(conn)}]. *)
Class ConnBackend (B : Type) `{NetLib} : Type := {
  conn_backend : net_Conn -> B;
  bufferedConn : net_Conn -> B
}.

(** Packages [os] and [net/url]. *)
Class OsLib : Type := {
  os_Getenv : string -> string;
  (** [url.Parse], giving [(u.Scheme, u.Host)] *)
  url_Parse : string -> (string * string) + error
}.

Definition DefaultTemplate : string :=
  "<{{.PRIVAL}}>{{.TIMESTAMP}} {{.GROUP}}[{{.STREAM}}]: {{.MSG}}".

Module WriterConfig.
Section WithNet.
Context `{NetLib}.
Record t : Type := mk {
  Network : string;
  Address : string;
  Template : string;
  TimeFormat : string;
  Tag : string;
  TLS : option tls_Config;
  SocksProxy : string
}.
Definition zero : t := mk "" "" "" "" "" None "".
Definition set_Network (v : string) (c : t) : t :=
  mk v (Address c) (Template c) (TimeFormat c) (Tag c) (TLS c) (SocksProxy c).
Definition set_Address (v : string) (c : t) : t :=
  mk (Network c) v (Template c) (TimeFormat c) (Tag c) (TLS c) (SocksProxy c).
Definition set_Template (v : string) (c : t) : t :=
  mk (Network c) (Address c) v (TimeFormat c) (Tag c) (TLS c) (SocksProxy c).
Definition set_TimeFormat (v : string) (c : t) : t :=
  mk (Network c) (Address c) (Template c) v (Tag c) (TLS c) (SocksProxy c).
End WithNet.
End WriterConfig.

Module writerConfig.
Record t (B : Type) : Type := mk {
  backend : B;
  template : string;
  timeFormat : string;
  tag : string
}.
Arguments mk {B}.
Arguments backend {B}.
Arguments template {B}.
Arguments timeFormat {B}.
Arguments tag {B}.
Definition set_backend {B} (v : B) (c : t B) : t B :=
  mk v (template c) (timeFormat c) (tag c).
Definition set_template {B} (v : string) (c : t B) : t B :=
  mk (backend c) v (timeFormat c) (tag c).
Definition set_timeFormat {B} (v : string) (c : t B) : t B :=
  mk (backend c) (template c) v (tag c).
End writerConfig.

(** The two functions a writer's [out] field can hold, and the two its
    [flush] field can hold: the [Flush] method of its backend, or the
    function that returns nil. *)
Inductive outFunc : Type := out_directWrite | out_bufferedWrite.
Inductive flushFunc : Type := flush_backend | flush_nothing.

Module writer.
Record t (B : Type) : Type := mk {
  config : writerConfig.t B;
  (** the contents of the [bytes.Buffer] *)
  buf : string;
  tpl : Template;
  out : outFunc;
  flush : flushFunc;
  dead : bool
}.
Arguments mk {B}.
Arguments config {B}.
Arguments buf {B}.
Arguments tpl {B}.
Arguments out {B}.
Arguments flush {B}.
Arguments dead {B}.
Definition backend {B} (w : t B) : B := writerConfig.backend (config w).
Definition timeFormat {B} (w : t B) : string := writerConfig.timeFormat (config w).
Definition tag {B} (w : t B) : string := writerConfig.tag (config w).
Definition set_backend {B} (v : B) (w : t B) : t B :=
  mk (writerConfig.set_backend v (config w)) (buf w) (tpl w) (out w) (flush w) (dead w).
Definition set_buf {B} (v : string) (w : t B) : t B :=
  mk (config w) v (tpl w) (out w) (flush w) (dead w).
Definition set_dead {B} (v : bool) (w : t B) : t B :=
  mk (config w) (buf w) (tpl w) (out w) (flush w) v.
End writer.

(** What a dial does to the outside: a call of the dial function, or a
    [time.Sleep] of so many nanoseconds. *)
Inductive event : Type :=
| EvDial (network address : string)
| EvSleep (d : Z).

Section Syslog.
Context `{EcslogsLib} `{TemplateLib} `{OsLib}.
Context {B : Type} `{WriteCloser B} `{ConnBackend B}.

(** *** The writer *)

Definition newWriterTemplate (format : string) : outcome Template :=
  let format :=
    if negb (HasSuffix format (String "010" "")) then format +:+ String "010" ""
    else format in
  match template_Parse_error format with
  | Some e => Panic e
  | None => Ret (mkTemplate "syslog" format)
  end.

Definition newWriter (config : writerConfig.t B) : outcome (writer.t B) :=
  let config :=
    if (len (writerConfig.timeFormat config) =? 0)%nat
    then writerConfig.set_timeFormat time_Stamp config else config in
  let config :=
    if (len (writerConfig.template config) =? 0)%nat
    then writerConfig.set_template DefaultTemplate config else config in
  let '(out, flush) :=
    if has_Flush (writerConfig.backend config)
    then (out_directWrite, flush_backend)
    else (out_bufferedWrite, flush_nothing) in
  run tpl <~ newWriterTemplate (writerConfig.template config);
  Ret (writer.mk config "" tpl out flush false).

(** The writes of [tpl.Execute(w.backend, m)]: one after the other,
    until one fails. *)
Fixpoint write_chunks (b : B) (chunks : list string) : B * option error :=
  match chunks with
  | [] => (b, None)
  | c :: rest =>
      match io_Write b c with
      | (b, Some err) => (b, Some err)
      | (b, None) => write_chunks b rest
      end
  end.

Definition directWrite (w : writer.t B) (m : message) : writer.t B * option error :=
  let '(chunks, exec_err) := template_Execute (writer.tpl w) m in
  match write_chunks (writer.backend w) chunks with
  | (b, Some err) => (writer.set_backend b w, Some err)
  | (b, None) => (writer.set_backend b w, exec_err)
  end.

Definition bufferedWrite (w : writer.t B) (m : message) : writer.t B * option error :=
  let w := writer.set_buf "" w in
  let w := writer.set_buf (String.concat "" (fst (template_Execute (writer.tpl w) m))) w in
  let '(b, err) := io_Write (writer.backend w) (writer.buf w) in
  (writer.set_backend b w, err).

(** [w.out(w, m)] *)
Definition call_out (w : writer.t B) (m : message) : writer.t B * option error :=
  match writer.out w with
  | out_directWrite => directWrite w m
  | out_bufferedWrite => bufferedWrite w m
  end.

(** [w.flush()] *)
Definition call_flush (w : writer.t B) : writer.t B * option error :=
  match writer.flush w with
  | flush_backend =>
      let '(b, err) := buf_Flush (writer.backend w) in
      (writer.set_backend b w, err)
  | flush_nothing => (w, None)
  end.

(** Lines 233-257 of [write]: the template data of a message. *)
Definition write_message (w : writer.t B) (msg : lib.Message.t) : message :=
  let ev := lib.Message.Event msg in
  let info := ecslogs.Event.Info ev in
  let m :=
    mkMessage
      (int_add (int_sub (ecslogs.Event.Level ev) 1) 8)
      (ecslogs.EventInfo.Host info)
      ""
      (ecslogs.EventInfo.ID info)
      (lib.Message.Group msg)
      (lib.Message.Stream msg)
      (writer.tag w)
      ""
      (time_Format (ecslogs.Event.Time ev) (writer.timeFormat w)) in
  let m := if (len (HOSTNAME m) =? 0)%nat then set_HOSTNAME "-" m else m in
  let m := if (len (MSGID m) =? 0)%nat then set_MSGID "-" m else m in
  let m :=
    if (ecslogs.EventInfo.PID info =? 0)%Z then set_PROCID "-" m
    else set_PROCID (Itoa (ecslogs.EventInfo.PID info)) m in
  set_MSG (Event_String ev) m.

Definition write (w : writer.t B) (msg : lib.Message.t) : writer.t B * option error :=
  call_out w (write_message w msg).

Fixpoint WriteMessageBatch (w : writer.t B) (batch : list lib.Message.t)
  : writer.t B * option error :=
  match batch with
  | msg :: rest =>
      match write w msg with
      | (w, Some err) => (writer.set_dead true w, Some err)
      | (w, None) => WriteMessageBatch w rest
      end
  | [] =>
      match call_flush w with
      | (w, Some err) => (writer.set_dead true w, Some err)
      | (w, None) => (w, None)
      end
  end.

Definition WriteMessage (w : writer.t B) (msg : lib.Message.t)
  : writer.t B * option error :=
  match write w msg with
  | (w, Some err) => (writer.set_dead true w, Some err)
  | (w, None) =>
      match call_flush w with
      | (w, Some err) => (writer.set_dead true w, Some err)
      | (w, None) => (w, None)
      end
  end.

(** *** The pool *)

(** The package variables. *)
Record globals : Type := mkGlobals {
  writerPool : chan (writer.t B);
  enablePooling : bool;
  newConnections : Z
}.

Definition initial_globals : globals := mkGlobals (make_chan 100) false 0.

Definition Close (w : writer.t B) (g : globals) : globals * writer.t B * option error :=
  let close_backend :=
    let '(b, err) := io_Close (writer.backend w) in
    (g, writer.set_backend b w, err) in
  if writer.dead w then close_backend
  else
    match (if enablePooling g then try_send (writerPool g) w else None) with
    | Some pool => (mkGlobals pool (enablePooling g) (newConnections g), w, None)
    | None => close_backend
    end.

(** *** Dialing *)

(** The outside world as a dial sees it, and what the dials did so
    far, oldest first. *)
Record netState : Type := mkNetState {
  world : World;
  trace : list event
}.

Definition record_event (e : event) (s : netState) : netState :=
  mkNetState (world s) (trace s ++ [e]).

Definition set_world (w : World) (s : netState) : netState :=
  mkNetState w (trace s).

Definition dialFunc : Type :=
  string -> string -> World -> World * (net_Conn + error).

(** Lines 302-331 of [dialWriter]: the network to dial and the function
    that dials it, or the error of [proxy.SOCKS5]. *)
Definition dialWriter_dial (network : string) (config : option tls_Config)
    (socksProxy : string) : (string * dialFunc) + error :=
  let '(network, dial) :=
    if String.eqb network "tls"
    then ("tcp", (fun network address => tls_Dial network address config) : dialFunc)
    else (network, net_Dial : dialFunc) in
  if negb (String.eqb socksProxy "") then
    match proxy_SOCKS5 network socksProxy with
    | inr err => inr err
    | inl socksDialer =>
        inl (network,
             fun network address w =>
               match config with
               | None => proxy_Dial socksDialer network address w
               | Some cfg =>
                   match proxy_Dial socksDialer network address w with
                   | (w, inr err) => (w, inr err)
                   | (w, inl rawConn) => tls_Client_Handshake rawConn cfg w
                   end
               end)
    end
  else inl (network, dial).

(** Lines 333-344: the loop [for attempt := 1; true; attempt++]. *)
Fixpoint dialWriter_loop (fuel : nat) (dial : dialFunc) (network address : string)
    (attempt : Z) (s : netState) : outcome (netState * (net_Conn + error)) :=
  match fuel with
  | O => OutOfFuel
  | S fuel =>
      let s := record_event (EvDial network address) s in
      match dial network address (world s) with
      | (w, inl conn) => Ret (set_world w s, inl conn)
      | (w, inr err) =>
          let s := set_world w s in
          if (attempt =? 3)%Z then Ret (s, inr err)
          else
            let s := record_event (EvSleep (1 * time_Second)) s in
            dialWriter_loop fuel dial network address (int_add attempt 1) s
      end
  end.

(** Lines 346-356: the backend made of the connection. *)
Definition dialWriter_wrap (network : string) (conn : net_Conn) : B :=
  if bool_decide (network ∈ ["udp"; "udp4"; "udp6"; "unixgram"; "unixpacket"])
  then conn_backend conn
  else bufferedConn conn.

(** The loop starts at attempt 1 and leaves at attempt 3 at the latest:
    three units of fuel are never used up ([dialWriter_loop_returns]). *)
Definition dialWriter (network address : string) (config : option tls_Config)
    (socksProxy : string) (s : netState) : outcome (netState * (B + error)) :=
  match dialWriter_dial network config socksProxy with
  | inr err => Ret (s, inr err)
  | inl (network, dial) =>
      run (s, r) <~ dialWriter_loop 3 dial network address 1 s;
      match r with
      | inr err => Ret (s, inr err)
      | inl conn => Ret (s, inl (dialWriter_wrap network conn))
      end
  end.

(** Lines 85-95 of [DialWriter]: the candidate networks, and the
    configuration with the network it assumes. *)
Definition DialWriter_netopts (config : WriterConfig.t)
  : list string * WriterConfig.t :=
  if negb (len (WriterConfig.Network config) =? 0)%nat then
    ([WriterConfig.Network config], config)
  else if (len (WriterConfig.Address config) =? 0)%nat
          || HasPrefix (WriterConfig.Address config) "/" then
    (["unixgram"; "unix"], WriterConfig.set_Network "unix" config)
  else
    (["tls"], config).

(** Lines 97-107: the candidate addresses. *)
Definition DialWriter_addropts (config : WriterConfig.t) : list string :=
  if negb (len (WriterConfig.Address config) =? 0)%nat then
    [WriterConfig.Address config]
  else if HasPrefix (WriterConfig.Network config) "unix" then
    ["/dev/log"; "/var/run/syslog"; "/var/run/log"]
  else
    ["localhost:514"].

(** Lines 111-118, the inner loop.  [last] holds [backend, err] as the
    previous call of [dialWriter] left them: [None] before the first
    call, a backend and a nil error, or a nil backend and an error. *)
Fixpoint connect_addropts (n : string) (addropts : list string)
    (config : WriterConfig.t) (last : option (B + error)) (s : netState)
  : outcome (netState * option (B + error)) :=
  match addropts with
  | [] => Ret (s, last)
  | a :: rest =>
      run (s, r) <~ dialWriter n a (WriterConfig.TLS config)
                      (WriterConfig.SocksProxy config) s;
      match r with
      | inl backend => Ret (s, Some (inl backend))
      | inr err => connect_addropts n rest config (Some (inr err)) s
      end
  end.

(** Lines 111-118, the loop labelled [connect]. *)
Fixpoint connect (netopts addropts : list string) (config : WriterConfig.t)
    (last : option (B + error)) (s : netState)
  : outcome (netState * option (B + error)) :=
  match netopts with
  | [] => Ret (s, last)
  | n :: rest =>
      run (s, r) <~ connect_addropts n addropts config last s;
      match r with
      | Some (inl backend) => Ret (s, r)
      | _ => connect rest addropts config r s
      end
  end.

Definition DialWriter (config : WriterConfig.t) (s : netState)
  : outcome (netState * (writer.t B + error)) :=
  let '(netopts, config) := DialWriter_netopts config in
  let addropts := DialWriter_addropts config in
  run (s, r) <~ connect netopts addropts config None s;
  match r with
  | Some (inr err) => Ret (s, inr err)
  | Some (inl backend) =>
      run w <~ newWriter
                (writerConfig.mk backend (WriterConfig.Template config)
                   (WriterConfig.TimeFormat config) (WriterConfig.Tag config));
      Ret (s, inl w)
  | None =>
      (* no candidate pair at all, [backend] and [err] both nil: does
         not happen, the two lists are never empty *)
      Panic (errorString "nil backend")
  end.

(** Lines 63-76 of [NewWriter]: the configuration read from the
    environment. *)
Definition NewWriter_config : WriterConfig.t + error :=
  let c := WriterConfig.zero in
  let s := os_Getenv "SYSLOG_URL" in
  let parsed :=
    if negb (len s =? 0)%nat then
      match url_Parse s with
      | inr err => inr (errorString ("invalid syslog URL: " +:+ Error err))
      | inl (scheme, host) =>
          inl (WriterConfig.set_Address host (WriterConfig.set_Network scheme c))
      end
    else inl c in
  match parsed with
  | inr err => inr err
  | inl c =>
      let c := WriterConfig.set_Template (os_Getenv "SYSLOG_TEMPLATE") c in
      let c := WriterConfig.set_TimeFormat (os_Getenv "SYSLOG_TIME_FORMAT") c in
      inl c
  end.

Definition NewWriter (group stream : string) (g : globals) (s : netState)
  : outcome (globals * netState * (writer.t B + error)) :=
  match (if enablePooling g then try_recv (writerPool g) else None) with
  | Some (w, pool) =>
      Ret (mkGlobals pool (enablePooling g) (newConnections g), s, inl w)
  | None =>
      let g :=
        mkGlobals (writerPool g) (enablePooling g)
          (wrap_uint64 (newConnections g + 1)) in
      match NewWriter_config with
      | inr err => Ret (g, s, inr err)
      | inl c =>
          run (s, r) <~ DialWriter c s;
          Ret (g, s, r)
      end
  end.

(** *** Vocabulary of the properties *)

(** The messages of a batch written one after the other, up to the first
    that fails. *)
Fixpoint write_each (w : writer.t B) (batch : list lib.Message.t)
  : writer.t B * option error :=
  match batch with
  | [] => (w, None)
  | msg :: rest =>
      match write w msg with
      | (w, Some err) => (w, Some err)
      | (w, None) => write_each w rest
      end
  end.

(** What [Close] does when it does not recycle: the backend is closed. *)
Definition closed_writer (w : writer.t B) : writer.t B :=
  writer.set_backend (fst (io_Close (writer.backend w))) w.

(** [Close] when it does not recycle. *)
Definition closes (w : writer.t B) (g : globals) : Prop :=
  Close w g = (g, closed_writer w, snd (io_Close (writer.backend w))).

(** [Close] called on each writer of a list in turn: the package
    variables afterwards, and each writer with what its [Close] returned. *)
Fixpoint Close_each (ws : list (writer.t B)) (g : globals)
  : globals * list (writer.t B * option error) :=
  match ws with
  | [] => (g, [])
  | w :: rest =>
      let '(g, w, err) := Close w g in
      let '(g, done) := Close_each rest g in
      (g, (w, err) :: done)
  end.

(** [NewWriter] called [n] times in a row. *)
Fixpoint NewWriter_times (n : nat) (g : globals) (s : netState)
  : outcome (globals * netState * list (writer.t B + error)) :=
  match n with
  | O => Ret (g, s, [])
  | S n =>
      run (gs, r) <~ NewWriter "" "" g s;
      run (gs', rs) <~ NewWriter_times n (fst gs) (snd gs);
      Ret (gs', r :: rs)
  end.

(** [k] calls of the dial function for one candidate, with a sleep of one
    second between two of them. *)
Fixpoint attempts (network address : string) (k : nat) : list event :=
  match k with
  | O => []
  | S O => [EvDial network address]
  | S k => EvDial network address :: EvSleep time_Second :: attempts network address k
  end.

(** [dialWriter] fails for each candidate of the list in turn, taking the
    outside from [s] to [s']. *)
Inductive all_fail (config : WriterConfig.t)
  : list (string * string) -> netState -> netState -> Prop :=
| all_fail_nil s : all_fail config [] s s
| all_fail_cons n a rest s s1 s2 err :
    dialWriter n a (WriterConfig.TLS config) (WriterConfig.SocksProxy config) s
    = Ret (s1, inr err) ->
    all_fail config rest s1 s2 ->
    all_fail config ((n, a) :: rest) s s2.

End Syslog.
End syslog.

(** ** A small concrete environment

    One instance of each library class, on which the model runs by
    computation: times are seconds, no text is JSON, templates render one
    line in one write, backends record what they are given and fail where
    their script says so, and a dial succeeds or fails as the script of the
    world says. *)
Module Sample.
Import GoStrings Go syslog.

Definition time : TimeLib :=
  {| time_Time := Z;
     time_zero := 0%Z;
     time_eq_dec := Z.eq_dec;
     time_Format := fun t _ => Itoa t;
     time_Unix := fun sec _ => sec |}.

Definition ecs : @EcslogsLib time :=
  {| EventData := unit;
     EventData_zero := tt;
     ecslogs_INFO := 7%Z;
     ecslogs_MakeLevel := fun p => (p + 1)%Z;
     FuncInfo_String := fun f => ecslogs.FuncInfo.File f +:+ ":" +:+ ecslogs.FuncInfo.Func f;
     Event_String := fun ev => ecslogs.Event.Message ev |}.

Definition encoding : EncodingLib :=
  {| json_Unmarshal_RawMessage := fun _ => inr (errorString "invalid character");
     json_Marshal_string := fun s => s;
     strconv_Unquote := fun _ => inr (errorString "invalid syntax");
     strconv_Atoi := fun _ => (0%Z, Some (errorString "invalid syntax")) |}.

(** An event of the given level and body, and nothing else. *)
Definition event_of (level : Z) (text : string) : @ecslogs.Event.t time unit :=
  @ecslogs.Event.mk time unit level 0%Z ecslogs.EventInfo.zero tt text false false.

Definition apex : @ApexLib time ecs :=
  @Build_ApexLib time ecs string (event_of 7) unit
    (fun _ _ _ => (tt, false))
    (fun _ => (ecslogs.FuncInfo.mk "" "" 0, false)).

Definition templates : TemplateLib :=
  {| template_Parse_error := fun _ => None;
     template_Execute := fun _ m =>
       (["<" +:+ Itoa (PRIVAL m) +:+ ">" +:+ GROUP m +:+ ": " +:+ MSG m +:+ String "010" ""],
        None) |}.

Definition os : OsLib :=
  {| os_Getenv := fun _ => "";
     url_Parse := fun _ => inr (errorString "invalid URL") |}.

(** A backend that records the writes it accepts.  [faults] says, write
    after write, whether the write fails; past its end every write
    succeeds. *)
Record pipe : Type := mkPipe {
  received : list string;
  faults : list bool;
  flushable : bool;
  flushed : nat;
  shut : bool
}.

Definition pipe_Write (p : pipe) (data : string) : pipe * option error :=
  match faults p with
  | true :: rest =>
      (mkPipe (received p) rest (flushable p) (flushed p) (shut p),
       Some (errorString "broken pipe"))
  | false :: rest =>
      (mkPipe (received p ++ [data]) rest (flushable p) (flushed p) (shut p), None)
  | [] => (mkPipe (received p ++ [data]) [] (flushable p) (flushed p) (shut p), None)
  end.

Definition backends : WriteCloser pipe :=
  {| io_Write := pipe_Write;
     io_Close := fun p =>
       (mkPipe (received p) (faults p) (flushable p) (flushed p) true, None);
     has_Flush := flushable;
     buf_Flush := fun p =>
       (mkPipe (received p) (faults p) (flushable p) (S (flushed p)) (shut p), None) |}.

(** The world is the script of the dials to come: [true] for one that
    connects; past its end every dial fails.  A connection is known by
    the address dialed. *)
Definition scripted_dial (network address : string) (w : list bool)
  : list bool * (string + error) :=
  match w with
  | true :: rest => (rest, inl address)
  | false :: rest => (rest, inr (errorString "connection refused"))
  | [] => ([], inr (errorString "connection refused"))
  end.

Definition net : NetLib :=
  {| World := list bool;
     net_Conn := string;
     tls_Config := unit;
     proxy_Dialer := unit;
     net_Dial := scripted_dial;
     tls_Dial := fun network address _ => scripted_dial network address;
     proxy_SOCKS5 := fun _ _ => inl tt;
     proxy_Dial := fun _ => scripted_dial;
     tls_Client_Handshake := fun conn _ w => (w, inl conn) |}.

Definition conns : @ConnBackend pipe net :=
  {| conn_backend := fun _ => mkPipe [] [] false 0 false;
     bufferedConn := fun _ => mkPipe [] [] true 0 false |}.

(** The outside before any dial, with the given script. *)
Definition outside (script : list bool) : @netState net :=
  @mkNetState net script [].

(** The outside once the dials have left [script] and done [events]. *)
Definition outside_after (script : list bool) (events : list event) : @netState net :=
  @mkNetState net script events.

(** A message of group [group] with body [text]. *)
Definition line (group text : string) : @lib.Message.t time ecs :=
  @lib.Message.mk time ecs group "stream" (event_of 3 text).

(** A writer as [newWriter] makes it, on a backend with the given
    script. *)
Definition writer_on (faults : list bool) : writer.t pipe :=
  writer.mk (writerConfig.mk (mkPipe [] faults false 0 false) DefaultTemplate time_Stamp "")
    "" (mkTemplate "syslog" (DefaultTemplate +:+ String "010" ""))
    out_bufferedWrite flush_nothing false.

(** A journal entry with the given fields. *)
Definition entry (kvs : list (string * string)) : @journald.Journal time :=
  @journald.mkJournal time (list_to_map kvs) (inl 0%Z) 0%Z false.

End Sample.

(** ** Package [syslog], continued: the connections made by [dialWriter] *)
Module syslog_conn.
Import GoStrings Go syslog.

(** What [net.Conn] and [bufio.Writer] do.  A [bufio.Writer] writes to the
    connection it was made for: its operations take and return the state
    of that connection too. *)
Class ConnLib `{NetLib} : Type := {
  conn_Write : net_Conn -> string -> net_Conn * option error;
  conn_Close : net_Conn -> net_Conn * option error;
  bufio_Writer : Type;
  (** the state of [bufio.NewWriter(conn)] *)
  bufio_NewWriter : bufio_Writer;
  bufio_Write : bufio_Writer -> net_Conn -> string -> bufio_Writer * net_Conn * option error;
  bufio_Flush : bufio_Writer -> net_Conn -> bufio_Writer * net_Conn * option error
}.

Section Conn.
Context `{ConnLib}.

(** The struct [bufferedConn]; its two fields point to the same
    connection. *)
Record bufferedConn_t : Type := mkBufferedConn {
  buf : bufio_Writer;
  conn : net_Conn
}.

Definition bufferedConn_Close (c : bufferedConn_t) : bufferedConn_t * option error :=
  let '(conn', err) := conn_Close (conn c) in
  (mkBufferedConn (buf c) conn', err).

Definition bufferedConn_Flush (c : bufferedConn_t) : bufferedConn_t * option error :=
  let '(buf', conn', err) := bufio_Flush (buf c) (conn c) in
  (mkBufferedConn buf' conn', err).

Definition bufferedConn_Write (c : bufferedConn_t) (b : string)
  : bufferedConn_t * option error :=
  let '(buf', conn', err) := bufio_Write (buf c) (conn c) b in
  (mkBufferedConn buf' conn', err).

(** The [io.WriteCloser] values that [dialWriter] returns: a connection,
    or a [bufferedConn]. *)
Inductive dialed : Type :=
| dialed_conn (c : net_Conn)
| dialed_buffered (c : bufferedConn_t).

(** The methods of these values.  The connections of [net], [crypto/tls]
    and [proxy] have no [Flush] method; [bufferedConn] has one. *)
Definition dialed_WriteCloser : WriteCloser dialed :=
  {| io_Write := fun b data =>
       match b with
       | dialed_conn c => let '(c', err) := conn_Write c data in (dialed_conn c', err)
       | dialed_buffered c =>
           let '(c', err) := bufferedConn_Write c data in (dialed_buffered c', err)
       end;
     io_Close := fun b =>
       match b with
       | dialed_conn c => let '(c', err) := conn_Close c in (dialed_conn c', err)
       | dialed_buffered c =>
           let '(c', err) := bufferedConn_Close c in (dialed_buffered c', err)
       end;
     has_Flush := fun b =>
       match b with
       | dialed_conn _ => false
       | dialed_buffered _ => true
       end;
     buf_Flush := fun b =>
       match b with
       | dialed_conn c => (dialed_conn c, None)
       | dialed_buffered c =>
           let '(c', err) := bufferedConn_Flush c in (dialed_buffered c', err)
       end |}.

(** Lines 347-355 of [dialWriter]: [w = conn], and
    [w = bufferedConn{conn: conn, buf: bufio.NewWriter(conn)}]. *)
Definition dialed_ConnBackend : ConnBackend dialed :=
  {| conn_backend := dialed_conn;
     bufferedConn := fun conn => dialed_buffered (mkBufferedConn bufio_NewWriter conn) |}.

End Conn.
End syslog_conn.

(** ** Package [syslog], continued: vocabulary of further properties *)
Module syslog_more.
Import GoStrings Go syslog.

(** The network that [dialWriter] dials for a candidate network. *)
Definition dial_network (network : string) : string :=
  if String.eqb network "tls" then "tcp" else network.

(** The text that [newWriter] hands to the template parser for a
    configured template: the default for an empty one, a newline added
    when there is none at the end. *)
Definition installed_text (template : string) : string :=
  let format := if (len template =? 0)%nat then DefaultTemplate else template in
  if HasSuffix format (String "010" "") then format else format +:+ String "010" "".

(** The time slept in a trace, in nanoseconds. *)
Fixpoint slept (events : list event) : Z :=
  match events with
  | [] => 0
  | EvSleep d :: rest => (d + slept rest)%Z
  | EvDial _ _ :: rest => slept rest
  end.

(** The number of dials in a trace. *)
Fixpoint dials (events : list event) : nat :=
  match events with
  | [] => 0
  | EvDial _ _ :: rest => S (dials rest)
  | EvSleep _ :: rest => dials rest
  end.

(** The trace of three failed dials of each candidate in turn. *)
Definition three_attempts_each (pairs : list (string * string)) : list event :=
  flat_map (fun p => attempts (dial_network (fst p)) (snd p) 3) pairs.

End syslog_more.

(** ** Package [journald], continued: [NewReader] and the reading loop *)
Module journald_more.
Import GoStrings Go journald.

(** Package [sdjournal], as [NewReader] uses it. *)
Class SdjournalLib `{EcslogsLib} `{EncodingLib} : Type := {
  (** [sdjournal.NewJournal()] *)
  sdjournal_NewJournal : Journal + error;
  (** [j.SeekTail()] *)
  sdjournal_SeekTail : Journal -> Journal * option error
}.

Section Loop.
Context `{EcslogsLib} `{EncodingLib}.

(** A turn of the loop that the caller of [ReadMessage] can see: not an
    idle poll, and not an entry without a (non-empty) [CONTAINER_TAG]. *)
Definition visible (t : turn) : bool :=
  match t with
  | NextNothing => false
  | NextEntry j =>
      match fields j !! "CONTAINER_TAG" with
      | Some group => negb (String.eqb group "")
      | None => false
      end
  | _ => true
  end.

(** The steps of [fillEvent], one after the other: the body (lines
    282-304), the level (306-308), the fields of [Info] (310-336) and the
    time (338-340). *)
Definition fill_body (r : reader) (ev : ecslogs.Event.t EventData)
  : ecslogs.Event.t EventData :=
  let s := getString r "MESSAGE" in
  let '(raw, ok) := stringToRawMessage s in
  if ok then
    match strconv_Unquote s with
    | inl unquoted =>
        let '(raw1, ok1) := stringToRawMessage unquoted in
        if ok1 then ecslogs.Event.set_body raw1 true true ev
        else ecslogs.Event.set_body raw true false ev
    | inr _ => ecslogs.Event.set_body raw true false ev
    end
  else ecslogs.Event.set_body (json_Marshal_string s) false false ev.

Definition fill_level (r : reader) (ev : ecslogs.Event.t EventData)
  : ecslogs.Event.t EventData :=
  if (ecslogs.Event.Level ev =? ecslogs.NONE)%Z
  then ecslogs.Event.set_Level (getPriority r) ev else ev.

Definition fill_info (r : reader) (info : ecslogs.EventInfo.t) : ecslogs.EventInfo.t :=
  let info :=
    if (len (ecslogs.EventInfo.Host info) =? 0)%nat
    then ecslogs.EventInfo.set_Host (getString r "_HOSTNAME") info else info in
  let info :=
    if (len (ecslogs.EventInfo.Source info) =? 0)%nat
    then ecslogs.EventInfo.set_Source
           (FuncInfo_String
              (ecslogs.FuncInfo.mk (getString r "CODE_FILE")
                 (getString r "CODE_FUNC") (getInt r "CODE_LINE"))) info
    else info in
  let info :=
    if (len (ecslogs.EventInfo.ID info) =? 0)%nat
    then ecslogs.EventInfo.set_ID (getString r "MESSAGE_ID") info else info in
  let info :=
    if (ecslogs.EventInfo.PID info =? 0)%Z
    then ecslogs.EventInfo.set_PID (getInt r "_PID") info else info in
  let info :=
    if (ecslogs.EventInfo.GID info =? 0)%Z
    then ecslogs.EventInfo.set_GID (getInt r "_GID") info else info in
  if (ecslogs.EventInfo.UID info =? 0)%Z
  then ecslogs.EventInfo.set_UID (getInt r "_UID") info else info.

Definition fill_time (r : reader) (ev : ecslogs.Event.t EventData)
  : ecslogs.Event.t EventData :=
  if bool_decide (ecslogs.Event.Time ev = time_zero)
  then ecslogs.Event.set_Time (getTime r) ev else ev.

(** [j.Close()] *)
Definition Journal_Close (j : Journal) : Journal :=
  mkJournal (fields j) (realtime_usec j) (time_Now j) true.

(** What the caller of [ReadMessage] gets, if it returns. *)
Definition returned (res : read_result) : option (lib.Message.t * option error) :=
  match res with
  | Returned _ msg err => Some (msg, err)
  | Reading _ => None
  end.

(** Two readers that differ by the entry under the cursor only. *)
Definition same_reader (r1 r2 : reader) : Prop :=
  streamName r1 = streamName r2 /\ stopped r1 = stopped r2.

(** A message that holds a group at most. *)
Definition unfilled (msg : lib.Message.t) : Prop :=
  lib.Message.Stream msg = ""
  /\ lib.Message.Event msg = lib.Message.Event lib.Message.zero.

(** Why [ReadMessage] returned the error [err], leaving the reader [r']
    and the message [msg]. *)
Definition error_cause (turns : list turn) (r' : reader) (msg : lib.Message.t)
    (err : error) : Prop :=
  (err = io_EOF /\ closed (journal r') = true /\ stopped r' <> 0%Z)
  \/ In (NextFails err) turns
  \/ exists group,
       fields (journal r') !! "CONTAINER_TAG" = Some group /\ group <> ""
       /\ fields (journal r') !! streamName r' = None
       /\ fields (journal r') !! "CONTAINER_ID_FULL" = None
       /\ lib.Message.Group msg = group
       /\ err = errorString
                  ("missing CONTAINER_ID_FULL in message with CONTAINER_TAG=" +:+ group).

End Loop.

Section NewReader.
Context `{SdjournalLib} `{syslog.OsLib}.

(** [NewReader] returns [(r, err)]; the first component here is the
    journal it opened, if any, as it leaves it. *)
Definition NewReader : option Journal * (reader + error) :=
  match sdjournal_NewJournal with
  | inr err => (None, inr err)
  | inl j =>
      match sdjournal_SeekTail j with
      | (j, Some err) => (Some (Journal_Close j), inr err)
      | (j, None) =>
          let streamName := syslog.os_Getenv "JOURNALD_STREAM_NAME" in
          let streamName :=
            if (len streamName =? 0)%nat then "CONTAINER_ID_FULL" else streamName in
          (Some j, inl (mkReader streamName 0 j))
      end
  end.

End NewReader.


Section Handler.
Context `{ApexLib}.

(** What [HandleLog] makes of an entry: the message [msg] has the group
    and the stream of the handler and the event of the entry, with the
    host of the handler when the event has none; a source that the event
    has is kept. *)
Definition handled (h : lib.LogHandler) (entry : log_Entry) (msg : lib.Message.t) : Prop :=
  let ev := apex_MakeEvent entry in
  let ev' := lib.Message.Event msg in
  lib.Message.Group msg = lib.Group h
  /\ lib.Message.Stream msg = lib.Stream h
  /\ ecslogs.Event.set_Info (ecslogs.Event.Info ev) ev' = ev
  /\ ecslogs.EventInfo.set_Source (ecslogs.EventInfo.Source (ecslogs.Event.Info ev))
       (ecslogs.Event.Info ev')
     = (if (len (ecslogs.EventInfo.Host (ecslogs.Event.Info ev)) =? 0)%nat
        then ecslogs.EventInfo.set_Host (lib.Hostname h) (ecslogs.Event.Info ev)
        else ecslogs.Event.Info ev)
  /\ (ecslogs.EventInfo.Source (ecslogs.Event.Info ev) <> "" ->
      ecslogs.EventInfo.Source (ecslogs.Event.Info ev')
      = ecslogs.EventInfo.Source (ecslogs.Event.Info ev)).

(** [HandleLog] called on each entry of a list in turn. *)
Fixpoint HandleLog_each (h : lib.LogHandler) (entries : list log_Entry)
    (Queue : lib.MessageQueue) : lib.MessageQueue :=
  match entries with
  | [] => Queue
  | entry :: rest => HandleLog_each h rest (fst (lib.HandleLog h entry Queue))
  end.

End Handler.
End journald_more.

(** ** Package [datadog]: [lib/datadog/writer.go] *)
Module datadog.
Import GoStrings Go.

(** [statsd.WriterConfig], as [NewWriter] fills it; [Dial] is a function,
    nil in the zero value. *)
Record WriterConfig (DialFunc : Type) : Type := mkWriterConfig {
  Address : string;
  Group : string;
  Stream : string;
  Dial : option DialFunc
}.
Arguments mkWriterConfig {DialFunc}.
Arguments Address {DialFunc}.
Arguments Group {DialFunc}.
Arguments Stream {DialFunc}.
Arguments Dial {DialFunc}.

(** Packages [github.com/statsd/datadog] and [lib/statsd], the latter not
    among the sources: its [DialWriter] is taken as it is. *)
Class StatsdLib `{EcslogsLib} : Type := {
  (** the state of everything a dial can reach *)
  Net : Type;
  (** [*datadog.Client] *)
  datadog_Client : Type;
  datadog_Dial : string -> Net -> Net * (datadog_Client + error);
  datadog_SetPrefix : string -> datadog_Client -> datadog_Client;
  datadog_SetTags : list string -> datadog_Client -> datadog_Client;
  datadog_IncrBy : string -> Z -> list string -> datadog_Client -> datadog_Client * option error;
  (** [ecslogs.Level.String] and [strings.ToLower] *)
  Level_String : ecslogs.Level -> string;
  strings_ToLower : string -> string;
  (** [lib.Writer] *)
  lib_Writer : Type;
  statsd_DialWriter :
    WriterConfig (string -> string -> string -> Net -> Net * (datadog_Client + error)) ->
    Net -> Net * (lib_Writer + error)
}.

Section Datadog.
Context `{StatsdLib} `{syslog.OsLib}.

(** The type of the [Dial] field. *)
Definition DialFunc : Type :=
  string -> string -> string -> Net -> Net * (datadog_Client + error).

Definition dialUdpClient (addr group stream : string) (n : Net)
  : Net * (datadog_Client + error) :=
  match datadog_Dial addr n with
  | (n, inr err) => (n, inr err)
  | (n, inl dd) =>
      let dd := datadog_SetPrefix "ecs-logs." dd in
      let dd := datadog_SetTags ["group:" +:+ group; "stream:" +:+ stream] dd in
      (n, inl dd)
  end.

Definition IncrEvents (c : datadog_Client) (level : ecslogs.Level) (value : Z)
  : datadog_Client * option error :=
  datadog_IncrBy "events.count" value ["level:" +:+ strings_ToLower (Level_String level)] c.

Definition NewWriter (group stream : string) (n : Net) : Net * (lib_Writer + error) :=
  let c : WriterConfig DialFunc := mkWriterConfig "" "" "" None in
  let s := syslog.os_Getenv "DATADOG_URL" in
  let parsed :=
    if negb (len s =? 0)%nat then
      match syslog.url_Parse s with
      | inr err => inr (errorString ("invalid datadog URL: " +:+ Error err))
      | inl (scheme, host) =>
          if negb (String.eqb scheme "udp") then
            inr (errorString
                   ("invalid datadog URL: only the UDP protocol is supported but "
                    +:+ scheme +:+ " was found"))
          else inl (mkWriterConfig host (Group c) (Stream c) (Dial c))
      end
    else inl c in
  match parsed with
  | inr err => (n, inr err)
  | inl c =>
      let c := mkWriterConfig (Address c) group (Stream c) (Dial c) in
      let c := mkWriterConfig (Address c) (Group c) stream (Dial c) in
      let c := mkWriterConfig (Address c) (Group c) (Stream c) (Some dialUdpClient) in
      statsd_DialWriter c n
  end.

End Datadog.
End datadog.

(** ** More of the small concrete environment *)
Module SampleMore.
Import GoStrings Go syslog.

(** Templates whose execution writes a first piece and then fails. *)
Definition failing_templates : TemplateLib :=
  {| template_Parse_error := fun _ => None;
     template_Execute := fun _ m =>
       (["<" +:+ Itoa (PRIVAL m) +:+ ">"],
        Some (errorString "can't evaluate field NOPE")) |}.

(** Templates that parse unless they hold an unclosed action. *)
Definition strict_templates : TemplateLib :=
  {| template_Parse_error := fun text =>
       if String.eqb text ("{{.MSG" +:+ String "010" "")
       then Some (errorString "unclosed action") else None;
     template_Execute := fun _ m => ([MSG m +:+ String "010" ""], None) |}.

(** An environment whose [SYSLOG_URL] does not parse. *)
Definition os_bad_url : OsLib :=
  {| os_Getenv := fun k => if String.eqb k "SYSLOG_URL" then "://" else "";
     url_Parse := fun _ => inr (errorString "missing protocol scheme") |}.

(** An environment that names a TCP server and a stream field, and a
    Datadog agent. *)
Definition os_tcp : OsLib :=
  {| os_Getenv := fun k =>
       if String.eqb k "SYSLOG_URL" then "tcp://logs.example.com:514"
       else if String.eqb k "JOURNALD_STREAM_NAME" then "CONTAINER_NAME"
       else if String.eqb k "DATADOG_URL" then "tcp://agent:8125"
       else "";
     url_Parse := fun s =>
       if String.eqb s "tcp://logs.example.com:514" then inl ("tcp", "logs.example.com:514")
       else if String.eqb s "tcp://agent:8125" then inl ("tcp", "agent:8125")
       else inr (errorString "missing protocol scheme") |}.

(** The encodings for entries whose [MESSAGE] is the JSON text
    of an empty object, or that text quoted, or not JSON; the only number
    is 6. *)
Definition quoted (s : string) : string := String "034" s +:+ String "034" "".

Definition encoding_json : EncodingLib :=
  {| json_Unmarshal_RawMessage := fun s =>
       if String.eqb s "{}" || String.eqb s (quoted "{}") then inl s
       else inr (errorString "invalid character");
     json_Marshal_string := quoted;
     strconv_Unquote := fun s =>
       if String.eqb s (quoted "{}") then inl "{}"
       else inr (errorString "invalid syntax");
     strconv_Atoi := fun s =>
       if String.eqb s "6" then (6%Z, None)
       else (0%Z, Some (errorString "invalid syntax")) |}.

(** Connections that take every write, and buffered writers that keep
    the bytes written until they are flushed. *)
Definition wire : @syslog_conn.ConnLib Sample.net :=
  @syslog_conn.Build_ConnLib Sample.net
    (fun c _ => (c, None))
    (fun c => (c, None))
    string
    ""
    (fun b c data => (b +:+ data, c, None))
    (fun _ c => ("", c, None)).

(** A buffered connection to [logs.example.com:514] with the bytes
    [pending] in its buffer. *)
Definition tls_conn (pending : string) : @syslog_conn.bufferedConn_t Sample.net wire :=
  @syslog_conn.mkBufferedConn Sample.net wire pending "logs.example.com:514".

(** The writer that [newWriter] makes of a new one. *)
Definition tls_writer : writer.t (@syslog_conn.dialed Sample.net wire) :=
  writer.mk
    (writerConfig.mk (@syslog_conn.dialed_buffered Sample.net wire (tls_conn ""))
       DefaultTemplate time_Stamp "")
    "" (mkTemplate "syslog" (DefaultTemplate +:+ String "010" ""))
    out_directWrite flush_backend false.

(** The writer that [newWriter] makes of a backend with a [Flush]
    method. *)
Definition direct_writer : writer.t Sample.pipe :=
  writer.mk (writerConfig.mk (Sample.mkPipe [] [] true 0 false) DefaultTemplate time_Stamp "")
    "" (mkTemplate "syslog" (DefaultTemplate +:+ String "010" ""))
    out_directWrite flush_backend false.

(** A journal that opens and whose [SeekTail] works. *)
Definition sdjournal : @journald_more.SdjournalLib Sample.time Sample.ecs Sample.encoding :=
  @journald_more.Build_SdjournalLib Sample.time Sample.ecs Sample.encoding
    (inl (Sample.entry []))
    (fun j => (j, None)).

(** A journal that opens and whose [SeekTail] fails. *)
Definition sdjournal_no_tail
  : @journald_more.SdjournalLib Sample.time Sample.ecs Sample.encoding :=
  @journald_more.Build_SdjournalLib Sample.time Sample.ecs Sample.encoding
    (inl (Sample.entry []))
    (fun j => (j, Some (errorString "bad descriptor"))).

(** A Datadog agent that nothing reaches; the world counts the dials. *)
Definition statsd : @datadog.StatsdLib Sample.time Sample.ecs :=
  @datadog.Build_StatsdLib Sample.time Sample.ecs
    nat
    unit
    (fun _ n => (S n, inr (errorString "connection refused")))
    (fun _ c => c)
    (fun _ c => c)
    (fun _ _ _ c => (c, None))
    (fun _ => "INFO")
    (fun s => s)
    unit
    (fun _ n => (S n, inr (errorString "connection refused"))).

(** A network whose connections say how they were made, and whose world
    is the list of the calls made so far: every dial connects. *)
Definition net_tagged : NetLib :=
  {| World := list string;
     net_Conn := string;
     tls_Config := unit;
     proxy_Dialer := string;
     net_Dial := fun _ address w => (w ++ ["net.Dial"], inl ("plain:" +:+ address));
     tls_Dial := fun _ address _ w => (w ++ ["tls.Dial"], inl ("tls:" +:+ address));
     proxy_SOCKS5 := fun _ proxy => inl proxy;
     proxy_Dial := fun _ _ address w =>
       (w ++ ["socks.Dial"], inl ("plain-via-socks:" +:+ address));
     tls_Client_Handshake := fun conn _ w =>
       (w ++ ["tls.Handshake"], inl ("tls-over:" +:+ conn)) |}.

Definition wire_tagged : @syslog_conn.ConnLib net_tagged :=
  @syslog_conn.Build_ConnLib net_tagged
    (fun c _ => (c, None))
    (fun c => (c, None))
    string
    ""
    (fun b c data => (b +:+ data, c, None))
    (fun _ c => ("", c, None)).

(** A remote address, no network, no TLS configuration, with and without
    a SOCKS proxy. *)
Definition proxied_config : @WriterConfig.t net_tagged :=
  @WriterConfig.mk net_tagged "" "logs.example.com:514" "" "" "" None "proxy.example.com:1080".

Definition direct_config : @WriterConfig.t net_tagged :=
  @WriterConfig.mk net_tagged "" "logs.example.com:514" "" "" "" None "".

(** The outside of this network before any call, and after the calls
    [calls] were made with the dials [events]. *)
Definition tagged_outside : @netState net_tagged := @mkNetState net_tagged [] [].

Definition tagged_outside_after (calls : list string) (events : list event)
  : @netState net_tagged :=
  @mkNetState net_tagged calls events.

(** The buffered backend on the connection [c]. *)
Definition tagged_buffered (c : string) : @syslog_conn.dialed net_tagged wire_tagged :=
  @syslog_conn.dialed_buffered net_tagged wire_tagged
    (@syslog_conn.mkBufferedConn net_tagged wire_tagged "" c).

(** The world before any dial of the agent. *)
Definition no_dials : @datadog.Net Sample.time Sample.ecs statsd := 0%nat.

End SampleMore.

(** * Properties *)

(** ** Strings *)
Section StringFacts.
Import GoStrings.

Lemma Replace_byte (c d : ascii) (s : string) :
  Replace s (String c "") (String d "") = map_bytes (fun x => if Ascii.eqb x c then d else x) s.
Proof.
  unfold Replace. induction s as [|x rest IH]; [reflexivity|].
  cbn [replace_from map_bytes String.prefix len String.length Nat.sub].
  destruct (ascii_dec c x) as [->|Hne].
  - rewrite Ascii.eqb_refl. destruct rest; cbn [String.append]; now rewrite <- IH.
  - assert (Ascii.eqb x c = false) as -> by (apply Ascii.eqb_neq; congruence).
    now rewrite <- IH.
Qed.

Lemma len_map_bytes f s : len (map_bytes f s) = len s.
Proof. unfold len. induction s; cbn; congruence. Qed.

Lemma all_bytes_map_bytes (p : ascii -> bool) f s :
  (forall x, p (f x) = true) -> all_bytes p (map_bytes f s) = true.
Proof. intros Hf. induction s; cbn; [reflexivity|]. now rewrite Hf, IHs. Qed.


Lemma map_bytes_id_on (p : ascii -> bool) f s :
  (forall x, p x = true -> f x = x) -> all_bytes p s = true -> map_bytes f s = s.
Proof.
  intros Hf. induction s; cbn; [reflexivity|].
  intros [Ha Hs]%andb_true_iff. now rewrite (Hf _ Ha), IHs.
Qed.

Lemma all_bytes_slice_to (p : ascii -> bool) s n :
  all_bytes p s = true -> all_bytes p (slice_to s n) = true.
Proof.
  unfold slice_to. revert n. induction s as [|c s IH]; intros [|n]; cbn; try reflexivity.
  intros [Ha Hs]%andb_true_iff. rewrite Ha. now apply IH.
Qed.

Lemma len_slice_to s n : len (slice_to s n) = Nat.min n (len s).
Proof.
  unfold slice_to, len. revert n. induction s as [|c s IH]; intros [|n]; cbn; try reflexivity.
  now rewrite IH.
Qed.

Lemma slice_to_all s n : (len s <= n)%nat -> slice_to s n = s.
Proof.
  unfold slice_to, len. revert n. induction s as [|c s IH]; intros [|n]; cbn; try reflexivity.
  - lia.
  - intros Hle. f_equal. apply IH. lia.
Qed.

Lemma contains_byte_all_bytes c s :
  contains_byte c s = negb (all_bytes (fun x => negb (Ascii.eqb c x)) s) .
Proof.
  induction s as [|d s IH]; cbn; [reflexivity|].
  rewrite IH. now destruct (Ascii.eqb c d).
Qed.

Lemma map_bytes_compose f g s :
  map_bytes g (map_bytes f s) = map_bytes (fun x => g (f x)) s.
Proof. induction s; cbn; congruence. Qed.

End StringFacts.

(** ** The journal reader: stream names *)
Section SanitizeFacts.
Import GoStrings journald.

Lemma sanitizeStreamName_unfold name :
  sanitizeStreamName name =
  slice_to (map_bytes slash_for_colon_star name) (Nat.min 512 (len name)).
Proof.
  unfold sanitizeStreamName. rewrite !Replace_byte, map_bytes_compose, !len_map_bytes.
  fold slash_for_colon_star.
  destruct (Nat.ltb_spec 512 (len name)) as [Hlt|Hge].
  - now rewrite Nat.min_l by lia.
  - now rewrite Nat.min_r by lia.
Qed.

Lemma slash_for_colon_star_clean x : clean_byte (slash_for_colon_star x) = true.
Proof.
  unfold slash_for_colon_star, clean_byte.
  destruct (Ascii.eqb_spec x ":") as [->|H1]; [reflexivity|].
  destruct (Ascii.eqb_spec x "*") as [->|H2]; [reflexivity|].
  apply andb_true_iff; split; apply negb_true_iff, Ascii.eqb_neq; congruence.
Qed.

Lemma slash_for_colon_star_fixes x : clean_byte x = true -> slash_for_colon_star x = x.
Proof.
  unfold slash_for_colon_star, clean_byte.
  intros [H1 H2]%andb_true_iff.
  apply negb_true_iff, Ascii.eqb_neq in H1. apply negb_true_iff, Ascii.eqb_neq in H2.
  destruct (Ascii.eqb_spec x ":") as [->|_]; [congruence|].
  destruct (Ascii.eqb_spec x "*") as [->|_]; [congruence|reflexivity].
Qed.


Lemma sanitizeStreamName_clean name :
  all_bytes clean_byte (sanitizeStreamName name) = true.
Proof.
  rewrite sanitizeStreamName_unfold. apply all_bytes_slice_to, all_bytes_map_bytes.
  exact slash_for_colon_star_clean.
Qed.

Lemma sanitizeStreamName_len name : (len (sanitizeStreamName name) <= 512)%nat.
Proof. rewrite sanitizeStreamName_unfold, len_slice_to. lia. Qed.

Lemma clean_no_byte c s :
  clean_byte c = false -> all_bytes clean_byte s = true -> contains_byte c s = false.
Proof.
  intros Hc. induction s as [|d s IH]; cbn; [reflexivity|].
  intros [Hd Hs]%andb_true_iff. rewrite (IH Hs), orb_false_r.
  apply Ascii.eqb_neq. intros ->. congruence.
Qed.




End SanitizeFacts.

(** ** The syslog writer: writing *)
Section WriterFacts.
Import GoStrings Go syslog.
Context `{EcslogsLib} `{TemplateLib} `{OsLib}.
Context {B : Type} `{WriteCloser B} `{ConnBackend B}.

Implicit Types (w : writer.t B) (msg : lib.Message.t) (batch : list lib.Message.t).

(** C10: [WriteMessage] writes, flushes, marks dead and fails exactly as
    [WriteMessageBatch] does on the batch of that one message. *)
Theorem WriteMessage_is_singleton_batch w msg :
  WriteMessage w msg = WriteMessageBatch w [msg].
Proof.
  unfold WriteMessage. cbn [WriteMessageBatch].
  destruct (write w msg) as [w' [err|]]; reflexivity.
Qed.

Lemma WriteMessageBatch_app w w1 written rest :
  write_each w written = (w1, None) ->
  WriteMessageBatch w (written ++ rest) = WriteMessageBatch w1 rest.
Proof.
  revert w. induction written as [|m written IH]; intros w; cbn [write_each app WriteMessageBatch].
  - now intros [= ->].
  - destruct (write w m) as [w' [err|]]; [discriminate|]. apply IH.
Qed.

(** A batch is its messages written in turn up to the first failure,
    then a flush when none failed. *)
Lemma WriteMessageBatch_write_each w batch :
  WriteMessageBatch w batch =
  match write_each w batch with
  | (w', Some err) => (writer.set_dead true w', Some err)
  | (w', None) =>
      match call_flush w' with
      | (w'', Some err) => (writer.set_dead true w'', Some err)
      | (w'', None) => (w'', None)
      end
  end.
Proof.
  revert w. induction batch as [|m batch IH]; intros w; cbn [WriteMessageBatch write_each].
  - reflexivity.
  - destruct (write w m) as [w' [err|]]; [reflexivity|apply IH].
Qed.

(** No write and no flush clears the mark of a dead writer. *)
Lemma call_out_dead w m : writer.dead (fst (call_out w m)) = writer.dead w.
Proof.
  unfold call_out, directWrite, bufferedWrite.
  destruct (writer.out w).
  - destruct (template_Execute (writer.tpl w) m) as [chunks exec_err].
    destruct (write_chunks (writer.backend w) chunks) as [b [err|]]; reflexivity.
  - cbn [writer.set_buf writer.backend writer.config writer.buf writer.tpl].
    destruct (io_Write _ _) as [b err]. reflexivity.
Qed.

Lemma call_flush_dead w : writer.dead (fst (call_flush w)) = writer.dead w.
Proof.
  unfold call_flush. destruct (writer.flush w); [|reflexivity].
  destruct (buf_Flush (writer.backend w)) as [b err]. reflexivity.
Qed.

Lemma write_each_dead w batch : writer.dead (fst (write_each w batch)) = writer.dead w.
Proof.
  revert w. induction batch as [|m batch IH]; intros w; cbn [write_each]; [reflexivity|].
  pose proof (call_out_dead w (write_message w m)) as Hm. fold (write w m) in Hm.
  destruct (write w m) as [w' [err|]]; cbn [fst] in Hm |- *; [exact Hm|].
  now rewrite IH.
Qed.

Lemma WriteMessageBatch_stays_dead w batch :
  writer.dead w = true -> writer.dead (fst (WriteMessageBatch w batch)) = true.
Proof.
  intros Hdead. rewrite WriteMessageBatch_write_each.
  pose proof (write_each_dead w batch) as Hw.
  destruct (write_each w batch) as [w' [err|]]; cbn [fst] in Hw |- *; [reflexivity|].
  pose proof (call_flush_dead w') as Hf.
  destruct (call_flush w') as [w'' [err|]]; cbn [fst] in Hf |- *; [reflexivity|].
  congruence.
Qed.

Lemma Close_dead w (g : globals) :
  writer.dead w = true ->
  Close w g = (g, closed_writer w, snd (io_Close (writer.backend w))).
Proof.
  intros Hdead. unfold Close, closed_writer. rewrite Hdead.
  now destruct (io_Close (writer.backend w)).
Qed.

(** The writes do not look at the mark: with another mark the same
    writes are made and the same error comes back, and the writer is left
    the same, its mark apart. *)
Lemma call_out_ignores_dead (d : bool) w m :
  call_out (writer.set_dead d w) m
  = (writer.set_dead d (fst (call_out w m)), snd (call_out w m)).
Proof.
  destruct w as [cfg buffer tpl out flush dead].
  unfold call_out, directWrite, bufferedWrite, writer.set_dead, writer.set_buf,
    writer.set_backend, writer.backend.
  cbn [writer.out writer.tpl writer.config writer.buf writer.flush writer.dead].
  destruct out.
  - destruct (template_Execute tpl m) as [chunks exec_err].
    destruct (write_chunks (writerConfig.backend cfg) chunks) as [b [err|]]; reflexivity.
  - destruct (io_Write _ _) as [b err]. reflexivity.
Qed.

Lemma write_ignores_dead (d : bool) w msg :
  write (writer.set_dead d w) msg
  = (writer.set_dead d (fst (write w msg)), snd (write w msg)).
Proof. unfold write. now rewrite <- call_out_ignores_dead. Qed.

Lemma call_flush_ignores_dead (d : bool) w :
  call_flush (writer.set_dead d w)
  = (writer.set_dead d (fst (call_flush w)), snd (call_flush w)).
Proof.
  destruct w as [cfg buffer tpl out flush dead].
  unfold call_flush, writer.set_dead, writer.set_backend, writer.backend.
  cbn [writer.out writer.tpl writer.config writer.buf writer.flush writer.dead].
  destruct flush; [|reflexivity].
  destruct (buf_Flush _) as [b err]. reflexivity.
Qed.

Lemma WriteMessageBatch_ignores_dead (d : bool) w batch :
  snd (WriteMessageBatch (writer.set_dead d w) batch) = snd (WriteMessageBatch w batch)
  /\ forall x : bool,
       writer.set_dead x (fst (WriteMessageBatch (writer.set_dead d w) batch))
       = writer.set_dead x (fst (WriteMessageBatch w batch)).
Proof.
  revert w. induction batch as [|m batch IH]; intros w; cbn [WriteMessageBatch].
  - rewrite call_flush_ignores_dead.
    destruct (call_flush w) as [w' [err|]]; cbn [fst snd]; split; reflexivity.
  - rewrite write_ignores_dead.
    destruct (write w m) as [w' [err|]]; cbn [fst snd]; [split; reflexivity|apply IH].
Qed.

(** C1, as amended: when the first [k-1] messages of a batch are written
    and the write of the [k]-th fails, [WriteMessageBatch] returns that
    error and leaves the writer as that failed write left it, marked dead,
    whatever messages follow in the batch: none of them is attempted.  The
    mark stays through every later batch.  The
    mark does not make later writes fail: [write], [WriteMessage] and
    [WriteMessageBatch] never look at it, on any writer they make the same
    writes and return the same error whatever the mark is, and leave the
    same writer, its mark apart.  What the mark changes is [Close], which
    closes the backend of a dead writer and never puts it back into the
    pool, where a healthy writer goes when pooling is on and there is
    room. *)
Theorem WriteMessageBatch_aborts_at_first_failure
    w w1 w2 (written : list lib.Message.t) msg (rest : list lib.Message.t) err :
  write_each w written = (w1, None) ->
  write w1 msg = (w2, Some err) ->
  WriteMessageBatch w (written ++ msg :: rest) = (writer.set_dead true w2, Some err)
  /\ writer.dead (fst (WriteMessageBatch w (written ++ msg :: rest))) = true
  /\ writer.backend (fst (WriteMessageBatch w (written ++ msg :: rest))) = writer.backend w2
  /\ (forall later : list lib.Message.t,
       writer.dead (fst (WriteMessageBatch (writer.set_dead true w2) later)) = true)
  /\ (forall g : globals,
       Close (writer.set_dead true w2) g
       = (g, closed_writer (writer.set_dead true w2), snd (io_Close (writer.backend w2))))
  /\ (forall (w0 : writer.t B) (d x : bool) (m : lib.Message.t)
             (later : list lib.Message.t),
       write (writer.set_dead d w0) m
       = (writer.set_dead d (fst (write w0 m)), snd (write w0 m))
       /\ snd (WriteMessage (writer.set_dead d w0) m) = snd (WriteMessage w0 m)
       /\ writer.set_dead x (fst (WriteMessage (writer.set_dead d w0) m))
          = writer.set_dead x (fst (WriteMessage w0 m))
       /\ snd (WriteMessageBatch (writer.set_dead d w0) later)
          = snd (WriteMessageBatch w0 later)
       /\ writer.set_dead x (fst (WriteMessageBatch (writer.set_dead d w0) later))
          = writer.set_dead x (fst (WriteMessageBatch w0 later)))
  /\ (forall (healthy : writer.t B) (g : globals) (pool : chan (writer.t B)),
       writer.dead healthy = false ->
       enablePooling g = true ->
       try_send (writerPool g) healthy = Some pool ->
       Close healthy g = (mkGlobals pool (enablePooling g) (newConnections g), healthy, None)).
Proof.
  intros Hwritten Hfail.
  assert (WriteMessageBatch w (written ++ msg :: rest) = (writer.set_dead true w2, Some err)) as Heq.
  { rewrite (WriteMessageBatch_app _ _ _ _ Hwritten). cbn [WriteMessageBatch].
    now rewrite Hfail. }
  rewrite Heq. split; [reflexivity|]. split; [reflexivity|]. split; [reflexivity|].
  split; [|split; [|split]].
  - intros later. now apply WriteMessageBatch_stays_dead.
  - intros g. now rewrite Close_dead.
  - intros w0 d x m later.
    destruct (WriteMessageBatch_ignores_dead d w0 [m]) as [Herr1 Hw1].
    destruct (WriteMessageBatch_ignores_dead d w0 later) as [Herr Hw].
    rewrite !WriteMessage_is_singleton_batch.
    split; [apply write_ignores_dead|]. split; [exact Herr1|]. split; [apply Hw1|].
    split; [exact Herr|apply Hw].
  - intros healthy g pool Hlive Hpooling Hsend. unfold Close.
    now rewrite Hlive, Hpooling, Hsend.
Qed.

Lemma len_is_empty (x : string) : (len x =? 0)%nat = String.eqb x "".
Proof. now destruct x. Qed.

Lemma wrap_int_small z : (- 2 ^ 63 <= z < 2 ^ 63)%Z -> wrap_int z = z.
Proof. intros Hz. unfold wrap_int. rewrite Z.mod_small; lia. Qed.

(** The template data of a message, field by field. *)
Lemma write_message_fields w msg :
  let ev := lib.Message.Event msg in
  let info := ecslogs.Event.Info ev in
  write_message w msg =
  mkMessage
    (int_add (int_sub (ecslogs.Event.Level ev) 1) 8)
    (if String.eqb (ecslogs.EventInfo.Host info) "" then "-" else ecslogs.EventInfo.Host info)
    (if (ecslogs.EventInfo.PID info =? 0)%Z then "-" else Itoa (ecslogs.EventInfo.PID info))
    (if String.eqb (ecslogs.EventInfo.ID info) "" then "-" else ecslogs.EventInfo.ID info)
    (lib.Message.Group msg) (lib.Message.Stream msg) (writer.tag w)
    (Event_String ev)
    (time_Format (ecslogs.Event.Time ev) (writer.timeFormat w)).
Proof.
  intros ev info. unfold write_message. fold ev. fold info.
  destruct (ecslogs.EventInfo.Host info) as [|c1 host];
    destruct (ecslogs.EventInfo.ID info) as [|c2 id];
    destruct (ecslogs.EventInfo.PID info =? 0)%Z; reflexivity.
Qed.

(** C6: the data that [write] hands to the template has [PRIVAL]
    [(level - 1) + 8] in [int] arithmetic, which is that very number for
    every level whose result fits an [int] and 10 for level 3; [HOSTNAME]
    and [MSGID] are ["-"] when the event has none; [PROCID] is ["-"] for pid
    0 and the decimal string of the pid otherwise. *)
Theorem write_renders_fields w msg :
  let ev := lib.Message.Event msg in
  let info := ecslogs.Event.Info ev in
  let m := write_message w msg in
  write w msg = call_out w m
  /\ PRIVAL m = int_add (int_sub (ecslogs.Event.Level ev) 1) 8
  /\ ((- 2 ^ 63 < ecslogs.Event.Level ev <= 2 ^ 63 - 8)%Z ->
      PRIVAL m = (ecslogs.Event.Level ev - 1 + 8)%Z)
  /\ (ecslogs.Event.Level ev = 3%Z -> PRIVAL m = 10%Z)
  /\ HOSTNAME m = (if String.eqb (ecslogs.EventInfo.Host info) "" then "-"
                   else ecslogs.EventInfo.Host info)
  /\ MSGID m = (if String.eqb (ecslogs.EventInfo.ID info) "" then "-"
                else ecslogs.EventInfo.ID info)
  /\ PROCID m = (if (ecslogs.EventInfo.PID info =? 0)%Z then "-"
                 else Itoa (ecslogs.EventInfo.PID info))
  /\ GROUP m = lib.Message.Group msg
  /\ STREAM m = lib.Message.Stream msg
  /\ TAG m = writer.tag w
  /\ MSG m = Event_String ev
  /\ TIMESTAMP m = time_Format (ecslogs.Event.Time ev) (writer.timeFormat w).
Proof.
  intros ev info m. subst m. rewrite write_message_fields. fold ev. fold info.
  cbn [PRIVAL HOSTNAME MSGID PROCID GROUP STREAM TAG MSG TIMESTAMP].
  split; [unfold write; now rewrite write_message_fields|].
  split; [reflexivity|]. split.
  { intros Hrange. unfold int_add, int_sub.
    rewrite (wrap_int_small (ecslogs.Event.Level ev - 1)) by lia.
    apply wrap_int_small. lia. }
  split.
  { intros Hlevel. rewrite Hlevel. reflexivity. }
  repeat split; reflexivity.
Qed.

End WriterFacts.

(** ** The syslog writer: the template *)
Section TemplateFacts.
Import GoStrings Go syslog.
Context `{TemplateLib}.

Local Abbreviation nl := (String "010" "").

Lemma HasSuffix_nl_cons c rest :
  rest <> "" -> HasSuffix (String c rest) nl = HasSuffix rest nl.
Proof.
  destruct rest as [|d rest]; [congruence|intros _].
  unfold HasSuffix, len. cbn [String.length Nat.leb Nat.sub andb].
  rewrite Nat.sub_0_r. reflexivity.
Qed.

Lemma HasSuffix_nl_one c : HasSuffix (String c "") nl = Ascii.eqb c "010".
Proof.
  unfold HasSuffix, len. cbn. now destruct (Ascii.eqb c "010").
Qed.

Lemma HasSuffix_nl_app s : HasSuffix (s +:+ nl) nl = true.
Proof.
  induction s as [|c rest IH]; [reflexivity|].
  change (String c rest +:+ nl) with (String c (rest +:+ nl)).
  rewrite HasSuffix_nl_cons; [exact IH|].
  destruct rest; discriminate.
Qed.

Lemma trailing_newlines_from_app seen s :
  trailing_newlines_from seen (s +:+ nl) = S (trailing_newlines_from seen s).
Proof.
  revert seen. induction s as [|c rest IH]; intros seen; [reflexivity|].
  change (String c rest +:+ nl) with (String c (rest +:+ nl)).
  cbn [trailing_newlines_from].
  destruct (Ascii.eqb c "010"); apply IH.
Qed.

Lemma trailing_newlines_from_none seen s :
  s <> "" -> HasSuffix s nl = false -> trailing_newlines_from seen s = 0%nat.
Proof.
  revert seen. induction s as [|c rest IH]; intros seen Hne Hsuf; [congruence|].
  destruct rest as [|d rest].
  - rewrite HasSuffix_nl_one in Hsuf. cbn. now rewrite Hsuf.
  - rewrite HasSuffix_nl_cons in Hsuf by discriminate.
    cbn [trailing_newlines_from].
    destruct (Ascii.eqb c "010"); apply IH; (discriminate || exact Hsuf).
Qed.

Lemma trailing_newlines_from_some seen s :
  HasSuffix s nl = true -> (1 <= trailing_newlines_from seen s)%nat.
Proof.
  revert seen. induction s as [|c rest IH]; intros seen Hsuf; [discriminate|].
  destruct rest as [|d rest].
  - rewrite HasSuffix_nl_one in Hsuf. cbn. rewrite Hsuf. lia.
  - rewrite HasSuffix_nl_cons in Hsuf by discriminate.
    cbn [trailing_newlines_from].
    destruct (Ascii.eqb c "010"); now apply IH.
Qed.

(** C7, as amended: the text of the template that [newWriterTemplate]
    installs always ends with a newline; it is the caller's format when
    that ends with a newline already, and the format with one newline
    added otherwise.  A format that ends with several newlines keeps them
    all. *)
Theorem newWriterTemplate_ends_with_newline (format : string) :
  let text := if HasSuffix format nl then format else format +:+ nl in
  (template_Parse_error text = None ->
   newWriterTemplate format = Ret (mkTemplate "syslog" text))
  /\ (forall t, newWriterTemplate format = Ret t -> tpl_text t = text)
  /\ HasSuffix text nl = true
  /\ trailing_newlines text = Nat.max 1 (trailing_newlines format).
Proof.
  intros text.
  assert (newWriterTemplate format
          = match template_Parse_error text with
            | Some e => Panic e
            | None => Ret (mkTemplate "syslog" text)
            end) as Hunfold.
  { unfold newWriterTemplate. subst text. now destruct (HasSuffix format nl). }
  split; [|split; [|split]].
  - intros Hparse. now rewrite Hunfold, Hparse.
  - intros t. rewrite Hunfold. destruct (template_Parse_error text); [discriminate|].
    now intros [= <-].
  - subst text. destruct (HasSuffix format nl) eqn:Hsuf; [exact Hsuf|apply HasSuffix_nl_app].
  - subst text. unfold trailing_newlines.
    destruct (HasSuffix format nl) eqn:Hsuf.
    + pose proof (trailing_newlines_from_some 0 format Hsuf). lia.
    + rewrite trailing_newlines_from_app.
      destruct format as [|c rest]; [reflexivity|].
      now rewrite (trailing_newlines_from_none 0 (String c rest)).
Qed.

End TemplateFacts.

(** ** The syslog writer: the pool *)
Section PoolFacts.
Import GoStrings Go syslog.
Context `{EcslogsLib} `{TemplateLib} `{OsLib}.
Context {B : Type} `{WriteCloser B} `{ConnBackend B}.

Implicit Types (w : writer.t B) (g : @globals B) (ws : list (writer.t B)).

Lemma Close_no_pooling w g : enablePooling g = false -> closes w g.
Proof.
  intros Hoff. unfold closes, Close, closed_writer. rewrite Hoff.
  destruct (writer.dead w), (io_Close (writer.backend w)); reflexivity.
Qed.

Lemma Close_healthy_room w g :
  writer.dead w = false -> enablePooling g = true ->
  (length (chan_buf (writerPool g)) < chan_cap (writerPool g))%nat ->
  Close w g
  = (mkGlobals (mkChan (chan_cap (writerPool g)) (chan_buf (writerPool g) ++ [w]))
       true (newConnections g), w, None).
Proof.
  intros Hlive Hon Hroom. unfold Close, try_send. rewrite Hlive, Hon.
  apply Nat.ltb_lt in Hroom. now rewrite Hroom.
Qed.

Lemma Close_healthy_full w g :
  writer.dead w = false -> enablePooling g = true ->
  (chan_cap (writerPool g) <= length (chan_buf (writerPool g)))%nat ->
  closes w g.
Proof.
  intros Hlive Hon Hfull. unfold closes, Close, try_send, closed_writer. rewrite Hlive, Hon.
  apply Nat.ltb_ge in Hfull. rewrite Hfull.
  now destruct (io_Close (writer.backend w)).
Qed.

Lemma Close_each_room ws cap buf n :
  Forall (fun w => writer.dead w = false) ws ->
  (length buf + length ws <= cap)%nat ->
  Close_each ws (mkGlobals (mkChan cap buf) true n)
  = (mkGlobals (mkChan cap (buf ++ ws)) true n, map (fun w => (w, None)) ws).
Proof.
  revert buf. induction ws as [|w ws IH]; intros buf Hlive Hroom.
  - cbn. now rewrite app_nil_r.
  - inversion Hlive as [|? ? Hw Hws]; subst. cbn [length] in Hroom.
    cbn [Close_each]. rewrite Close_healthy_room by (cbn; (reflexivity || assumption || lia)).
    cbn [writerPool chan_cap chan_buf newConnections].
    rewrite IH by (try assumption; rewrite length_app; cbn; lia).
    now rewrite <- app_assoc.
Qed.

Lemma Close_each_app ws1 ws2 g :
  Close_each (ws1 ++ ws2) g
  = (fst (Close_each ws2 (fst (Close_each ws1 g))),
     (snd (Close_each ws1 g) ++ snd (Close_each ws2 (fst (Close_each ws1 g))))%list).
Proof.
  revert g. induction ws1 as [|w ws1 IH]; intros g; cbn [app Close_each fst snd].
  - now destruct (Close_each ws2 g).
  - destruct (Close w g) as [[g1 w1] e1]. rewrite IH.
    destruct (Close_each ws1 g1) as [g2 done]. reflexivity.
Qed.

Lemma NewWriter_pooled w rest cap n (s : netState) :
  NewWriter "" "" (mkGlobals (mkChan cap (w :: rest)) true n) s
  = Ret (mkGlobals (mkChan cap rest) true n, s, inl w).
Proof. reflexivity. Qed.

Lemma NewWriter_times_pooled ws cap n (s : netState) :
  NewWriter_times (length ws) (mkGlobals (mkChan cap ws) true n) s
  = Ret (mkGlobals (mkChan cap []) true n, s, map inl ws).
Proof.
  induction ws as [|w ws IH]; [reflexivity|].
  cbn [length NewWriter_times]. rewrite NewWriter_pooled. cbn [bind fst snd].
  now rewrite IH.
Qed.

(** C5: [Close] closes the backend of a dead writer; it puts a healthy
    writer back into the pool when pooling is on and the pool has room,
    and closes its backend when the pool is full; with pooling off it
    always closes.  The pool of the package holds 100 writers.  So [C + 1]
    healthy writers released into an empty pool of capacity [C] leave the
    first [C] in the pool and the last one closed; the next [C] calls of
    [NewWriter] return these [C] writers, in order, without any dial, and
    the call after them counts a new connection and dials. *)
Theorem Close_pool_policy :
  (forall w g, writer.dead w = true -> closes w g)
  /\ (forall w g, writer.dead w = false -> enablePooling g = true ->
      (length (chan_buf (writerPool g)) < chan_cap (writerPool g))%nat ->
      Close w g
      = (mkGlobals (mkChan (chan_cap (writerPool g)) (chan_buf (writerPool g) ++ [w]))
           true (newConnections g), w, None))
  /\ (forall w g, writer.dead w = false -> enablePooling g = true ->
      (chan_cap (writerPool g) <= length (chan_buf (writerPool g)))%nat ->
      closes w g)
  /\ (forall w g, enablePooling g = false -> closes w g)
  /\ chan_cap (writerPool (@initial_globals B)) = 100%nat
  /\ (forall (C : nat) (kept : list (writer.t B)) (last : writer.t B) (n : Z) (s : netState),
      length kept = C ->
      Forall (fun w => writer.dead w = false) (kept ++ [last]) ->
      Close_each (kept ++ [last]) (mkGlobals (make_chan C) true n)
      = (mkGlobals (mkChan C kept) true n,
         map (fun w => (w, None)) kept
         ++ [(closed_writer last, snd (io_Close (writer.backend last)))])
      /\ NewWriter_times C (mkGlobals (mkChan C kept) true n) s
         = Ret (mkGlobals (mkChan C []) true n, s, map inl kept)
      /\ NewWriter "" "" (mkGlobals (mkChan C []) true n) s
         = match NewWriter_config with
           | inr err => Ret (mkGlobals (mkChan C []) true (wrap_uint64 (n + 1)), s, inr err)
           | inl c =>
               run (s', r) <~ DialWriter c s;
               Ret (mkGlobals (mkChan C []) true (wrap_uint64 (n + 1)), s', r)
           end).
Proof.
  split; [|split; [|split; [|split; [|split]]]].
  - intros w g Hdead. unfold closes. now apply Close_dead.
  - exact Close_healthy_room.
  - exact Close_healthy_full.
  - exact Close_no_pooling.
  - reflexivity.
  - intros C kept last n s Hlen Hlive.
    apply Forall_app in Hlive as [Hkept Hlast]. inversion Hlast as [|? ? Hl _]; subst.
    split; [|split].
    + rewrite Close_each_app. unfold make_chan.
      rewrite Close_each_room by (try assumption; cbn; lia).
      cbn [fst snd app Close_each].
      pose proof (Close_healthy_full last (mkGlobals (mkChan (length kept) kept) true n) Hl eq_refl) as Hfull.
      unfold closes in Hfull. rewrite Hfull by (cbn; lia). reflexivity.
    + apply NewWriter_times_pooled.
    + reflexivity.
Qed.

End PoolFacts.

(** ** The syslog writer: dialing *)
Section DialFacts.
Import GoStrings Go syslog.
Context `{EcslogsLib} `{TemplateLib} `{OsLib}.
Context {B : Type} `{WriteCloser B} `{ConnBackend B}.

Implicit Types (config : WriterConfig.t) (s : netState).

Lemma len_zero (x : string) : (len x =? 0)%nat = String.eqb x "".
Proof. now destruct x. Qed.

(** The candidates, as functions of the configured network and address. *)
Lemma DialWriter_netopts_eq config :
  fst (DialWriter_netopts config) =
  if String.eqb (WriterConfig.Network config) "" then
    if String.eqb (WriterConfig.Address config) ""
       || HasPrefix (WriterConfig.Address config) "/"
    then ["unixgram"; "unix"] else ["tls"]
  else [WriterConfig.Network config].
Proof.
  unfold DialWriter_netopts. rewrite !len_zero.
  destruct (String.eqb (WriterConfig.Network config) ""); cbn [negb fst]; [|reflexivity].
  now destruct (String.eqb (WriterConfig.Address config) ""
                || HasPrefix (WriterConfig.Address config) "/").
Qed.

Lemma DialWriter_addropts_eq config :
  DialWriter_addropts (snd (DialWriter_netopts config)) =
  if String.eqb (WriterConfig.Address config) "" then
    if String.eqb (WriterConfig.Network config) ""
       || HasPrefix (WriterConfig.Network config) "unix"
    then ["/dev/log"; "/var/run/syslog"; "/var/run/log"] else ["localhost:514"]
  else [WriterConfig.Address config].
Proof.
  unfold DialWriter_netopts, DialWriter_addropts. rewrite !len_zero.
  destruct (String.eqb (WriterConfig.Network config) "") eqn:Hnet; cbn [negb fst snd orb].
  - destruct (String.eqb (WriterConfig.Address config) "") eqn:Hadr; cbn [orb snd].
    + cbn [WriterConfig.set_Network WriterConfig.Address WriterConfig.Network].
      rewrite ?len_zero, Hadr. reflexivity.
    + destruct (HasPrefix (WriterConfig.Address config) "/"); cbn [snd];
        cbn [WriterConfig.set_Network WriterConfig.Address WriterConfig.Network];
        rewrite ?len_zero, Hadr; reflexivity.
  - rewrite ?len_zero. now destruct (String.eqb (WriterConfig.Address config) "").
Qed.

(** The selection of the candidates: the candidate networks and addresses
    depend on the configured
    network and address only.  A configured network is the one candidate
    network.  Without one, an empty address or an address that starts with
    ['/'] gives [unixgram] then [unix], on [/dev/log], [/var/run/syslog],
    [/var/run/log] in that order when the address is empty and on the
    address otherwise; any other address gives the one network [tls], on
    that address. *)
Theorem DialWriter_strategy config :
  let netopts := fst (DialWriter_netopts config) in
  let addropts := DialWriter_addropts (snd (DialWriter_netopts config)) in
  (forall config',
      WriterConfig.Network config' = WriterConfig.Network config ->
      WriterConfig.Address config' = WriterConfig.Address config ->
      fst (DialWriter_netopts config') = netopts
      /\ DialWriter_addropts (snd (DialWriter_netopts config')) = addropts)
  /\ (WriterConfig.Network config <> "" -> netopts = [WriterConfig.Network config])
  /\ (WriterConfig.Network config = "" ->
      WriterConfig.Address config = "" \/ HasPrefix (WriterConfig.Address config) "/" = true ->
      netopts = ["unixgram"; "unix"]
      /\ (WriterConfig.Address config = "" ->
          addropts = ["/dev/log"; "/var/run/syslog"; "/var/run/log"])
      /\ (WriterConfig.Address config <> "" -> addropts = [WriterConfig.Address config]))
  /\ (WriterConfig.Network config = "" ->
      WriterConfig.Address config <> "" ->
      HasPrefix (WriterConfig.Address config) "/" = false ->
      netopts = ["tls"] /\ addropts = [WriterConfig.Address config]).
Proof.
  intros netopts addropts. subst netopts addropts.
  split; [|split; [|split]].
  - intros config' Hn Ha. rewrite !DialWriter_netopts_eq, !DialWriter_addropts_eq, Hn, Ha.
    now split.
  - intros Hnet. rewrite DialWriter_netopts_eq.
    apply String.eqb_neq in Hnet. now rewrite Hnet.
  - intros Hnet Hlocal. rewrite DialWriter_netopts_eq, DialWriter_addropts_eq, Hnet.
    cbn [String.eqb orb]. split; [|split].
    + destruct Hlocal as [ -> | -> ]; [reflexivity|now rewrite orb_true_r].
    + now intros ->.
    + intros Hadr. apply String.eqb_neq in Hadr. now rewrite Hadr.
  - intros Hnet Hadr Hslash. rewrite DialWriter_netopts_eq, DialWriter_addropts_eq, Hnet, Hslash.
    apply String.eqb_neq in Hadr. rewrite Hadr. now split.
Qed.

(** [DialWriter] tries these candidates, by [connect]. *)
Lemma DialWriter_connects config s :
  DialWriter config s =
  run (s', r) <~ connect (fst (DialWriter_netopts config))
                  (DialWriter_addropts (snd (DialWriter_netopts config)))
                  (snd (DialWriter_netopts config)) None s;
  match r with
  | Some (inr err) => Ret (s', inr err)
  | Some (inl backend) =>
      run w <~ newWriter
                 (writerConfig.mk backend
                    (WriterConfig.Template (snd (DialWriter_netopts config)))
                    (WriterConfig.TimeFormat (snd (DialWriter_netopts config)))
                    (WriterConfig.Tag (snd (DialWriter_netopts config))));
      Ret (s', inl w)
  | None => Panic (errorString "nil backend")
  end.
Proof. unfold DialWriter. now destruct (DialWriter_netopts config). Qed.

(** Without a proxy the candidate [tls] is dialed by [tls.Dial], on
    [tcp]. *)
Lemma dialWriter_dial_tls (tlsconfig : option tls_Config) :
  dialWriter_dial "tls" tlsconfig ""
  = inl ("tcp", fun network address => tls_Dial network address tlsconfig).
Proof. reflexivity. Qed.

(** Through a proxy the candidate [tls] is dialed with a TLS handshake
    only when a TLS configuration is given: without one the stream through
    the proxy is the plain one. *)
Lemma dialWriter_dial_tls_proxy (socksProxy : string) (socksDialer : proxy_Dialer) :
  socksProxy <> "" ->
  proxy_SOCKS5 "tcp" socksProxy = inl socksDialer ->
  dialWriter_dial "tls" None socksProxy = inl ("tcp", proxy_Dial socksDialer).
Proof.
  intros Hproxy Hsocks. unfold dialWriter_dial. cbn [String.eqb Ascii.eqb Bool.eqb].
  apply String.eqb_neq in Hproxy. rewrite Hproxy. cbn [negb]. now rewrite Hsocks.
Qed.

Lemma dialWriter_wrap_tcp (conn : net_Conn) : dialWriter_wrap "tcp" conn = bufferedConn conn.
Proof.
  unfold dialWriter_wrap. rewrite bool_decide_eq_false_2; [reflexivity|].
  intros Hin. repeat (apply elem_of_cons in Hin as [Hin|Hin]; [discriminate Hin|]).
  inversion Hin.
Qed.

(** C2: the code breaks the claim on one path.  The candidates are as the
    claim lists them, and for an address that is not local and no
    configured network the one candidate is [tls]: the comment in
    [DialWriter] says this is so that logs are not sent over an unsecured
    link.  But with a SOCKS proxy and no TLS configuration, [dialWriter]
    dials that candidate by the dialer of the proxy alone, on [tcp]:
    neither [tls.Dial] nor a TLS handshake is made, and the writer that
    [DialWriter] returns is on the plain stream that the proxy gave.
    Without a proxy the same candidate is dialed by [tls.Dial], and
    through a proxy with a TLS configuration the handshake is made. *)
Theorem DialWriter_tls_candidate_plain_through_proxy
    config s (socksDialer : proxy_Dialer) (world' : World) (conn : net_Conn) :
  WriterConfig.Network config = "" ->
  WriterConfig.Address config <> "" ->
  HasPrefix (WriterConfig.Address config) "/" = false ->
  WriterConfig.SocksProxy config <> "" ->
  WriterConfig.TLS config = None ->
  proxy_SOCKS5 "tcp" (WriterConfig.SocksProxy config) = inl socksDialer ->
  proxy_Dial socksDialer "tcp" (WriterConfig.Address config) (world s) = (world', inl conn) ->
  let address := WriterConfig.Address config in
  let proxy := WriterConfig.SocksProxy config in
  let s1 := set_world world' (record_event (EvDial "tcp" address) s) in
  fst (DialWriter_netopts config) = ["tls"]
  /\ DialWriter_addropts (snd (DialWriter_netopts config)) = [address]
  /\ dialWriter_dial "tls" None proxy = inl ("tcp", proxy_Dial socksDialer)
  /\ dialWriter "tls" address None proxy s = Ret (s1, inl (bufferedConn conn))
  /\ DialWriter config s
     = (run w <~ newWriter
                  (writerConfig.mk (bufferedConn conn) (WriterConfig.Template config)
                     (WriterConfig.TimeFormat config) (WriterConfig.Tag config));
        Ret (s1, inl w))
  /\ dialWriter_dial "tls" None ""
     = inl ("tcp", fun network address => tls_Dial network address None)
  /\ (forall cfg : tls_Config,
      dialWriter_dial "tls" (Some cfg) proxy
      = inl ("tcp",
             fun network address w =>
               match proxy_Dial socksDialer network address w with
               | (w, inr err) => (w, inr err)
               | (w, inl rawConn) => tls_Client_Handshake rawConn cfg w
               end)).
Proof.
  intros Hnet Haddr Hslash Hproxy Htls Hsocks Hdial address proxy s1.
  assert (DialWriter_netopts config = (["tls"], config)) as Hopts.
  { unfold DialWriter_netopts. rewrite !len_zero, Hnet, Hslash.
    apply String.eqb_neq in Haddr. now rewrite Haddr. }
  assert (DialWriter_addropts config = [address]) as Haddrs.
  { unfold DialWriter_addropts. rewrite len_zero.
    apply String.eqb_neq in Haddr. now rewrite Haddr. }
  assert (dialWriter_dial "tls" None proxy = inl ("tcp", proxy_Dial socksDialer)) as Hfun
    by now apply dialWriter_dial_tls_proxy.
  assert (dialWriter "tls" address None proxy s = Ret (s1, inl (bufferedConn conn))) as Hconn.
  { unfold dialWriter. rewrite Hfun. cbn [dialWriter_loop].
    cbn [record_event world]. fold address in Hdial. rewrite Hdial.
    cbn [bind]. now rewrite dialWriter_wrap_tcp. }
  rewrite Hopts. cbn [fst snd]. rewrite Haddrs.
  split; [reflexivity|]. split; [reflexivity|]. split; [exact Hfun|]. split; [exact Hconn|].
  split; [|split].
  - rewrite DialWriter_connects, Hopts. cbn [fst snd]. rewrite Haddrs.
    cbn [connect connect_addropts]. rewrite Htls. fold proxy. rewrite Hconn.
    cbn [bind]. reflexivity.
  - reflexivity.
  - intros cfg. subst proxy. unfold dialWriter_dial. cbn [String.eqb Ascii.eqb Bool.eqb].
    apply String.eqb_neq in Hproxy. rewrite Hproxy. cbn [negb].
    now rewrite Hsocks.
Qed.

(** The loop of [dialWriter], by the outcome of its dials. *)
Lemma dialWriter_loop_cases (dial : dialFunc) network address s :
  dialWriter_loop 3 dial network address 1 s =
  match dial network address (world s) with
  | (w1, inl conn) =>
      Ret (mkNetState w1 (trace s ++ attempts network address 1)%list, inl conn)
  | (w1, inr _) =>
      match dial network address w1 with
      | (w2, inl conn) =>
          Ret (mkNetState w2 (trace s ++ attempts network address 2)%list, inl conn)
      | (w2, inr _) =>
          match dial network address w2 with
          | (w3, inl conn) =>
              Ret (mkNetState w3 (trace s ++ attempts network address 3)%list, inl conn)
          | (w3, inr err) =>
              Ret (mkNetState w3 (trace s ++ attempts network address 3)%list, inr err)
          end
      end
  end.
Proof.
  cbn [dialWriter_loop].
  change (1 * time_Second)%Z with time_Second.
  change (int_add 1 1) with 2%Z. change (int_add 2 1) with 3%Z.
  change (1 =? 3)%Z with false. change (2 =? 3)%Z with false. change (3 =? 3)%Z with true.
  cbv iota. unfold set_world, record_event. cbn [world trace attempts].
  destruct (dial network address (world s)) as [w1 [c1|e1]]; [reflexivity|].
  destruct (dial network address w1) as [w2 [c2|e2]].
  { now rewrite <- !app_assoc. }
  destruct (dial network address w2) as [w3 [c3|e3]]; now rewrite <- !app_assoc.
Qed.

(** Three units of fuel are enough for the loop. *)
Lemma dialWriter_loop_returns (dial : dialFunc) network address s :
  exists s' r, dialWriter_loop 3 dial network address 1 s = Ret (s', r).
Proof.
  rewrite dialWriter_loop_cases.
  destruct (dial network address (world s)) as [w1 [c1|e1]]; [eauto|].
  destruct (dial network address w1) as [w2 [c2|e2]]; [eauto|].
  destruct (dial network address w2) as [w3 [c3|e3]]; eauto.
Qed.

(** One candidate: at most three dials, a second between two of them, and
    an error only after the third. *)
Lemma dialWriter_attempts network address tlsconfig socksProxy s network' dial :
  dialWriter_dial network tlsconfig socksProxy = inl (network', dial) ->
  exists (k : nat) s' (r : B + error),
    (1 <= k <= 3)%nat
    /\ dialWriter network address tlsconfig socksProxy s = Ret (s', r)
    /\ trace s' = (trace s ++ attempts network' address k)%list
    /\ (forall err, r = inr err -> k = 3%nat).
Proof.
  intros Hdial. unfold dialWriter. rewrite Hdial, dialWriter_loop_cases.
  destruct (dial network' address (world s)) as [w1 [c1|e1]].
  { exists 1%nat. do 2 eexists. cbn [bind]. repeat split; (lia || discriminate). }
  destruct (dial network' address w1) as [w2 [c2|e2]].
  { exists 2%nat. do 2 eexists. cbn [bind]. repeat split; (lia || discriminate). }
  destruct (dial network' address w2) as [w3 [c3|e3]];
    exists 3%nat; do 2 eexists; cbn [bind]; repeat split; lia.
Qed.

Lemma dialWriter_returns network address tlsconfig socksProxy s :
  exists s' r, dialWriter network address tlsconfig socksProxy s = Ret (s', r).
Proof.
  destruct (dialWriter_dial network tlsconfig socksProxy) as [[network' dial]|err] eqn:Hdial.
  - destruct (dialWriter_attempts network address tlsconfig socksProxy s _ _ Hdial)
      as (k & s' & r & _ & Hrun & _). eauto.
  - unfold dialWriter. rewrite Hdial. eauto.
Qed.

Lemma all_fail_app config l1 l2 s s1 s2 :
  all_fail config l1 s s1 -> all_fail config l2 s1 s2 -> all_fail config (l1 ++ l2) s s2.
Proof.
  induction 1 as [|n a rest s s' s'' err Hdial Hrest IH]; intros Hsecond; [exact Hsecond|].
  cbn [app]. econstructor; [exact Hdial|]. now apply IH.
Qed.

Lemma all_fail_split config l1 l2 s s2 :
  all_fail config (l1 ++ l2) s s2 ->
  exists s1, all_fail config l1 s s1 /\ all_fail config l2 s1 s2.
Proof.
  revert s. induction l1 as [|[n a] l1 IH]; intros s Hall; cbn [app] in Hall.
  - exists s. split; [constructor|exact Hall].
  - inversion Hall as [|? ? ? ? s' ? err Hdial Hrest]; subst.
    destruct (IH _ Hrest) as (s1 & Hf1 & Hf2).
    exists s1. split; [econstructor; eassumption|exact Hf2].
Qed.

(** The inner loop, when every address fails. *)
Lemma connect_addropts_all_fail config n addropts last s s1 :
  all_fail config (map (pair n) addropts) s s1 ->
  exists r, connect_addropts n addropts config last s = Ret (s1, r)
            /\ (addropts = [] -> r = last)
            /\ (addropts <> [] -> exists err, r = Some (inr err)).
Proof.
  revert last s. induction addropts as [|a rest IH]; intros last s Hall; cbn [map] in Hall.
  - inversion Hall; subst. exists last. cbn. repeat split; congruence.
  - inversion Hall as [|? ? ? ? s' ? err Hdial Hrest]; subst.
    cbn [connect_addropts]. rewrite Hdial. cbn [bind].
    destruct (IH (Some (inr err)) _ Hrest) as (r & Hrun & Hnil & Hcons).
    exists r. split; [exact Hrun|]. split; [congruence|]. intros _.
    destruct rest as [|a' rest'].
    + exists err. now apply Hnil.
    + apply Hcons. discriminate.
Qed.



(** The outer loop, when every pair fails. *)
Lemma connect_all_fail config netopts addropts last s s1 :
  (forall b, last <> Some (inl b)) ->
  all_fail config (list_prod netopts addropts) s s1 ->
  exists r, connect netopts addropts config last s = Ret (s1, r)
            /\ (forall b, r <> Some (inl b)).
Proof.
  revert last s. induction netopts as [|n netopts IH]; intros last s Hlast Hall;
    cbn [list_prod] in Hall.
  - inversion Hall; subst. exists last. now split.
  - apply all_fail_split in Hall as (s' & Hhead & Hrest).
    destruct (connect_addropts_all_fail config n addropts last _ _ Hhead)
      as (r & Hrun & Hnil & Hcons).
    assert (forall b, r <> Some (inl b)) as Hr.
    { destruct addropts as [|a addropts].
      - rewrite Hnil by reflexivity. exact Hlast.
      - destruct Hcons as [err ->]; [discriminate|]. discriminate. }
    cbn [connect]. rewrite Hrun. cbn [bind].
    destruct (IH r s' Hr Hrest) as (r' & Hrun' & Hr').
    exists r'. split; [|exact Hr'].
    destruct r as [[b|err]|]; [now destruct (Hr b)|exact Hrun'|exact Hrun'].
Qed.


(** [connect] always returns, and with the result of a dial as soon as
    there is a candidate. *)
Lemma connect_addropts_returns config n addropts last s :
  exists s' r,
    connect_addropts n addropts config last s = Ret (s', r)
    /\ (addropts <> [] \/ last <> None -> r <> None).
Proof.
  revert last s. induction addropts as [|a rest IH]; intros last s; cbn [connect_addropts].
  - exists s, last. split; [reflexivity|]. intros [Hne|Hlast]; congruence.
  - destruct (dialWriter_returns n a (WriterConfig.TLS config) (WriterConfig.SocksProxy config) s)
      as (s1 & r1 & Hdial).
    rewrite Hdial. cbn [bind]. destruct r1 as [backend|err].
    + exists s1, (Some (inl backend)). split; [reflexivity|discriminate].
    + destruct (IH (Some (inr err)) s1) as (s' & r & Hrun & Hsome).
      exists s', r. split; [exact Hrun|]. intros _. apply Hsome. right. discriminate.
Qed.

Lemma connect_returns config netopts addropts last s :
  exists s' r,
    connect netopts addropts config last s = Ret (s', r)
    /\ ((netopts <> [] /\ addropts <> []) \/ last <> None -> r <> None).
Proof.
  revert last s. induction netopts as [|n rest IH]; intros last s; cbn [connect].
  - exists s, last. split; [reflexivity|]. intros [[Hne _]|Hlast]; congruence.
  - destruct (connect_addropts_returns config n addropts last s) as (s1 & r1 & Hrun1 & Hsome1).
    rewrite Hrun1. cbn [bind].
    assert (exists s' r, connect rest addropts config r1 s1 = Ret (s', r)
                         /\ (r1 <> None -> r <> None)) as (s' & r & Hrun & Hsome).
    { destruct (IH r1 s1) as (s' & r & Hrun & Hsome). exists s', r. split; [exact Hrun|].
      intros Hr1. apply Hsome. now right. }
    destruct r1 as [[backend|err]|].
    + exists s1, (Some (inl backend)). split; [reflexivity|discriminate].
    + exists s', r. split; [exact Hrun|]. intros _. apply Hsome. discriminate.
    + exists s', r. split; [exact Hrun|]. intros [[_ Hne]|Hlast].
      * exfalso. apply (Hsome1 (or_introl Hne)). reflexivity.
      * exfalso. apply (Hsome1 (or_intror Hlast)). reflexivity.
Qed.

(** [DialWriter] always has a candidate: the loop never ends with both
    [backend] and [err] nil. *)
Lemma DialWriter_dials_a_candidate config s :
  exists s' r,
    connect (fst (DialWriter_netopts config))
      (DialWriter_addropts (snd (DialWriter_netopts config)))
      (snd (DialWriter_netopts config)) None s
    = Ret (s', Some r).
Proof.
  destruct (connect_returns (snd (DialWriter_netopts config))
              (fst (DialWriter_netopts config))
              (DialWriter_addropts (snd (DialWriter_netopts config))) None s)
    as (s' & r & Hrun & Hsome).
  destruct r as [r|].
  - eauto.
  - exfalso. apply Hsome; [|reflexivity]. left.
    rewrite DialWriter_netopts_eq, DialWriter_addropts_eq. split.
    + destruct (String.eqb (WriterConfig.Network config) ""); [|discriminate].
      destruct (_ || _); discriminate.
    + destruct (String.eqb (WriterConfig.Address config) ""); [|discriminate].
      destruct (_ || _); discriminate.
Qed.


End DialFacts.

(** ** The journal reader and the log handler *)
Section ReaderFacts.
Import GoStrings Go journald.
Context `{EcslogsLib} `{EncodingLib}.

Implicit Types (r : reader) (j : Journal) (msg : lib.Message.t) (turns : list turn).

Local Abbreviation field r k := (fields (journal r) !! k) (only parsing).

Lemma GetDataValue_some r k v : field r k = Some v -> GetDataValue r k = (v, None).
Proof. unfold GetDataValue. now intros ->. Qed.

Lemma GetDataValue_none r k :
  field r k = None -> GetDataValue r k = ("", Some (errorString "no such field")).
Proof. unfold GetDataValue. now intros ->. Qed.

(** No tag, or an empty one: no message and no error. *)
Lemma getMessage_skips r :
  field r "CONTAINER_TAG" = None \/ field r "CONTAINER_TAG" = Some "" ->
  getMessage r = (lib.Message.zero, false, None).
Proof.
  unfold getMessage. intros [Htag|Htag].
  - now rewrite (GetDataValue_none _ _ Htag).
  - now rewrite (GetDataValue_some _ _ _ Htag).
Qed.

(** A tag, and no field to take the stream from: an error. *)
Lemma getMessage_malformed r group :
  field r "CONTAINER_TAG" = Some group -> group <> "" ->
  field r (streamName r) = None ->
  field r "CONTAINER_ID_FULL" = None ->
  getMessage r
  = (lib.Message.set_Group group lib.Message.zero, false,
     Some (errorString ("missing CONTAINER_ID_FULL in message with CONTAINER_TAG=" +:+ group))).
Proof.
  intros Htag Hne Hstream Hfull. unfold getMessage.
  rewrite (GetDataValue_some _ _ _ Htag), (GetDataValue_none _ _ Hstream),
    (GetDataValue_none _ _ Hfull).
  destruct group; [congruence|reflexivity].
Qed.

(** A message comes out of entries with a tag and a stream only. *)
Lemma getMessage_ok r msg err :
  getMessage r = (msg, true, err) ->
  err = None
  /\ field r "CONTAINER_TAG" = Some (lib.Message.Group msg)
  /\ lib.Message.Group msg <> ""
  /\ exists v, stream_source r v /\ lib.Message.Stream msg = sanitizeStreamName v.
Proof.
  unfold getMessage, stream_source, GetDataValue.
  destruct (field r "CONTAINER_TAG") as [group|] eqn:Htag; [|discriminate].
  destruct group as [|c group]; [discriminate|].
  cbn [lib.Message.set_Group lib.Message.Group len String.length Nat.eqb].
  destruct (field r (streamName r)) as [v|] eqn:Hstream; cbn [non_nil].
  - intros [= <- <-]. cbn. repeat split; try discriminate. exists v. split; [now left|reflexivity].
  - destruct (field r "CONTAINER_ID_FULL") as [v|] eqn:Hfull; cbn [non_nil]; [|discriminate].
    intros [= <- <-]. cbn. repeat split; try discriminate. exists v. split; [now right|reflexivity].
Qed.

Lemma ReadMessage_from_unfold r msg turns :
  ReadMessage_from r msg turns =
  if (stopped r =? 0)%Z then
    match turns with
    | [] => Reading r
    | ClosedElsewhere :: rest => ReadMessage_from (fst (Close r)) msg rest
    | NextFails e :: _ => Returned r msg (Some e)
    | NextNothing :: rest => ReadMessage_from r msg rest
    | NextEntry j :: rest =>
        let r := at_entry r j in
        let '(msg, ok, err) := getMessage r in
        if ok || non_nil err then Returned r msg err
        else ReadMessage_from r msg rest
    end
  else
    let j := journal r in
    let r := mkReader (streamName r) (stopped r)
               (mkJournal (fields j) (realtime_usec j) (time_Now j) true) in
    Returned r msg (Some io_EOF).
Proof. destruct turns; reflexivity. Qed.

(** What [ReadMessage] returns without an error is a message of the
    entry under the cursor, with a group and a resolved stream. *)
Lemma ReadMessage_from_ok turns r msg0 r' msg :
  ReadMessage_from r msg0 turns = Returned r' msg None ->
  field r' "CONTAINER_TAG" = Some (lib.Message.Group msg)
  /\ lib.Message.Group msg <> ""
  /\ exists v, stream_source r' v /\ lib.Message.Stream msg = sanitizeStreamName v.
Proof.
  revert r msg0. induction turns as [|t rest IH]; intros r msg0;
    rewrite ReadMessage_from_unfold; destruct (stopped r =? 0)%Z; try discriminate.
  destruct t as [|e| |j].
  - apply IH.
  - discriminate.
  - apply IH.
  - cbv zeta.
    destruct (getMessage (at_entry r j)) as [[m ok] err] eqn:Hget.
    destruct ok; cbn [orb].
    + intros [= <- <- ->]. apply getMessage_ok in Hget. tauto.
    + destruct err as [e|]; cbn [non_nil]; [discriminate|]. apply IH.
Qed.

(** One turn of the loop of [ReadMessage] on a new entry. *)
Lemma ReadMessage_from_entry r msg0 j rest :
  stopped r = 0%Z ->
  ReadMessage_from r msg0 (NextEntry j :: rest) =
  let '(msg, ok, err) := getMessage (at_entry r j) in
  if ok || non_nil err then Returned (at_entry r j) msg err
  else ReadMessage_from (at_entry r j) msg rest.
Proof. intros Hrun. rewrite ReadMessage_from_unfold, Hrun. reflexivity. Qed.

(** C8, as amended: [getMessage] gives a message only for an entry whose
    [CONTAINER_TAG] is there and not empty.  An entry without
    [CONTAINER_TAG], or with an empty one, gives no message and no error,
    and [ReadMessage] goes on to the next entry.  An entry with a
    non-empty [CONTAINER_TAG] that has neither the configured stream field
    nor [CONTAINER_ID_FULL] gives an error, which [ReadMessage] returns. *)
Theorem getMessage_tag_policy (r0 : reader) (j : Journal) :
  let r := at_entry r0 j in
  (forall msg err, getMessage r = (msg, true, err) ->
     err = None /\ exists group, fields j !! "CONTAINER_TAG" = Some group /\ group <> "")
  /\ (fields j !! "CONTAINER_TAG" = None \/ fields j !! "CONTAINER_TAG" = Some "" ->
      getMessage r = (lib.Message.zero, false, None)
      /\ forall msg0 rest,
           stopped r0 = 0%Z ->
           ReadMessage_from r0 msg0 (NextEntry j :: rest)
           = ReadMessage_from r lib.Message.zero rest)
  /\ (forall group,
      fields j !! "CONTAINER_TAG" = Some group -> group <> "" ->
      fields j !! streamName r0 = None ->
      fields j !! "CONTAINER_ID_FULL" = None ->
      let err := errorString
                   ("missing CONTAINER_ID_FULL in message with CONTAINER_TAG=" +:+ group) in
      snd (getMessage r) = Some err
      /\ snd (fst (getMessage r)) = false
      /\ forall msg0 rest,
           stopped r0 = 0%Z ->
           ReadMessage_from r0 msg0 (NextEntry j :: rest)
           = Returned r (lib.Message.set_Group group lib.Message.zero) (Some err)).
Proof.
  intros r. split; [|split].
  - intros msg err Hget. apply getMessage_ok in Hget as (Herr & Htag & Hne & _). eauto.
  - intros Htag. pose proof (getMessage_skips r Htag) as Hskip. split; [exact Hskip|].
    intros msg0 rest Hrun. rewrite (ReadMessage_from_entry _ _ _ _ Hrun).
    fold r. now rewrite Hskip.
  - intros group Htag Hne Hstream Hfull err.
    pose proof (getMessage_malformed r group Htag Hne Hstream Hfull) as Hbad.
    rewrite Hbad. repeat split.
    intros msg0 rest Hrun. rewrite (ReadMessage_from_entry _ _ _ _ Hrun).
    fold r. now rewrite Hbad.
Qed.

End ReaderFacts.

Section HandlerFacts.
Import GoStrings Go journald lib.
Context `{ApexLib} `{EncodingLib}.

Local Abbreviation field r k := (fields (journal r) !! k) (only parsing).

(** [HandleLog] pushes one message with the group and the stream of the
    handler, whatever they are. *)
Lemma HandleLog_pushes (h : LogHandler) (entry : log_Entry) (q : MessageQueue) :
  exists msg,
    HandleLog h entry q = (mkQueue (queued q ++ [msg]) true, None)
    /\ Message.Group msg = Group h
    /\ Message.Stream msg = Stream h.
Proof.
  unfold HandleLog, Notify, Push.
  cbn [queued notified Message.Event Message.set_Event Message.Group Message.Stream].
  eexists. split; [reflexivity|]. now split.
Qed.

(** C9, as amended: the journal reader returns a message only with a
    non-empty group and a stream taken from the configured field or from
    [CONTAINER_ID_FULL], and passes over an entry without a group with no
    error.  The log handler makes no such test: every entry is pushed on
    the queue, with the group and the stream of the handler. *)
Theorem producers_enqueue_policy :
  (forall (r r' : reader) (turns : list turn) (msg : Message.t),
      ReadMessage r turns = Returned r' msg None ->
      Message.Group msg <> ""
      /\ exists v, stream_source r' v /\ Message.Stream msg = sanitizeStreamName v)
  /\ (forall (r : reader) (j : Journal) (msg0 : Message.t) (rest : list turn),
      fields j !! "CONTAINER_TAG" = None ->
      getMessage (at_entry r j) = (Message.zero, false, None)
      /\ (stopped r = 0%Z ->
          ReadMessage_from r msg0 (NextEntry j :: rest)
          = ReadMessage_from (at_entry r j) Message.zero rest))
  /\ (forall (h : LogHandler) (entry : log_Entry) (q : MessageQueue),
      exists msg,
        HandleLog h entry q = (mkQueue (queued q ++ [msg]) true, None)
        /\ Message.Group msg = Group h
        /\ Message.Stream msg = Stream h).
Proof.
  split; [|split].
  - intros r r' turns msg Hread. unfold ReadMessage in Hread.
    apply ReadMessage_from_ok in Hread. tauto.
  - intros r j msg0 rest Htag.
    assert (getMessage (at_entry r j) = (Message.zero, false, None)) as Hskip.
    { apply getMessage_skips. now left. }
    split; [exact Hskip|]. intros Hrun.
    now rewrite (ReadMessage_from_entry _ _ _ _ Hrun), Hskip.
  - exact HandleLog_pushes.
Qed.

End HandlerFacts.

(** ** The properties at work on the sample environment *)
Section Samples.
Import GoStrings Go syslog journald.
#[local] Existing Instance Sample.time.
#[local] Existing Instance Sample.ecs.
#[local] Existing Instance Sample.encoding.
#[local] Existing Instance Sample.apex.
#[local] Existing Instance Sample.templates.
#[local] Existing Instance Sample.os.
#[local] Existing Instance Sample.backends.
#[local] Existing Instance Sample.net.
#[local] Existing Instance Sample.conns.

Local Abbreviation nl := (String "010" "").
Local Abbreviation one := (Sample.line "svc" "one").
Local Abbreviation two := (Sample.line "svc" "two").
Local Abbreviation three := (Sample.line "svc" "three").
Local Abbreviation refused := (errorString "connection refused").

(** A batch of three on a backend whose second write fails. *)
Lemma WriteMessageBatch_aborts_at_first_failure_witness :
  let r := WriteMessageBatch (Sample.writer_on [false; true]) ([one] ++ two :: [three]) in
  write_each (Sample.writer_on [false; true]) [one]
  = (fst (write_each (Sample.writer_on [false; true]) [one]), None)
  /\ snd r = Some (errorString "broken pipe")
  /\ writer.dead (fst r) = true
  /\ Sample.received (writer.backend (fst r)) = ["<10>svc: one" +:+ nl].
Proof.
  pose (w := Sample.writer_on [false; true]).
  pose (w1 := fst (write_each w [one])).
  pose (w2 := fst (write w1 two)).
  assert (write_each w [one] = (w1, None)) as Hwritten by reflexivity.
  assert (write w1 two = (w2, Some (errorString "broken pipe"))) as Hfails by reflexivity.
  destruct (WriteMessageBatch_aborts_at_first_failure w w1 w2 [one] two [three]
              (errorString "broken pipe") Hwritten Hfails) as (Heq & Hdead & Hback & _ & _).
  split; [reflexivity|]. cbv zeta. fold w. rewrite Heq. repeat split.
Defined.

(** C1 as stated fails: the writer that this batch left dead takes the
    next message as a fresh writer would, the write returns no error and
    the bytes reach the backend. *)
Lemma dead_writer_still_writes :
  let w := fst (WriteMessageBatch (Sample.writer_on [false; true]) [one; two; three]) in
  writer.dead w = true
  /\ snd (WriteMessage w three) = None
  /\ snd (WriteMessage w three) = snd (WriteMessage (Sample.writer_on []) three)
  /\ Sample.received (writer.backend (fst (WriteMessage w three)))
     = ["<10>svc: one" +:+ nl; "<10>svc: three" +:+ nl].
Proof. repeat split; reflexivity. Qed.

(** No network, no address: the local sockets. *)
Lemma DialWriter_strategy_witness :
  WriterConfig.Network WriterConfig.zero = ""
  /\ fst (DialWriter_netopts WriterConfig.zero) = ["unixgram"; "unix"]
  /\ DialWriter_addropts (snd (DialWriter_netopts WriterConfig.zero))
     = ["/dev/log"; "/var/run/syslog"; "/var/run/log"].
Proof.
  destruct (DialWriter_strategy WriterConfig.zero) as (_ & _ & Hlocal & _).
  destruct (Hlocal eq_refl (or_introl eq_refl)) as (Hnet & Haddr & _).
  split; [reflexivity|]. split; [exact Hnet|exact (Haddr eq_refl)].
Defined.


(** Three healthy writers released into a pool of two. *)
Lemma Close_pool_policy_witness :
  let wa := Sample.writer_on [] in
  let wb := Sample.writer_on [false] in
  let wc := Sample.writer_on [false; false] in
  let released := Close_each ([wa; wb] ++ [wc]) (mkGlobals (make_chan 2) true 0) in
  Forall (fun w => writer.dead w = false) ([wa; wb] ++ [wc])
  /\ chan_buf (writerPool (fst released)) = [wa; wb]
  /\ map (fun p => Sample.shut (writer.backend (fst p))) (snd released)
     = [false; false; true].
Proof.
  intros wa wb wc released.
  assert (Forall (fun w => writer.dead w = false) ([wa; wb] ++ [wc])) as Hlive.
  { repeat constructor. }
  split; [exact Hlive|].
  destruct (Close_pool_policy (B := Sample.pipe)) as (_ & _ & _ & _ & _ & Hpool).
  destruct (Hpool 2%nat [wa; wb] wc 0%Z (Sample.outside []) eq_refl Hlive) as (Heq & _).
  subst released. rewrite Heq. split; reflexivity.
Defined.

(** Level 3 renders PRIVAL 10. *)
Lemma write_renders_fields_witness :
  ecslogs.Event.Level (lib.Message.Event one) = 3%Z
  /\ PRIVAL (write_message (Sample.writer_on []) one) = 10%Z.
Proof.
  split; [reflexivity|].
  destruct (write_renders_fields (Sample.writer_on []) one) as (_ & _ & _ & Hthree & _).
  exact (Hthree eq_refl).
Defined.

(** A format without a newline gets one. *)
Lemma newWriterTemplate_ends_with_newline_witness :
  template_Parse_error ("{{.MSG}}" +:+ nl) = None
  /\ newWriterTemplate "{{.MSG}}" = Ret (mkTemplate "syslog" ("{{.MSG}}" +:+ nl)).
Proof.
  split; [reflexivity|].
  destruct (newWriterTemplate_ends_with_newline "{{.MSG}}") as (Hinstalled & _).
  exact (Hinstalled eq_refl).
Defined.

(** C7 as stated fails: a format that ends with two newlines is installed
    as it is, with its two newlines. *)
Lemma newWriterTemplate_keeps_two_newlines :
  newWriterTemplate ("{{.MSG}}" +:+ nl +:+ nl)
  = Ret (mkTemplate "syslog" ("{{.MSG}}" +:+ nl +:+ nl))
  /\ trailing_newlines ("{{.MSG}}" +:+ nl +:+ nl) = 2%nat.
Proof. split; reflexivity. Qed.

(** An entry of a container without the field to name its stream. *)
Lemma getMessage_tag_policy_witness :
  let r0 := mkReader "CONTAINER_ID_FULL" 0 (Sample.entry []) in
  let j := Sample.entry [("CONTAINER_TAG", "web")] in
  fields j !! "CONTAINER_TAG" = Some "web"
  /\ fields j !! "CONTAINER_ID_FULL" = None
  /\ snd (getMessage (at_entry r0 j))
     = Some (errorString "missing CONTAINER_ID_FULL in message with CONTAINER_TAG=web")
  /\ ReadMessage r0 [NextEntry j]
     = Returned (at_entry r0 j) (lib.Message.set_Group "web" lib.Message.zero)
         (Some (errorString "missing CONTAINER_ID_FULL in message with CONTAINER_TAG=web")).
Proof.
  intros r0 j. split; [reflexivity|]. split; [reflexivity|].
  destruct (getMessage_tag_policy r0 j) as (_ & _ & Hbad).
  destruct (Hbad "web" eq_refl ltac:(discriminate) eq_refl eq_refl) as (Herr & _ & Hread).
  split; [exact Herr|]. exact (Hread lib.Message.zero [] eq_refl).
Defined.

(** C8 as stated fails: [CONTAINER_TAG] is there, the stream field and
    [CONTAINER_ID_FULL] are not, and yet there is no error, because the tag
    is empty. *)
Lemma getMessage_skips_empty_tag :
  let r := mkReader "CONTAINER_ID_FULL" 0 (Sample.entry [("CONTAINER_TAG", "")]) in
  fields (journal r) !! "CONTAINER_TAG" = Some ""
  /\ fields (journal r) !! streamName r = None
  /\ fields (journal r) !! "CONTAINER_ID_FULL" = None
  /\ getMessage r = (lib.Message.zero, false, None).
Proof. repeat split; reflexivity. Qed.

(** The reader waits, passes over an entry without a tag, and returns the
    message of the next entry. *)
Lemma producers_enqueue_policy_witness :
  let r := mkReader "CONTAINER_NAME" 0 (Sample.entry []) in
  let turns :=
    [NextNothing;
     NextEntry (Sample.entry [("MESSAGE", "kernel: up")]);
     NextEntry (Sample.entry [("CONTAINER_TAG", "svc"); ("CONTAINER_ID_FULL", "a:b*c");
                              ("MESSAGE", "ready")])] in
  exists r' msg,
    ReadMessage r turns = Returned r' msg None
    /\ lib.Message.Group msg <> ""
    /\ lib.Message.Stream msg = "a/b/c".
Proof.
  intros r turns. do 2 eexists. split; [reflexivity|]. split; [|reflexivity].
  destruct producers_enqueue_policy as (Hreader & _).
  eapply (Hreader r _ turns). reflexivity.
Defined.

(** C9 as stated fails: a handler without group and stream pushes its
    entry on the queue all the same. *)
Lemma HandleLog_pushes_without_group :
  let h := lib.mkLogHandler "" "" "host-1" in
  let q := fst (lib.HandleLog h "started" (lib.mkQueue [] false)) in
  snd (lib.HandleLog h "started" (lib.mkQueue [] false)) = None
  /\ map lib.Message.Group (lib.queued q) = [""]
  /\ map lib.Message.Stream (lib.queued q) = [""].
Proof. repeat split; reflexivity. Qed.

End Samples.

Section TaggedSamples.
Import GoStrings Go syslog syslog_conn.
#[local] Existing Instance Sample.time.
#[local] Existing Instance Sample.ecs.
#[local] Existing Instance Sample.templates.
#[local] Existing Instance Sample.os.
#[local] Existing Instance SampleMore.net_tagged.
#[local] Existing Instance SampleMore.wire_tagged.
#[local] Existing Instance dialed_WriteCloser.
#[local] Existing Instance dialed_ConnBackend.

(** [DialWriter] on a remote address with a SOCKS proxy and nothing else
    configured: the writer is on the plain stream of the proxy, and the
    only call made is the dial of the proxy.  The same configuration
    without the proxy is dialed by [tls.Dial]. *)
Lemma DialWriter_tls_candidate_plain_through_proxy_witness :
  fst (DialWriter_netopts SampleMore.proxied_config) = ["tls"]
  /\ (exists w,
        DialWriter SampleMore.proxied_config SampleMore.tagged_outside
        = Ret (SampleMore.tagged_outside_after ["socks.Dial"]
                 [EvDial "tcp" "logs.example.com:514"], inl w)
        /\ writer.backend w
           = SampleMore.tagged_buffered "plain-via-socks:logs.example.com:514")
  /\ (exists w,
        DialWriter SampleMore.direct_config SampleMore.tagged_outside
        = Ret (SampleMore.tagged_outside_after ["tls.Dial"]
                 [EvDial "tcp" "logs.example.com:514"], inl w)
        /\ writer.backend w = SampleMore.tagged_buffered "tls:logs.example.com:514").
Proof.
  destruct (DialWriter_tls_candidate_plain_through_proxy (B := dialed)
              SampleMore.proxied_config SampleMore.tagged_outside
              "proxy.example.com:1080" ["socks.Dial"]
              "plain-via-socks:logs.example.com:514"
              eq_refl ltac:(discriminate) eq_refl ltac:(discriminate) eq_refl eq_refl eq_refl)
    as (Hnet & _ & _ & _ & Hdialed & _).
  split; [exact Hnet|]. split.
  - rewrite Hdialed. eexists. split; reflexivity.
  - eexists. split; reflexivity.
Defined.

End TaggedSamples.

(** ** Further properties of the syslog writer *)
Section MoreWriterFacts.
Import GoStrings Go syslog syslog_more.
Context `{EcslogsLib} `{TemplateLib} `{OsLib}.
Context {B : Type} `{WriteCloser B} `{ConnBackend B}.

Implicit Types (w : writer.t B) (msg : lib.Message.t) (batch : list lib.Message.t).

Lemma call_out_flush w m : writer.flush (fst (call_out w m)) = writer.flush w.
Proof.
  unfold call_out, directWrite, bufferedWrite.
  destruct (writer.out w).
  - destruct (template_Execute (writer.tpl w) m) as [chunks exec_err].
    destruct (write_chunks (writer.backend w) chunks) as [b [err|]]; reflexivity.
  - cbn [writer.set_buf writer.backend writer.config writer.buf writer.tpl].
    destruct (io_Write _ _) as [b err]. reflexivity.
Qed.

(** X1: on a healthy writer, [WriteMessageBatch] and [WriteMessage]
    return an error exactly when they leave the writer dead. *)
Theorem write_error_iff_dead w batch msg :
  writer.dead w = false ->
  (snd (WriteMessageBatch w batch) = None
   <-> writer.dead (fst (WriteMessageBatch w batch)) = false)
  /\ (snd (WriteMessage w msg) = None
      <-> writer.dead (fst (WriteMessage w msg)) = false).
Proof.
  intros Hlive. split.
  - rewrite WriteMessageBatch_write_each.
    pose proof (write_each_dead w batch) as Hw.
    destruct (write_each w batch) as [w' [err|]]; cbn [fst snd] in Hw |- *.
    + split; discriminate.
    + pose proof (call_flush_dead w') as Hf.
      destruct (call_flush w') as [w'' [err|]]; cbn [fst snd] in Hf |- *.
      * split; discriminate.
      * split; [intros _; congruence|reflexivity].
  - unfold WriteMessage.
    pose proof (call_out_dead w (write_message w msg)) as Hw. fold (write w msg) in Hw.
    destruct (write w msg) as [w' [err|]]; cbn [fst snd] in Hw |- *.
    + split; discriminate.
    + pose proof (call_flush_dead w') as Hf.
      destruct (call_flush w') as [w'' [err|]]; cbn [fst snd] in Hf |- *.
      * split; discriminate.
      * split; [intros _; congruence|reflexivity].
Qed.

Lemma write_each_flush w batch :
  writer.flush (fst (write_each w batch)) = writer.flush w.
Proof.
  revert w. induction batch as [|m batch IH]; intros w; cbn [write_each]; [reflexivity|].
  pose proof (call_out_flush w (write_message w m)) as Hm. fold (write w m) in Hm.
  destruct (write w m) as [w' [err|]]; cbn [fst] in Hm |- *; [exact Hm|].
  now rewrite IH.
Qed.

(** X2: for a writer that has nothing to flush, writing a batch in two
    calls is writing it in one: the second call is made only when the
    first returned no error. *)
Theorem WriteMessageBatch_in_two_calls w (first second : list lib.Message.t) :
  writer.flush w = flush_nothing ->
  WriteMessageBatch w (first ++ second) =
  match WriteMessageBatch w first with
  | (w', Some err) => (w', Some err)
  | (w', None) => WriteMessageBatch w' second
  end.
Proof.
  revert w. induction first as [|m first IH]; intros w Hflush.
  - cbn [app WriteMessageBatch]. unfold call_flush. now rewrite Hflush.
  - cbn [app WriteMessageBatch].
    pose proof (call_out_flush w (write_message w m)) as Hm. fold (write w m) in Hm.
    destruct (write w m) as [w' [err|]]; cbn [fst] in Hm; [reflexivity|].
    apply IH. congruence.
Qed.

(** How [newWriter] chooses the two functions of a writer. *)
Lemma newWriter_functions (config : writerConfig.t B) w :
  newWriter config = Ret w ->
  writer.backend w = writerConfig.backend config
  /\ writer.dead w = false
  /\ (has_Flush (writerConfig.backend config) = true ->
      writer.out w = out_directWrite /\ writer.flush w = flush_backend)
  /\ (has_Flush (writerConfig.backend config) = false ->
      writer.out w = out_bufferedWrite /\ writer.flush w = flush_nothing).
Proof.
  unfold newWriter.
  set (c1 := if (len (writerConfig.timeFormat config) =? 0)%nat
             then writerConfig.set_timeFormat time_Stamp config else config).
  set (c2 := if (len (writerConfig.template c1) =? 0)%nat
             then writerConfig.set_template DefaultTemplate c1 else c1).
  assert (writerConfig.backend c2 = writerConfig.backend config) as Hb.
  { subst c2 c1.
    destruct (len (writerConfig.timeFormat config) =? 0)%nat;
      match goal with |- context [if ?c then _ else _] => destruct c end; reflexivity. }
  rewrite Hb.
  destruct (has_Flush (writerConfig.backend config));
    destruct (newWriterTemplate (writerConfig.template c2)) as [tpl| |]; cbn [bind];
    try discriminate; intros [= <-]; unfold writer.backend; cbn [writer.config writer.dead
      writer.out writer.flush]; repeat split; try discriminate; exact Hb.
Qed.

(** X3: when the execution of the template fails after writes that all
    succeeded, a writer on a backend with [Flush] returns that error and is
    dead; a writer on a backend without [Flush] sends what was rendered in
    one write and returns no error. *)
Theorem execution_error_returned_or_dropped
    (config : writerConfig.t B) w msg (chunks : list string) (e : error) :
  newWriter config = Ret w ->
  template_Execute (writer.tpl w) (write_message w msg) = (chunks, Some e) ->
  (has_Flush (writerConfig.backend config) = true ->
   forall b, write_chunks (writer.backend w) chunks = (b, None) ->
     WriteMessage w msg = (writer.set_dead true (writer.set_backend b w), Some e))
  /\ (has_Flush (writerConfig.backend config) = false ->
      forall b, io_Write (writer.backend w) (String.concat "" chunks) = (b, None) ->
        WriteMessage w msg
        = (writer.set_backend b (writer.set_buf (String.concat "" chunks) w), None)).
Proof.
  intros Hnew Hexec.
  destruct (newWriter_functions config w Hnew) as (_ & _ & Hdirect & Hbuffered).
  split.
  - intros Hflush b Hwrites. destruct (Hdirect Hflush) as (Hout & _).
    unfold WriteMessage, write, call_out, directWrite. rewrite Hout, Hexec, Hwrites.
    reflexivity.
  - intros Hflush b Hwrite. destruct (Hbuffered Hflush) as (Hout & Hfl).
    unfold WriteMessage, write, call_out, bufferedWrite. rewrite Hout.
    cbn [writer.set_buf writer.tpl writer.buf writer.backend writer.config].
    rewrite Hexec. cbn [fst].
    change (writer.backend
              (writer.set_buf (String.concat "" chunks) (writer.set_buf "" w)))
      with (writer.backend w).
    rewrite Hwrite. unfold call_flush. cbn [writer.set_backend writer.set_buf writer.flush].
    now rewrite Hfl.
Qed.

End MoreWriterFacts.

(** ** Further properties of dialing and of the pool *)
Section MoreDialFacts.
Import GoStrings Go syslog syslog_more.
Context `{EcslogsLib} `{TemplateLib} `{OsLib}.
Context {B : Type} `{WriteCloser B} `{ConnBackend B}.

Implicit Types (config : WriterConfig.t) (s : netState) (w : writer.t B).

(** [newWriter] returns a writer, or panics with the error of the
    template parser. *)
Lemma newWriter_outcome (cfg : writerConfig.t B) :
  match template_Parse_error (installed_text (writerConfig.template cfg)) with
  | Some e => newWriter cfg = Panic e
  | None =>
      exists w, newWriter cfg = Ret w
                /\ tpl_text (writer.tpl w) = installed_text (writerConfig.template cfg)
                /\ writer.backend w = writerConfig.backend cfg
                /\ writer.dead w = false
  end.
Proof.
  unfold newWriter, installed_text, newWriterTemplate.
  set (c1 := if (len (writerConfig.timeFormat cfg) =? 0)%nat
             then writerConfig.set_timeFormat time_Stamp cfg else cfg).
  assert (writerConfig.template c1 = writerConfig.template cfg) as Ht1.
  { subst c1. now destruct (len (writerConfig.timeFormat cfg) =? 0)%nat. }
  assert (writerConfig.backend c1 = writerConfig.backend cfg) as Hb1.
  { subst c1. now destruct (len (writerConfig.timeFormat cfg) =? 0)%nat. }
  rewrite Ht1.
  set (c2 := if (len (writerConfig.template cfg) =? 0)%nat
             then writerConfig.set_template DefaultTemplate c1 else c1).
  assert (writerConfig.template c2
          = if (len (writerConfig.template cfg) =? 0)%nat then DefaultTemplate
            else writerConfig.template cfg) as Ht2.
  { subst c2. destruct (len (writerConfig.template cfg) =? 0)%nat; [reflexivity|exact Ht1]. }
  assert (writerConfig.backend c2 = writerConfig.backend cfg) as Hb2.
  { subst c2. destruct (len (writerConfig.template cfg) =? 0)%nat; exact Hb1. }
  rewrite Ht2.
  set (format := if (len (writerConfig.template cfg) =? 0)%nat then DefaultTemplate
                 else writerConfig.template cfg).
  set (text := if HasSuffix format (String "010" "") then format
               else format +:+ String "010" "").
  assert ((if negb (HasSuffix format (String "010" "")) then format +:+ String "010" ""
           else format) = text) as ->.
  { subst text. now destruct (HasSuffix format (String "010" "")). }
  destruct (template_Parse_error text) as [e|].
  - now destruct (has_Flush (writerConfig.backend c2)).
  - destruct (has_Flush (writerConfig.backend c2)); cbn [bind];
      eexists; (split; [reflexivity|]); unfold writer.backend;
      cbn [writer.tpl tpl_text writer.config writer.dead]; repeat split; exact Hb2.
Qed.

Lemma DialWriter_netopts_keeps config :
  WriterConfig.Template (snd (DialWriter_netopts config)) = WriterConfig.Template config
  /\ WriterConfig.TimeFormat (snd (DialWriter_netopts config)) = WriterConfig.TimeFormat config
  /\ WriterConfig.Tag (snd (DialWriter_netopts config)) = WriterConfig.Tag config
  /\ WriterConfig.TLS (snd (DialWriter_netopts config)) = WriterConfig.TLS config
  /\ WriterConfig.SocksProxy (snd (DialWriter_netopts config)) = WriterConfig.SocksProxy config.
Proof.
  unfold DialWriter_netopts.
  destruct (negb _); [now repeat split|].
  destruct (_ || _); now repeat split.
Qed.

(** X4: [DialWriter] looks at the template only once a candidate has
    connected.  When every candidate fails it returns the error of the
    last dial, whatever the template; when one connects and the template
    does not parse it panics, with the connection made; otherwise it
    returns a healthy writer on that connection. *)
Theorem DialWriter_parses_template_last config s s' :
  let candidates :=
    connect (fst (DialWriter_netopts config))
      (DialWriter_addropts (snd (DialWriter_netopts config)))
      (snd (DialWriter_netopts config)) None s in
  let text := installed_text (WriterConfig.Template config) in
  (forall err, candidates = Ret (s', Some (inr err)) ->
     DialWriter config s = Ret (s', inr err))
  /\ (forall backend e, candidates = Ret (s', Some (inl backend)) ->
      template_Parse_error text = Some e ->
      DialWriter config s = Panic e)
  /\ (forall backend, candidates = Ret (s', Some (inl backend)) ->
      template_Parse_error text = None ->
      exists w, DialWriter config s = Ret (s', inl w)
                /\ writer.backend w = backend
                /\ writer.dead w = false
                /\ tpl_text (writer.tpl w) = text).
Proof.
  intros candidates text. subst candidates text.
  destruct (DialWriter_netopts_keeps config) as (Htpl & _).
  split; [|split].
  - intros err Hrun. now rewrite DialWriter_connects, Hrun.
  - intros backend e Hrun Hparse. rewrite DialWriter_connects, Hrun. cbn [bind].
    rewrite Htpl.
    match goal with |- context [newWriter ?c] => pose proof (newWriter_outcome c) as Hnew end.
    cbn [writerConfig.template] in Hnew. rewrite Hparse in Hnew. now rewrite Hnew.
  - intros backend Hrun Hparse. rewrite DialWriter_connects, Hrun. cbn [bind].
    rewrite Htpl.
    match goal with |- context [newWriter ?c] => pose proof (newWriter_outcome c) as Hnew end.
    cbn [writerConfig.template writerConfig.backend] in Hnew. rewrite Hparse in Hnew.
    destruct Hnew as (w & Hnew & Htext & Hback & Hlive).
    exists w. rewrite Hnew. cbn [bind]. now repeat split.
Qed.

(** X5: a [SYSLOG_URL] that does not parse makes [NewWriter] return the
    error [invalid syslog URL: ...] with nothing dialed; the call is
    counted as a new connection all the same, and the pool is left as it
    was. *)
Theorem NewWriter_invalid_url (group stream url : string) (err : error)
    (g : @globals B) s :
  os_Getenv "SYSLOG_URL" = url -> url <> "" ->
  url_Parse url = inr err ->
  enablePooling g = false \/ chan_buf (writerPool g) = [] ->
  NewWriter group stream g s
  = Ret (mkGlobals (writerPool g) (enablePooling g) (wrap_uint64 (newConnections g + 1)),
         s, inr (errorString ("invalid syslog URL: " +:+ Error err))).
Proof.
  intros Henv Hurl Hparse Hpool. unfold NewWriter.
  assert ((if enablePooling g then try_recv (writerPool g) else None) = None) as ->.
  { destruct Hpool as [ -> | Hempty]; [reflexivity|].
    unfold try_recv. rewrite Hempty. now destruct (enablePooling g). }
  unfold NewWriter_config. rewrite Henv, len_zero.
  apply String.eqb_neq in Hurl. rewrite Hurl. cbn [negb]. now rewrite Hparse.
Qed.

(** X6: the configuration that [NewWriter] dials has the scheme and the
    host of [SYSLOG_URL] for network and address, never a TLS
    configuration, a proxy or a tag; without [SYSLOG_URL] its candidates
    are the local sockets. *)
Theorem NewWriter_config_of_environment :
  (os_Getenv "SYSLOG_URL" = "" ->
   exists c, NewWriter_config = inl c
             /\ fst (DialWriter_netopts c) = ["unixgram"; "unix"]
             /\ DialWriter_addropts (snd (DialWriter_netopts c))
                = ["/dev/log"; "/var/run/syslog"; "/var/run/log"])
  /\ (forall scheme host,
      os_Getenv "SYSLOG_URL" <> "" ->
      url_Parse (os_Getenv "SYSLOG_URL") = inl (scheme, host) ->
      exists c, NewWriter_config = inl c
                /\ WriterConfig.Network c = scheme
                /\ WriterConfig.Address c = host)
  /\ (forall c, NewWriter_config = inl c ->
      WriterConfig.Template c = os_Getenv "SYSLOG_TEMPLATE"
      /\ WriterConfig.TimeFormat c = os_Getenv "SYSLOG_TIME_FORMAT"
      /\ WriterConfig.Tag c = ""
      /\ WriterConfig.TLS c = None
      /\ WriterConfig.SocksProxy c = "").
Proof.
  unfold NewWriter_config. rewrite len_zero. split; [|split].
  - intros ->. cbn [String.eqb negb]. eexists. split; [reflexivity|].
    rewrite DialWriter_netopts_eq, DialWriter_addropts_eq. now split.
  - intros scheme host Hurl Hparse. apply String.eqb_neq in Hurl.
    rewrite Hurl, Hparse. cbn [negb]. eexists. split; [reflexivity|]. now split.
  - intros c. destruct (negb _).
    + destruct (url_Parse _) as [[scheme host]|e]; [|discriminate].
      intros [= <-]. now repeat split.
    + intros [= <-]. now repeat split.
Qed.

Lemma slept_app (l1 l2 : list event) : slept (l1 ++ l2) = (slept l1 + slept l2)%Z.
Proof.
  induction l1 as [|[n a|d] l1 IH]; cbn [app slept]; [reflexivity|exact IH|].
  rewrite IH. lia.
Qed.

Lemma dials_app (l1 l2 : list event) : dials (l1 ++ l2) = (dials l1 + dials l2)%nat.
Proof.
  induction l1 as [|[n a|d] l1 IH]; cbn [app dials]; [reflexivity| |exact IH].
  now rewrite IH.
Qed.

(** Without a proxy a dial function can always be made. *)
Lemma dialWriter_dial_no_proxy network (tlsconfig : option tls_Config) :
  exists dial, dialWriter_dial network tlsconfig "" = inl (dial_network network, dial).
Proof.
  unfold dialWriter_dial, dial_network.
  destruct (String.eqb network "tls"); cbn [String.eqb negb]; eauto.
Qed.

(** Without a proxy a candidate fails after three dials and two pauses. *)
Lemma dialWriter_fails_after_three network address (tlsconfig : option tls_Config) s s1 err :
  dialWriter network address tlsconfig "" s = Ret (s1, inr err) ->
  trace s1 = trace s ++ attempts (dial_network network) address 3.
Proof.
  destruct (dialWriter_dial_no_proxy network tlsconfig) as [dial Hdial].
  destruct (dialWriter_attempts network address tlsconfig "" s _ _ Hdial)
    as (k & s' & r & Hk & Hrun & Htrace & Hthree).
  rewrite Hrun. intros [= <- ->]. now rewrite Htrace, (Hthree err eq_refl).
Qed.

Lemma all_fail_trace config pairs s s1 :
  WriterConfig.SocksProxy config = "" ->
  all_fail config pairs s s1 ->
  trace s1 = trace s ++ three_attempts_each pairs.
Proof.
  intros Hproxy Hall. induction Hall as [s|n a rest s s1 s2 err Hdial Hrest IH].
  - cbn. now rewrite app_nil_r.
  - rewrite Hproxy in Hdial. apply dialWriter_fails_after_three in Hdial.
    rewrite IH, Hdial. unfold three_attempts_each. cbn [flat_map fst snd].
    now rewrite <- app_assoc.
Qed.

Lemma three_attempts_each_counts pairs :
  dials (three_attempts_each pairs) = (3 * length pairs)%nat
  /\ slept (three_attempts_each pairs) = (2 * Z.of_nat (length pairs) * time_Second)%Z.
Proof.
  unfold three_attempts_each. induction pairs as [|[n a] pairs [IHd IHs]]; [now split|].
  cbn [flat_map fst snd length]. rewrite dials_app, slept_app, IHd, IHs.
  cbn [attempts dials slept]. split; lia.
Qed.

(** X7: when no proxy is configured and every candidate fails,
    [DialWriter] returns an error (no writer, no panic) after exactly three
    dials of each candidate pair, in the order of the pairs, and two
    seconds of sleep per pair. *)
Theorem DialWriter_gives_up_after_all_candidates config s s1 :
  let config' := snd (DialWriter_netopts config) in
  let pairs := list_prod (fst (DialWriter_netopts config)) (DialWriter_addropts config') in
  WriterConfig.SocksProxy config = "" ->
  all_fail config' pairs s s1 ->
  (exists err, DialWriter config s = Ret (s1, inr err))
  /\ trace s1 = trace s ++ three_attempts_each pairs
  /\ dials (trace s1) = (dials (trace s) + 3 * length pairs)%nat
  /\ slept (trace s1) = (slept (trace s) + 2 * Z.of_nat (length pairs) * time_Second)%Z.
Proof.
  intros config' pairs Hproxy Hall.
  assert (WriterConfig.SocksProxy config' = "") as Hproxy'.
  { subst config'. destruct (DialWriter_netopts_keeps config) as (_ & _ & _ & _ & ->).
    exact Hproxy. }
  pose proof (all_fail_trace config' pairs s s1 Hproxy' Hall) as Htrace.
  destruct (three_attempts_each_counts pairs) as [Hd Hs].
  split; [|split; [exact Htrace|split]].
  - destruct (DialWriter_dials_a_candidate config s) as (s2 & r & Hrun).
    destruct (connect_all_fail config' (fst (DialWriter_netopts config))
                (DialWriter_addropts config') None s s1 ltac:(discriminate) Hall)
      as (r' & Hrun' & Hr').
    fold config' in Hrun. rewrite Hrun in Hrun'. injection Hrun' as -> <-.
    destruct r as [backend|err]; [now destruct (Hr' backend)|].
    exists err. rewrite DialWriter_connects. fold config'. now rewrite Hrun.
  - now rewrite Htrace, dials_app, Hd.
  - now rewrite Htrace, slept_app, Hs.
Qed.

(** X8: a healthy writer released into an empty pool is the writer that
    the next [NewWriter] returns: nothing is dialed, no connection is
    counted, and the pool is empty again. *)
Theorem Close_then_NewWriter w (cap : nat) (n : Z) (group stream : string) s :
  writer.dead w = false -> (0 < cap)%nat ->
  let g := mkGlobals (make_chan cap) true n in
  Close w g = (mkGlobals (mkChan cap [w]) true n, w, None)
  /\ NewWriter group stream (fst (fst (Close w g))) s = Ret (g, s, inl w).
Proof.
  intros Hlive Hcap g.
  assert (Close w g = (mkGlobals (mkChan cap [w]) true n, w, None)) as Hclose.
  { subst g. rewrite Close_healthy_room; [reflexivity|exact Hlive|reflexivity|exact Hcap]. }
  split; [exact Hclose|]. rewrite Hclose. reflexivity.
Qed.

(** X9: [Close] does not look for the writer in the pool.  A healthy
    writer closed twice is in the pool twice, and the next two calls of
    [NewWriter] both return it. *)
Theorem Close_twice_pools_twice w (cap : nat) (n : Z) s :
  writer.dead w = false -> (2 <= cap)%nat ->
  let g := mkGlobals (make_chan cap) true n in
  fst (Close_each [w; w] g) = mkGlobals (mkChan cap [w; w]) true n
  /\ NewWriter_times 2 (fst (Close_each [w; w] g)) s
     = Ret (mkGlobals (mkChan cap []) true n, s, [inl w; inl w]).
Proof.
  intros Hlive Hcap g.
  assert (fst (Close_each [w; w] g) = mkGlobals (mkChan cap [w; w]) true n) as Hclose.
  { subst g. unfold make_chan. rewrite Close_each_room; [reflexivity| |cbn; lia].
    repeat constructor; exact Hlive. }
  split; [exact Hclose|]. rewrite Hclose.
  exact (NewWriter_times_pooled [w; w] cap n s).
Qed.

End MoreDialFacts.

(** ** Framing: the writers of dialed connections *)
Section FramingFacts.
Import GoStrings Go syslog syslog_more syslog_conn.
Context `{EcslogsLib} `{TemplateLib} `{OsLib} `{ConnLib}.
#[local] Existing Instance dialed_WriteCloser.
#[local] Existing Instance dialed_ConnBackend.

Implicit Types (w : writer.t dialed) (s : netState).

Lemma dialWriter_dial_network network (tlsconfig : option tls_Config) socksProxy network' dial :
  dialWriter_dial network tlsconfig socksProxy = inl (network', dial) ->
  network' = dial_network network.
Proof.
  unfold dialWriter_dial, dial_network.
  destruct (String.eqb network "tls"); destruct (negb _);
    try destruct (proxy_SOCKS5 _ _); congruence.
Qed.

(** What [dialWriter] returns when it connects. *)
Lemma dialWriter_connected network address (tlsconfig : option tls_Config) socksProxy s s'
    (b : dialed) :
  dialWriter network address tlsconfig socksProxy s = Ret (s', inl b) ->
  exists c, b = dialWriter_wrap (dial_network network) c.
Proof.
  unfold dialWriter.
  destruct (dialWriter_dial network tlsconfig socksProxy) as [[network' dial]|err] eqn:Hdial;
    [|discriminate].
  apply dialWriter_dial_network in Hdial as ->.
  destruct (dialWriter_loop 3 dial (dial_network network) address 1 s) as [[s1 [c|err]]| |];
    cbn [bind]; try discriminate.
  intros [= _ <-]. eauto.
Qed.

(** X10: the writer of a connection made by [dialWriter] frames by the
    network dialed.  On [udp], [udp4], [udp6], [unixgram] and [unixpacket]
    the backend is the connection itself: each message is rendered into
    the writer's buffer and sent in one write, and nothing is flushed.  On
    any other network, [tcp] for the candidate [tls] included, the backend
    is a [bufferedConn] on a new [bufio.Writer]: the template writes into
    it and the writer flushes it. *)
Theorem dialed_writer_framing network address (tlsconfig : option tls_Config) socksProxy
    s s' (b : dialed) (template timeFormat tag : string) w :
  dialWriter network address tlsconfig socksProxy s = Ret (s', inl b) ->
  newWriter (writerConfig.mk b template timeFormat tag) = Ret w ->
  if bool_decide (dial_network network ∈ ["udp"; "udp4"; "udp6"; "unixgram"; "unixpacket"])
  then exists c, writer.backend w = dialed_conn c
                 /\ writer.out w = out_bufferedWrite /\ writer.flush w = flush_nothing
  else exists c, writer.backend w = dialed_buffered (mkBufferedConn bufio_NewWriter c)
                 /\ writer.out w = out_directWrite /\ writer.flush w = flush_backend.
Proof.
  intros Hdial Hnew. apply dialWriter_connected in Hdial as [c ->].
  destruct (newWriter_functions _ w Hnew) as (Hback & _ & Hdirect & Hbuffered).
  cbn [writerConfig.backend] in Hback, Hdirect, Hbuffered. rewrite Hback.
  unfold dialWriter_wrap in *.
  destruct (bool_decide (dial_network network ∈ ["udp"; "udp4"; "udp6"; "unixgram"; "unixpacket"])).
  - exists c. split; [reflexivity|]. now apply Hbuffered.
  - exists c. split; [reflexivity|]. now apply Hdirect.
Qed.

Lemma write_chunks_buffered (c : bufferedConn_t) chunks :
  exists c', fst (write_chunks (dialed_buffered c) chunks) = dialed_buffered c'.
Proof.
  revert c. induction chunks as [|d chunks IH]; intros c; cbn [write_chunks].
  - eauto.
  - cbn [io_Write dialed_WriteCloser].
    destruct (bufferedConn_Write c d) as [c1 [err|]]; cbn [fst]; [eauto|apply IH].
Qed.

Lemma call_out_buffered w m (c : bufferedConn_t) :
  writer.backend w = dialed_buffered c ->
  exists c', writer.backend (fst (call_out w m)) = dialed_buffered c'.
Proof.
  intros Hback. unfold call_out, directWrite, bufferedWrite. destruct (writer.out w).
  - destruct (template_Execute (writer.tpl w) m) as [chunks exec_err].
    rewrite Hback. destruct (write_chunks_buffered c chunks) as [c' Hc'].
    destruct (write_chunks (dialed_buffered c) chunks) as [b [err|]]; cbn [fst] in Hc' |- *;
      subst b; eauto.
  - change (writer.backend (writer.set_buf _ (writer.set_buf "" w))) with (writer.backend w).
    rewrite Hback. cbn [io_Write dialed_WriteCloser].
    destruct (bufferedConn_Write c _) as [c1 err]. cbn [fst]. eauto.
Qed.

Lemma write_each_buffered w batch (c : bufferedConn_t) :
  writer.backend w = dialed_buffered c ->
  exists c', writer.backend (fst (write_each w batch)) = dialed_buffered c'.
Proof.
  revert w c. induction batch as [|m batch IH]; intros w c Hback; cbn [write_each].
  - eauto.
  - destruct (call_out_buffered w (write_message w m) c Hback) as [c1 Hc1].
    fold (write w m) in Hc1.
    destruct (write w m) as [w1 [err|]]; cbn [fst] in Hc1 |- *; [eauto|].
    exact (IH w1 c1 Hc1).
Qed.

(** X11: on a writer that flushes a [bufferedConn], a batch that returns
    no error ends with a [Flush] that succeeded: the backend it leaves is
    the one the flush returned, made after the last message was written. *)
Theorem successful_batch_ends_flushed w (c : bufferedConn_t) (batch : list lib.Message.t) w' :
  writer.backend w = dialed_buffered c ->
  writer.flush w = flush_backend ->
  WriteMessageBatch w batch = (w', None) ->
  exists w1 c1 c2,
    write_each w batch = (w1, None)
    /\ writer.backend w1 = dialed_buffered c1
    /\ bufferedConn_Flush c1 = (c2, None)
    /\ writer.backend w' = dialed_buffered c2.
Proof.
  intros Hback Hflush. rewrite WriteMessageBatch_write_each.
  destruct (write_each_buffered w batch c Hback) as [c1 Hc1].
  pose proof (write_each_flush w batch) as Hfl.
  destruct (write_each w batch) as [w1 [err|]]; cbn [fst] in Hc1, Hfl; [discriminate|].
  unfold call_flush. rewrite Hfl, Hflush, Hc1. cbn [buf_Flush dialed_WriteCloser].
  destruct (bufferedConn_Flush c1) as [c2 [err|]] eqn:Hflushed; [discriminate|].
  intros [= <-]. exists w1, c1, c2. repeat split; (reflexivity || assumption).
Qed.

(** X12: [Close] never flushes.  Closing a dead writer on a
    [bufferedConn] closes the connection and leaves the [bufio.Writer] as
    it was: what it still holds is not written. *)
Theorem Close_does_not_flush w (c : bufferedConn_t) (g : @globals dialed) :
  writer.backend w = dialed_buffered c ->
  writer.dead w = true ->
  Close w g
  = (g,
     writer.set_backend
       (dialed_buffered (mkBufferedConn (buf c) (fst (conn_Close (conn c))))) w,
     snd (conn_Close (conn c))).
Proof.
  intros Hback Hdead. rewrite Close_dead by exact Hdead.
  unfold closed_writer. rewrite Hback. cbn [io_Close dialed_WriteCloser].
  unfold bufferedConn_Close. now destruct (conn_Close (conn c)).
Qed.

End FramingFacts.

(** ** Stream names, continued *)
Section MoreSanitizeFacts.
Import GoStrings journald.

Lemma no_byte_clean s :
  contains_byte ":" s = false -> contains_byte "*" s = false ->
  all_bytes clean_byte s = true.
Proof.
  induction s as [|d s IH]; cbn [contains_byte all_bytes]; [reflexivity|].
  intros [Hc Hs]%orb_false_iff [Hc' Hs']%orb_false_iff.
  rewrite (IH Hs Hs'). unfold clean_byte. now rewrite Hc, Hc'.
Qed.

(** X13: the length of the result of [sanitizeStreamName] is that of
    its argument, cut at 512: no byte is dropped before the 512th and the
    replacements keep the length.  A name comes back unchanged exactly when
    it is at most 512 bytes long and holds neither [':'] nor ['*']. *)
Theorem sanitizeStreamName_length_and_fixed_points (name : string) :
  len (sanitizeStreamName name) = Nat.min 512 (len name)
  /\ (sanitizeStreamName name = name
      <-> (len name <= 512)%nat
          /\ contains_byte ":" name = false /\ contains_byte "*" name = false).
Proof.
  split.
  - rewrite sanitizeStreamName_unfold, len_slice_to, len_map_bytes. lia.
  - split.
    + intros Hfix.
      pose proof (sanitizeStreamName_len name) as Hlen.
      pose proof (sanitizeStreamName_clean name) as Hclean.
      rewrite Hfix in Hlen, Hclean.
      split; [exact Hlen|]. split; now apply clean_no_byte.
    + intros (Hlen & Hcolon & Hstar).
      rewrite sanitizeStreamName_unfold.
      rewrite (map_bytes_id_on clean_byte)
        by (exact slash_for_colon_star_fixes || now apply no_byte_clean).
      apply slice_to_all. lia.
Qed.

End MoreSanitizeFacts.

(** ** The journal reader, continued *)
Section MoreReaderFacts.
Import GoStrings Go journald journald_more.
Context `{EcslogsLib} `{EncodingLib}.

Implicit Types (r : reader) (j : Journal) (msg : lib.Message.t) (turns : list turn).
Implicit Types (ev : ecslogs.Event.t EventData) (info : ecslogs.EventInfo.t).

(** [fillEvent] is its four steps in a row. *)
Lemma fillEvent_steps r ev :
  fillEvent r ev
  = fill_time r
      (ecslogs.Event.set_Info
         (fill_info r (ecslogs.Event.Info (fill_level r (fill_body r ev))))
         (fill_level r (fill_body r ev))).
Proof. reflexivity. Qed.

Lemma fill_body_fields r ev :
  ecslogs.Event.Level (fill_body r ev) = ecslogs.Event.Level ev
  /\ ecslogs.Event.Time (fill_body r ev) = ecslogs.Event.Time ev
  /\ ecslogs.Event.Info (fill_body r ev) = ecslogs.Event.Info ev
  /\ ecslogs.Event.Data (fill_body r ev) = ecslogs.Event.Data ev.
Proof.
  unfold fill_body.
  destruct (stringToRawMessage (getString r "MESSAGE")) as [raw [|]];
    [destruct (strconv_Unquote _) as [unq|]; [destruct (stringToRawMessage unq) as [raw1 [|]]|]|];
    repeat split.
Qed.


Lemma fill_level_fields r ev :
  ecslogs.Event.Level (fill_level r ev)
  = (if (ecslogs.Event.Level ev =? ecslogs.NONE)%Z then getPriority r
     else ecslogs.Event.Level ev)
  /\ ecslogs.Event.Time (fill_level r ev) = ecslogs.Event.Time ev
  /\ ecslogs.Event.Info (fill_level r ev) = ecslogs.Event.Info ev
  /\ ecslogs.Event.Data (fill_level r ev) = ecslogs.Event.Data ev
  /\ ecslogs.Event.Message (fill_level r ev) = ecslogs.Event.Message ev
  /\ ecslogs.Event.IsMessageJson (fill_level r ev) = ecslogs.Event.IsMessageJson ev
  /\ ecslogs.Event.WasMessagequoted (fill_level r ev) = ecslogs.Event.WasMessagequoted ev.
Proof. unfold fill_level. destruct (_ =? _)%Z; repeat split. Qed.

Lemma fill_time_fields r ev :
  ecslogs.Event.Level (fill_time r ev) = ecslogs.Event.Level ev
  /\ ecslogs.Event.Time (fill_time r ev)
     = (if bool_decide (ecslogs.Event.Time ev = time_zero) then getTime r
        else ecslogs.Event.Time ev)
  /\ ecslogs.Event.Info (fill_time r ev) = ecslogs.Event.Info ev
  /\ ecslogs.Event.Data (fill_time r ev) = ecslogs.Event.Data ev
  /\ ecslogs.Event.Message (fill_time r ev) = ecslogs.Event.Message ev
  /\ ecslogs.Event.IsMessageJson (fill_time r ev) = ecslogs.Event.IsMessageJson ev
  /\ ecslogs.Event.WasMessagequoted (fill_time r ev) = ecslogs.Event.WasMessagequoted ev.
Proof. unfold fill_time. destruct (bool_decide _); repeat split. Qed.






(** The fields of the event that [fillEvent] returns. *)
Lemma fillEvent_fields r ev :
  ecslogs.Event.Level (fillEvent r ev)
  = (if (ecslogs.Event.Level ev =? ecslogs.NONE)%Z then getPriority r
     else ecslogs.Event.Level ev)
  /\ ecslogs.Event.Time (fillEvent r ev)
     = (if bool_decide (ecslogs.Event.Time ev = time_zero) then getTime r
        else ecslogs.Event.Time ev)
  /\ ecslogs.Event.Info (fillEvent r ev) = fill_info r (ecslogs.Event.Info ev)
  /\ ecslogs.Event.Data (fillEvent r ev) = ecslogs.Event.Data ev
  /\ ecslogs.Event.Message (fillEvent r ev) = ecslogs.Event.Message (fill_body r ev)
  /\ ecslogs.Event.IsMessageJson (fillEvent r ev)
     = ecslogs.Event.IsMessageJson (fill_body r ev)
  /\ ecslogs.Event.WasMessagequoted (fillEvent r ev)
     = ecslogs.Event.WasMessagequoted (fill_body r ev).
Proof.
  rewrite fillEvent_steps.
  set (ev1 := fill_body r ev). set (ev2 := fill_level r ev1).
  destruct (fill_time_fields r
              (ecslogs.Event.set_Info (fill_info r (ecslogs.Event.Info ev2)) ev2))
    as (-> & -> & -> & -> & -> & -> & ->).
  cbn [ecslogs.Event.set_Info ecslogs.Event.Level ecslogs.Event.Time ecslogs.Event.Info
       ecslogs.Event.Data ecslogs.Event.Message ecslogs.Event.IsMessageJson
       ecslogs.Event.WasMessagequoted].
  subst ev2.
  destruct (fill_level_fields r ev1) as (-> & -> & -> & -> & -> & -> & ->).
  subst ev1.
  destruct (fill_body_fields r ev) as (-> & -> & -> & ->).
  repeat split.
Qed.


(** X15: the body of the message that [getMessage] builds.
    [IsMessageJson] says exactly whether [MESSAGE] parses as JSON; a
    [MESSAGE] that does not is stored as the JSON string that
    [json.Marshal] makes of it.  [WasMessagequoted] is set only together
    with [IsMessageJson], and exactly when [MESSAGE] unquotes to a text
    that parses as JSON too, which is then the body. *)
Theorem fillEvent_body_classification (r : reader) (ev : ecslogs.Event.t EventData) :
  let s := getString r "MESSAGE" in
  let ev' := fillEvent r ev in
  (ecslogs.Event.IsMessageJson ev' = true
   <-> exists raw, json_Unmarshal_RawMessage s = inl raw)
  /\ (ecslogs.Event.IsMessageJson ev' = false ->
      ecslogs.Event.Message ev' = json_Marshal_string s)
  /\ (ecslogs.Event.WasMessagequoted ev' = true
      <-> (exists raw, json_Unmarshal_RawMessage s = inl raw)
          /\ exists unquoted raw1,
               strconv_Unquote s = inl unquoted
               /\ json_Unmarshal_RawMessage unquoted = inl raw1)
  /\ (forall unquoted raw1,
        ecslogs.Event.WasMessagequoted ev' = true ->
        strconv_Unquote s = inl unquoted ->
        json_Unmarshal_RawMessage unquoted = inl raw1 ->
        ecslogs.Event.Message ev' = raw1)
  /\ (forall raw,
        ecslogs.Event.IsMessageJson ev' = true ->
        ecslogs.Event.WasMessagequoted ev' = false ->
        json_Unmarshal_RawMessage s = inl raw ->
        ecslogs.Event.Message ev' = raw)
  /\ (ecslogs.Event.WasMessagequoted ev' = true -> ecslogs.Event.IsMessageJson ev' = true).
Proof.
  intros s ev'.
  destruct (fillEvent_fields r ev) as (_ & _ & _ & _ & HMsg & HJson & HQuoted).
  fold ev' in HMsg, HJson, HQuoted. rewrite HMsg, HJson, HQuoted.
  unfold fill_body, stringToRawMessage. fold s.
  destruct (json_Unmarshal_RawMessage s) as [raw|e] eqn:Hraw.
  - destruct (strconv_Unquote s) as [unq|e] eqn:Hunq.
    + destruct (json_Unmarshal_RawMessage unq) as [raw1|e] eqn:Hraw1; cbn.
      * repeat split; try discriminate; try congruence; eauto.
      * repeat split; try discriminate; try congruence; eauto.
        intros (_ & u & r1 & [= <-] & Hu). congruence.
    + cbn. repeat split; try discriminate; try congruence; eauto.
      intros (_ & u & r1 & Hu & _). discriminate.
  - cbn. repeat split; try discriminate; try congruence.
    + intros [raw Hr]. discriminate.
    + intros ([raw Hr] & _). discriminate.
Qed.

(** X16: [getTime] keeps the microseconds of the journal.  A
    timestamp [u] that fits in a [uint64] is handed to [time.Unix] as
    whole seconds that fit in an [int64] and as nanoseconds below one
    second, which together are [u] microseconds; when the journal has no
    timestamp the time is the wall clock. *)
Theorem getTime_keeps_microseconds (r : reader) :
  (forall u,
      realtime_usec (journal r) = inl u -> (0 <= u < 2 ^ 64)%Z ->
      exists sec nsec,
        getTime r = time_Unix sec nsec
        /\ (0 <= sec < 2 ^ 63)%Z /\ (0 <= nsec < 1000000000)%Z
        /\ (sec * 1000000000 + nsec = u * 1000)%Z)
  /\ (forall e, realtime_usec (journal r) = inr e -> getTime r = time_Now (journal r)).
Proof.
  split.
  - intros u Hu Hrange. unfold getTime. rewrite Hu.
    exists (u / 1000000)%Z, ((u mod 1000000) * 1000)%Z.
    pose proof (Z.div_mod u 1000000 ltac:(lia)) as Hdm.
    pose proof (Z.mod_pos_bound u 1000000 ltac:(lia)) as Hmod.
    assert (0 <= u / 1000000)%Z as Hlo by (apply Z.div_pos; lia).
    assert (u / 1000000 < 2 ^ 63)%Z as Hhi.
    { apply Z.div_lt_upper_bound; lia. }
    repeat split; try lia.
  - intros e He. unfold getTime. now rewrite He.
Qed.

(** A reader that [Close] has stopped. *)
Lemma ReadMessage_from_stopped r msg turns :
  stopped r <> 0%Z ->
  ReadMessage_from r msg turns
  = Returned (mkReader (streamName r) (stopped r) (Journal_Close (journal r))) msg
      (Some io_EOF).
Proof.
  intros Hstopped. rewrite ReadMessage_from_unfold.
  now destruct (Z.eqb_spec (stopped r) 0).
Qed.

(** X17: [Close] ends the reading.  [ReadMessage] on a closed reader
    returns [io.EOF] and the zero message, with the journal closed, and
    looks at no entry; so does every call after it.  A [Close] made from
    elsewhere while [ReadMessage] polls has the same effect at the next
    turn of the loop, whatever the journal holds then. *)
Theorem Close_ends_ReadMessage (r : reader) (turns : list turn) :
  let done := mkReader (streamName r) 1 (Journal_Close (journal r)) in
  ReadMessage (fst (Close r)) turns = Returned done lib.Message.zero (Some io_EOF)
  /\ (forall turns', ReadMessage done turns' = Returned done lib.Message.zero (Some io_EOF))
  /\ (forall idle,
        stopped r = 0%Z ->
        Forall (fun t => t = NextNothing) idle ->
        ReadMessage r (idle ++ ClosedElsewhere :: turns)
        = Returned done lib.Message.zero (Some io_EOF)).
Proof.
  intros done. split; [|split].
  - unfold ReadMessage. now rewrite ReadMessage_from_stopped.
  - intros turns'. unfold ReadMessage. now rewrite ReadMessage_from_stopped.
  - intros idle Hrun Hidle. unfold ReadMessage.
    induction Hidle as [|t idle -> _ IH]; cbn [app].
    + rewrite ReadMessage_from_unfold, Hrun. cbn [Z.eqb].
      now rewrite ReadMessage_from_stopped.
    + rewrite ReadMessage_from_unfold, Hrun. cbn [Z.eqb]. exact IH.
Qed.

Lemma visible_false_skips r j :
  visible (NextEntry j) = false -> getMessage (at_entry r j) = (lib.Message.zero, false, None).
Proof.
  cbn [visible]. intros Hvis. apply getMessage_skips.
  cbn [at_entry journal].
  destruct (fields j !! "CONTAINER_TAG") as [group|]; [|now left].
  right. f_equal. apply String.eqb_eq. now destruct (String.eqb group "").
Qed.

Lemma getMessage_same_reader r1 r2 j :
  same_reader r1 r2 -> getMessage (at_entry r1 j) = getMessage (at_entry r2 j).
Proof.
  intros [Hname Hstopped]. unfold at_entry. now rewrite Hname, Hstopped.
Qed.

Lemma ReadMessage_from_visible turns r1 r2 :
  same_reader r1 r2 ->
  returned (ReadMessage_from r1 lib.Message.zero turns)
  = returned (ReadMessage_from r2 lib.Message.zero (List.filter visible turns)).
Proof.
  revert r1 r2. induction turns as [|t rest IH]; intros r1 r2 [Hname Hstopped].
  - cbn [List.filter]. rewrite !ReadMessage_from_unfold, <- Hstopped.
    now destruct (stopped r1 =? 0)%Z.
  - destruct (Z.eqb_spec (stopped r1) 0) as [Hrun|Hstop].
    + assert (stopped r2 = 0%Z) as Hrun2 by congruence.
      destruct t as [|e| |j].
      * cbn [List.filter visible]. rewrite (ReadMessage_from_unfold r1), (ReadMessage_from_unfold r2).
        rewrite Hrun, Hrun2. cbn [Z.eqb]. apply IH. now split.
      * cbn [List.filter visible]. rewrite (ReadMessage_from_unfold r1), (ReadMessage_from_unfold r2).
        now rewrite Hrun, Hrun2.
      * cbn [List.filter visible]. rewrite (ReadMessage_from_unfold r1), Hrun. cbn [Z.eqb].
        apply IH. now split.
      * cbn [List.filter]. destruct (visible (NextEntry j)) eqn:Hvis.
        -- rewrite !ReadMessage_from_entry by assumption.
           rewrite (getMessage_same_reader r1 r2 j) by now split.
           destruct (getMessage (at_entry r2 j)) as [[m ok] err] eqn:Hget.
           destruct ok; cbn [orb]; [reflexivity|].
           destruct err as [e|]; cbn [non_nil]; [reflexivity|].
           exfalso. revert Hget Hvis. unfold getMessage, GetDataValue.
           cbn [at_entry journal streamName visible].
           destruct (fields j !! "CONTAINER_TAG") as [group|]; [|discriminate].
           destruct group as [|c group]; [discriminate|].
           cbn [lib.Message.set_Group lib.Message.Group len String.length Nat.eqb].
           destruct (fields j !! streamName r2); cbn [non_nil]; [discriminate|].
           destruct (fields j !! "CONTAINER_ID_FULL"); cbn [non_nil]; discriminate.
        -- rewrite ReadMessage_from_entry by assumption.
           rewrite (visible_false_skips r1 j Hvis). cbn [orb non_nil].
           apply IH. now split.
    + rewrite !ReadMessage_from_stopped by congruence. reflexivity.
Qed.

(** X18: what the caller of [ReadMessage] gets does not depend on
    the idle polls nor on the entries without a (non-empty)
    [CONTAINER_TAG] that the loop meets: with these turns taken out, the
    same message and the same error come back, or none in both cases. *)
Theorem ReadMessage_sees_tagged_entries_only (r : reader) (turns : list turn) :
  returned (ReadMessage r turns) = returned (ReadMessage r (List.filter visible turns)).
Proof. unfold ReadMessage. apply ReadMessage_from_visible. now split. Qed.

Lemma error_cause_later t turns r' msg err :
  error_cause turns r' msg err -> error_cause (t :: turns) r' msg err.
Proof.
  intros [Hc|[Hc|Hc]]; [now left|right; left; now right|now right; right].
Qed.

Lemma ReadMessage_from_errors turns r msg0 r' msg err :
  unfilled msg0 ->
  ReadMessage_from r msg0 turns = Returned r' msg (Some err) ->
  unfilled msg /\ error_cause turns r' msg err.
Proof.
  revert r msg0. induction turns as [|t rest IH]; intros r msg0 Hmsg0;
    rewrite ReadMessage_from_unfold; destruct (Z.eqb_spec (stopped r) 0) as [Hrun|Hstop].
  - discriminate.
  - cbv zeta. intros [= <- <- <-]. split; [exact Hmsg0|]. left. repeat split. exact Hstop.
  - destruct t as [|e| |j].
    + intros Hread. destruct (IH _ _ Hmsg0 Hread) as [Hm Hcause].
      split; [exact Hm|]. now apply error_cause_later.
    + intros [= <- <- <-]. split; [exact Hmsg0|]. right; left. now left.
    + intros Hread. destruct (IH _ _ Hmsg0 Hread) as [Hm Hcause].
      split; [exact Hm|]. now apply error_cause_later.
    + cbv zeta. unfold getMessage, GetDataValue. cbn [at_entry journal streamName].
      assert (unfilled lib.Message.zero) as Hzero by (split; reflexivity).
      destruct (fields j !! "CONTAINER_TAG") as [group|] eqn:Htag.
      * destruct group as [|c group].
        -- cbn [lib.Message.set_Group lib.Message.Group len String.length Nat.eqb orb non_nil].
           intros Hread. destruct (IH _ _ Hzero Hread) as [Hm Hcause].
           split; [exact Hm|]. now apply error_cause_later.
        -- cbn [lib.Message.set_Group lib.Message.Group len String.length Nat.eqb].
           destruct (fields j !! streamName r) as [v|] eqn:Hname; cbn [non_nil orb];
             [discriminate|].
           destruct (fields j !! "CONTAINER_ID_FULL") as [v|] eqn:Hfull; cbn [non_nil orb];
             [discriminate|].
           intros [= <- <- <-]. split; [split; reflexivity|]. right; right.
           exists (String c group). cbn. repeat split; try assumption. discriminate.
      * cbn [lib.Message.set_Group lib.Message.Group len String.length Nat.eqb orb non_nil].
        intros Hread. destruct (IH _ _ Hzero Hread) as [Hm Hcause].
        split; [exact Hm|]. now apply error_cause_later.
  - cbv zeta. intros [= <- <- <-]. split; [exact Hmsg0|]. left. repeat split. exact Hstop.
Qed.

(** X19: [ReadMessage] returns an error in three cases only: the
    reader was closed ([io.EOF], and the journal is closed), [Next] failed
    (its error), or an entry with a non-empty [CONTAINER_TAG] had no field
    for the stream.  With an error the message is never filled: it has no
    stream and the zero event. *)
Theorem ReadMessage_errors (r r' : reader) (turns : list turn) (msg : lib.Message.t)
    (err : error) :
  ReadMessage r turns = Returned r' msg (Some err) ->
  lib.Message.Stream msg = ""
  /\ lib.Message.Event msg = lib.Message.Event lib.Message.zero
  /\ ((err = io_EOF /\ closed (journal r') = true /\ stopped r' <> 0%Z)
      \/ In (NextFails err) turns
      \/ exists group,
           fields (journal r') !! "CONTAINER_TAG" = Some group /\ group <> ""
           /\ fields (journal r') !! streamName r' = None
           /\ fields (journal r') !! "CONTAINER_ID_FULL" = None
           /\ lib.Message.Group msg = group
           /\ err = errorString
                      ("missing CONTAINER_ID_FULL in message with CONTAINER_TAG=" +:+ group)).
Proof.
  unfold ReadMessage. intros Hread.
  apply ReadMessage_from_errors in Hread as [[Hstream Hevent] Hcause];
    [|split; reflexivity].
  split; [exact Hstream|]. split; [exact Hevent|exact Hcause].
Qed.

(** X20: [getMessage] on an entry with a non-empty [CONTAINER_TAG]
    and a field for the stream: the message has the tag as its group, the
    sanitized field as its stream and the enriched zero event, and there
    is no error.  The field [CONTAINER_ID_FULL] is read only when the
    configured one is missing. *)
Theorem getMessage_builds_message (r : reader) (group v : string) :
  fields (journal r) !! "CONTAINER_TAG" = Some group -> group <> "" ->
  stream_source r v ->
  getMessage r
  = (lib.Message.mk group (sanitizeStreamName v)
       (fillEvent r (lib.Message.Event lib.Message.zero)), true, None).
Proof.
  intros Htag Hne Hsource. unfold getMessage.
  rewrite (GetDataValue_some _ _ _ Htag).
  destruct group as [|c group]; [congruence|].
  cbn [lib.Message.set_Group lib.Message.Group len String.length Nat.eqb].
  destruct Hsource as [Hname|[Hname Hfull]].
  - now rewrite (GetDataValue_some _ _ _ Hname).
  - now rewrite (GetDataValue_none _ _ Hname), (GetDataValue_some _ _ _ Hfull).
Qed.

End MoreReaderFacts.

(** ** The log handler, continued *)
Section MoreHandlerFacts.
Import GoStrings Go lib journald_more.
Context `{ApexLib}.

Lemma HandleLog_handled (h : LogHandler) (entry : log_Entry) (q : MessageQueue) :
  exists msg,
    HandleLog h entry q = (mkQueue (queued q ++ [msg]) true, None)
    /\ handled h entry msg.
Proof.
  unfold HandleLog, Notify, Push, handled.
  cbn [queued notified Message.Event Message.set_Event Message.Group Message.Stream].
  eexists. split; [reflexivity|].
  cbn [Message.Event Message.Group Message.Stream].
  destruct (apex_MakeEvent entry) as [level time [host source id pid uid gid] data body js quoted].
  cbn [ecslogs.Event.Info ecslogs.Event.set_Info ecslogs.EventInfo.Host
       ecslogs.EventInfo.Source].
  destruct (len host =? 0)%nat;
    cbn [ecslogs.EventInfo.set_Host ecslogs.EventInfo.Host ecslogs.EventInfo.Source
         ecslogs.EventInfo.ID ecslogs.EventInfo.PID ecslogs.EventInfo.UID
         ecslogs.EventInfo.GID];
    (destruct source as [|c source];
     [ cbn [len String.length Nat.eqb];
       destruct (ecslogs_GuessCaller _ _ _) as [pc [|]];
         [destruct (ecslogs_GetFuncInfo pc) as [finfo [|]]|];
         repeat split; congruence
     | repeat split ]).
Qed.

(** X21: [HandleLog] queues every entry, in the order of the calls,
    behind the messages already queued, and never drops or reorders one.
    Each message has the group and the stream of the handler and the event
    of its entry; only the host and the source are filled, and only when
    the event has none.  The queue is notified as soon as one entry was
    handled. *)
Theorem HandleLog_each_queues_in_order (h : LogHandler) (entries : list log_Entry)
    (q : MessageQueue) :
  exists msgs,
    HandleLog_each h entries q
    = mkQueue (queued q ++ msgs) (notified q || negb (length entries =? 0)%nat)
    /\ Forall2 (handled h) entries msgs.
Proof.
  revert q. induction entries as [|entry rest IH]; intros q.
  - exists []. split; [|constructor].
    destruct q as [msgs n]. cbn. now rewrite app_nil_r, orb_false_r.
  - destruct (HandleLog_handled h entry q) as (msg & Hpush & Hmsg).
    cbn [HandleLog_each]. rewrite Hpush. cbn [fst].
    destruct (IH (mkQueue (queued q ++ [msg]) true)) as (msgs & Heach & Hall).
    exists (msg :: msgs). split; [|now constructor].
    rewrite Heach. cbn [queued notified length Nat.eqb negb orb].
    now rewrite <- app_assoc, orb_true_r.
Qed.

End MoreHandlerFacts.

(** ** [NewReader] *)
Section NewReaderFacts.
Import GoStrings Go journald journald_more.
Context `{SdjournalLib} `{syslog.OsLib}.

(** X22: the reader that [NewReader] returns is running, reads the
    journal that [SeekTail] left, and takes streams from the field named
    by [JOURNALD_STREAM_NAME], or from [CONTAINER_ID_FULL] when the
    variable is empty: the name of the field is never empty.  When
    [NewReader] fails there is no reader, and a journal that was opened is
    closed. *)
Theorem NewReader_outcomes :
  (forall opened r,
      NewReader = (opened, inl r) ->
      opened = Some (journal r)
      /\ stopped r = 0%Z
      /\ streamName r <> ""
      /\ (syslog.os_Getenv "JOURNALD_STREAM_NAME" <> "" ->
          streamName r = syslog.os_Getenv "JOURNALD_STREAM_NAME")
      /\ (syslog.os_Getenv "JOURNALD_STREAM_NAME" = "" -> streamName r = "CONTAINER_ID_FULL")
      /\ exists j0, sdjournal_NewJournal = inl j0
                    /\ sdjournal_SeekTail j0 = (journal r, None))
  /\ (forall opened e,
      NewReader = (opened, inr e) ->
      match opened with
      | None => sdjournal_NewJournal = inr e
      | Some j =>
          closed j = true
          /\ exists j0 j1, sdjournal_NewJournal = inl j0
                           /\ sdjournal_SeekTail j0 = (j1, Some e)
                           /\ j = Journal_Close j1
      end).
Proof.
  unfold NewReader. split.
  - intros opened r.
    destruct sdjournal_NewJournal as [j0|e0]; [|discriminate].
    destruct (sdjournal_SeekTail j0) as [j1 [e1|]] eqn:Hseek; [discriminate|].
    intros [= <- <-]. cbn [journal stopped streamName].
    destruct (syslog.os_Getenv "JOURNALD_STREAM_NAME") as [|c name];
      cbn [len String.length Nat.eqb].
    + repeat split; try congruence; eauto.
    + repeat split; try congruence; eauto.
  - intros opened e.
    destruct sdjournal_NewJournal as [j0|e0].
    + destruct (sdjournal_SeekTail j0) as [j1 [e1|]] eqn:Hseek; [|discriminate].
      intros [= <- <-]. split; [reflexivity|]. eauto.
    + now intros [= <- <-].
Qed.

End NewReaderFacts.

(** ** The Datadog writer *)
Section DatadogFacts.
Import GoStrings Go datadog.
Context `{StatsdLib} `{syslog.OsLib}.

(** X23: [datadog.NewWriter] takes UDP only.  A [DATADOG_URL] that
    does not parse, or whose scheme is not [udp], gives an error without
    anything being dialed.  A writer comes from [statsd.DialWriter] only,
    called with the group, the stream and the UDP dialer, and with the
    host of a [udp] URL as address, or no address when the variable is
    empty. *)
Theorem datadog_NewWriter_udp_only (group stream : string) (n : Net) :
  let url := syslog.os_Getenv "DATADOG_URL" in
  (forall e, url <> "" -> syslog.url_Parse url = inr e ->
     NewWriter group stream n = (n, inr (errorString ("invalid datadog URL: " +:+ Error e))))
  /\ (forall scheme host,
      url <> "" -> syslog.url_Parse url = inl (scheme, host) -> scheme <> "udp" ->
      NewWriter group stream n
      = (n, inr (errorString
                   ("invalid datadog URL: only the UDP protocol is supported but "
                    +:+ scheme +:+ " was found"))))
  /\ (forall n' w,
      NewWriter group stream n = (n', inl w) ->
      exists address,
        statsd_DialWriter (mkWriterConfig address group stream (Some dialUdpClient)) n
        = (n', inl w)
        /\ (url = "" -> address = "")
        /\ (url <> "" -> syslog.url_Parse url = inl ("udp", address))).
Proof.
  intros url. unfold NewWriter. fold url.
  assert (len_ne : forall s : string, s <> "" -> negb (len s =? 0)%nat = true).
  { intros [|c s] Hs; [congruence|reflexivity]. }
  split; [|split].
  - intros e Hurl Hparse. now rewrite (len_ne _ Hurl), Hparse.
  - intros scheme host Hurl Hparse Hscheme. rewrite (len_ne _ Hurl), Hparse.
    destruct (String.eqb_spec scheme "udp"); [contradiction|reflexivity].
  - intros n' w.
    destruct url as [|c rest] eqn:Hurl; cbn [len String.length Nat.eqb negb].
    + cbn [Address Group Stream Dial]. intros Hdial. exists "". repeat split; congruence.
    + destruct (syslog.url_Parse (String c rest)) as [[scheme host]|e] eqn:Hparse;
        [|discriminate].
      destruct (String.eqb_spec scheme "udp") as [->|Hne]; cbn [negb]; [|discriminate].
      cbn [Address Group Stream Dial]. intros Hdial. exists host.
      repeat split; congruence.
Qed.

End DatadogFacts.

(** ** The further properties at work on the sample environment *)
Section MoreSamples.
Import GoStrings Go syslog syslog_more journald journald_more.
#[local] Existing Instance Sample.time.
#[local] Existing Instance Sample.ecs.
#[local] Existing Instance Sample.encoding.
#[local] Existing Instance Sample.apex.
#[local] Existing Instance Sample.templates.
#[local] Existing Instance Sample.os.
#[local] Existing Instance Sample.backends.
#[local] Existing Instance Sample.net.
#[local] Existing Instance Sample.conns.

Local Abbreviation nl := (String "010" "").
Local Abbreviation one := (Sample.line "svc" "one").
Local Abbreviation two := (Sample.line "svc" "two").
Local Abbreviation three := (Sample.line "svc" "three").
Local Abbreviation refused := (errorString "connection refused").

(** A healthy writer whose backend refuses the first write. *)
Lemma write_error_iff_dead_witness :
  writer.dead (Sample.writer_on [true]) = false
  /\ snd (WriteMessageBatch (Sample.writer_on [true]) [one; two])
     = Some (errorString "broken pipe")
  /\ writer.dead (fst (WriteMessageBatch (Sample.writer_on [true]) [one; two])) <> false.
Proof.
  split; [reflexivity|]. split; [reflexivity|].
  destruct (write_error_iff_dead (Sample.writer_on [true]) [one; two] one eq_refl)
    as [[_ Hbatch] _].
  intros Halive. specialize (Hbatch Halive). discriminate Hbatch.
Defined.

(** A batch of three given as one message and then two. *)
Lemma WriteMessageBatch_in_two_calls_witness :
  writer.flush (Sample.writer_on []) = flush_nothing
  /\ Sample.received
       (writer.backend (fst (WriteMessageBatch (Sample.writer_on []) ([one] ++ [two; three]))))
     = ["<10>svc: one" +:+ nl; "<10>svc: two" +:+ nl; "<10>svc: three" +:+ nl].
Proof.
  split; [reflexivity|].
  rewrite (WriteMessageBatch_in_two_calls (Sample.writer_on []) [one] [two; three] eq_refl).
  reflexivity.
Defined.

(** A local syslog that nothing listens on: six candidates, eighteen
    dials, twelve seconds. *)
Lemma DialWriter_gives_up_after_all_candidates_witness :
  exists s1,
    (exists err, DialWriter (B := Sample.pipe) WriterConfig.zero (Sample.outside [])
                 = Ret (s1, inr err))
    /\ dials (trace s1) = 18%nat
    /\ slept (trace s1) = (12 * time_Second)%Z.
Proof.
  pose (config' := snd (DialWriter_netopts WriterConfig.zero)).
  pose (pairs := list_prod (fst (DialWriter_netopts WriterConfig.zero))
                   (DialWriter_addropts config')).
  pose (s1 := Sample.outside_after [] (three_attempts_each pairs)).
  assert (all_fail (B := Sample.pipe) config' pairs (Sample.outside []) s1) as Hfail.
  { unfold pairs, s1.
    eapply all_fail_cons; [reflexivity|].
    eapply all_fail_cons; [reflexivity|].
    eapply all_fail_cons; [reflexivity|].
    eapply all_fail_cons; [reflexivity|].
    eapply all_fail_cons; [reflexivity|].
    eapply all_fail_cons; [reflexivity|].
    apply all_fail_nil. }
  exists s1.
  destruct (DialWriter_gives_up_after_all_candidates (B := Sample.pipe) WriterConfig.zero
              (Sample.outside []) s1 eq_refl Hfail) as (Hgives & _ & Hdials & Hslept).
  split; [exact Hgives|]. split; [exact Hdials|exact Hslept].
Defined.

(** A writer released into an empty pool is the next one handed out. *)
Lemma Close_then_NewWriter_witness :
  let w := Sample.writer_on [] in
  let g := mkGlobals (make_chan 1) true 5 in
  writer.dead w = false
  /\ NewWriter "svc" "stream" (fst (fst (syslog.Close w g))) (Sample.outside [])
     = Ret (g, Sample.outside [], inl w).
Proof.
  intros w g. split; [reflexivity|].
  destruct (Close_then_NewWriter w 1%nat 5%Z "svc" "stream" (Sample.outside []) eq_refl
              ltac:(lia)) as [_ Hnext].
  exact Hnext.
Defined.

(** A writer closed twice is handed out twice. *)
Lemma Close_twice_pools_twice_witness :
  let w := Sample.writer_on [] in
  let g := mkGlobals (make_chan 2) true 5 in
  writer.dead w = false
  /\ NewWriter_times 2 (fst (Close_each [w; w] g)) (Sample.outside [])
     = Ret (mkGlobals (mkChan 2 []) true 5, Sample.outside [], [inl w; inl w]).
Proof.
  intros w g. split; [reflexivity|].
  destruct (Close_twice_pools_twice w 2%nat 5%Z (Sample.outside []) eq_refl ltac:(lia))
    as [_ Hnext].
  exact Hnext.
Defined.

(** An entry stamped one second and a half after the epoch. *)
Lemma getTime_keeps_microseconds_witness :
  let r := mkReader "CONTAINER_ID_FULL" 0
             (mkJournal (fields (Sample.entry [])) (inl 1500000%Z) 0%Z false) in
  exists sec nsec,
    getTime r = time_Unix sec nsec
    /\ (sec * 1000000000 + nsec = 1500000000)%Z.
Proof.
  intros r.
  destruct (getTime_keeps_microseconds r) as [Hstamp _].
  destruct (Hstamp 1500000%Z eq_refl ltac:(lia)) as (sec & nsec & Htime & _ & _ & Hsum).
  exists sec, nsec. split; [exact Htime|exact Hsum].
Defined.

(** A reader closed while it polls. *)
Lemma Close_ends_ReadMessage_witness :
  let r := mkReader "CONTAINER_ID_FULL" 0 (Sample.entry []) in
  stopped r = 0%Z
  /\ ReadMessage r
       ([NextNothing; NextNothing]
        ++ ClosedElsewhere
           :: [NextEntry (Sample.entry [("CONTAINER_TAG", "svc");
                                        ("CONTAINER_ID_FULL", "abc")])])
     = Returned (mkReader "CONTAINER_ID_FULL" 1 (Journal_Close (Sample.entry [])))
         lib.Message.zero (Some io_EOF).
Proof.
  intros r. split; [reflexivity|].
  destruct (Close_ends_ReadMessage r
              [NextEntry (Sample.entry [("CONTAINER_TAG", "svc");
                                        ("CONTAINER_ID_FULL", "abc")])])
    as (_ & _ & Hclosed).
  apply (Hclosed [NextNothing; NextNothing] eq_refl). repeat constructor.
Defined.

(** A poll, an entry of the host, then a failure of [Next]. *)
Lemma ReadMessage_errors_witness :
  let r := mkReader "CONTAINER_ID_FULL" 0 (Sample.entry []) in
  let turns := [NextNothing; NextEntry (Sample.entry [("MESSAGE", "kernel: up")]);
                NextFails (errorString "bad message")] in
  ReadMessage r turns
  = Returned (at_entry r (Sample.entry [("MESSAGE", "kernel: up")])) lib.Message.zero
      (Some (errorString "bad message"))
  /\ lib.Message.Stream lib.Message.zero = "".
Proof.
  intros r turns.
  assert (ReadMessage r turns
          = Returned (at_entry r (Sample.entry [("MESSAGE", "kernel: up")]))
              lib.Message.zero (Some (errorString "bad message"))) as Hread
    by reflexivity.
  split; [exact Hread|].
  destruct (ReadMessage_errors r _ turns _ _ Hread) as (Hstream & _).
  exact Hstream.
Defined.

(** An entry of a container, with the stream under the configured
    field. *)
Lemma getMessage_builds_message_witness :
  let r := mkReader "CONTAINER_NAME" 0
             (Sample.entry [("CONTAINER_TAG", "svc"); ("CONTAINER_NAME", "web:1");
                            ("CONTAINER_ID_FULL", "abc"); ("MESSAGE", "ready")]) in
  fields (journal r) !! "CONTAINER_TAG" = Some "svc"
  /\ stream_source r "web:1"
  /\ lib.Message.Stream (fst (fst (getMessage r))) = "web/1"
  /\ snd (fst (getMessage r)) = true.
Proof.
  intros r.
  assert (fields (journal r) !! "CONTAINER_TAG" = Some "svc") as Htag by reflexivity.
  assert (stream_source r "web:1") as Hsource by (left; reflexivity).
  split; [exact Htag|]. split; [exact Hsource|].
  rewrite (getMessage_builds_message r "svc" "web:1" Htag ltac:(discriminate) Hsource).
  split; reflexivity.
Defined.


End MoreSamples.

Section TemplateSamples.
Import GoStrings Go syslog syslog_more.
#[local] Existing Instance Sample.time.
#[local] Existing Instance Sample.ecs.
#[local] Existing Instance SampleMore.failing_templates.
#[local] Existing Instance Sample.os.
#[local] Existing Instance Sample.backends.
#[local] Existing Instance Sample.net.
#[local] Existing Instance Sample.conns.

Local Abbreviation one := (Sample.line "svc" "one").

(** A template whose execution fails after its first piece: a backend
    with [Flush] returns the error, and the writer is dead. *)
Lemma execution_error_returned_or_dropped_witness :
  let direct := writerConfig.mk (Sample.mkPipe [] [] true 0 false) "" "" "" in
  let w := SampleMore.direct_writer in
  newWriter direct = Ret w
  /\ snd (WriteMessage w one) = Some (errorString "can't evaluate field NOPE")
  /\ writer.dead (fst (WriteMessage w one)) = true
  /\ Sample.received (writer.backend (fst (WriteMessage w one))) = ["<10>"].
Proof.
  intros direct w.
  assert (newWriter direct = Ret w) as Hnew by reflexivity.
  assert (template_Execute (writer.tpl w) (write_message w one)
          = (["<10>"], Some (errorString "can't evaluate field NOPE"))) as Hexec
    by reflexivity.
  split; [exact Hnew|].
  destruct (execution_error_returned_or_dropped direct w one ["<10>"]
              (errorString "can't evaluate field NOPE") Hnew Hexec) as [Hdirect _].
  rewrite (Hdirect eq_refl (Sample.mkPipe ["<10>"] [] true 0 false) eq_refl).
  repeat split.
Defined.

End TemplateSamples.

Section StrictTemplateSamples.
Import GoStrings Go syslog syslog_more.
#[local] Existing Instance Sample.time.
#[local] Existing Instance Sample.ecs.
#[local] Existing Instance SampleMore.strict_templates.
#[local] Existing Instance Sample.os.
#[local] Existing Instance Sample.backends.
#[local] Existing Instance Sample.net.
#[local] Existing Instance Sample.conns.

(** A template with an unclosed action: the server is dialed, and then
    the parser panics. *)
Lemma DialWriter_parses_template_last_witness :
  let config := WriterConfig.mk "udp" "logs.example.com:514" "{{.MSG" "" "" None "" in
  template_Parse_error (installed_text (WriterConfig.Template config))
  = Some (errorString "unclosed action")
  /\ DialWriter (B := Sample.pipe) config (Sample.outside [true])
     = Panic (errorString "unclosed action").
Proof.
  intros config. split; [reflexivity|].
  destruct (DialWriter_parses_template_last (B := Sample.pipe) config (Sample.outside [true])
              (Sample.outside_after [] [EvDial "udp" "logs.example.com:514"]))
    as (_ & Hpanic & _).
  exact (Hpanic (conn_backend "logs.example.com:514") (errorString "unclosed action")
           eq_refl eq_refl).
Defined.

End StrictTemplateSamples.

Section BadUrlSamples.
Import GoStrings Go syslog syslog_more.
#[local] Existing Instance Sample.time.
#[local] Existing Instance Sample.ecs.
#[local] Existing Instance Sample.templates.
#[local] Existing Instance SampleMore.os_bad_url.
#[local] Existing Instance Sample.backends.
#[local] Existing Instance Sample.net.
#[local] Existing Instance Sample.conns.

(** A [SYSLOG_URL] that does not parse: an error, nothing dialed, one
    more connection counted. *)
Lemma NewWriter_invalid_url_witness :
  os_Getenv "SYSLOG_URL" = "://"
  /\ NewWriter (B := Sample.pipe) "svc" "stream" initial_globals (Sample.outside [true])
     = Ret (mkGlobals (make_chan 100) false 1, Sample.outside [true],
            inr (errorString "invalid syslog URL: missing protocol scheme")).
Proof.
  split; [reflexivity|].
  exact (NewWriter_invalid_url (B := Sample.pipe) "svc" "stream" "://"
           (errorString "missing protocol scheme") initial_globals (Sample.outside [true])
           eq_refl ltac:(discriminate) eq_refl (or_introl eq_refl)).
Defined.

End BadUrlSamples.

Section TcpSamples.
Import GoStrings Go syslog syslog_more.
#[local] Existing Instance Sample.time.
#[local] Existing Instance Sample.ecs.
#[local] Existing Instance Sample.templates.
#[local] Existing Instance SampleMore.os_tcp.
#[local] Existing Instance Sample.backends.
#[local] Existing Instance Sample.net.
#[local] Existing Instance Sample.conns.
#[local] Existing Instance SampleMore.statsd.

(** A [SYSLOG_URL] that names a TCP server. *)
Lemma NewWriter_config_of_environment_witness :
  url_Parse (os_Getenv "SYSLOG_URL") = inl ("tcp", "logs.example.com:514")
  /\ exists c, NewWriter_config = inl c
               /\ WriterConfig.Network c = "tcp"
               /\ WriterConfig.Address c = "logs.example.com:514".
Proof.
  split; [reflexivity|].
  destruct NewWriter_config_of_environment as (_ & Hurl & _).
  exact (Hurl "tcp" "logs.example.com:514" ltac:(discriminate) eq_refl).
Defined.

(** A [DATADOG_URL] that names a TCP agent: refused, nothing dialed. *)
Lemma datadog_NewWriter_udp_only_witness :
  syslog.url_Parse (syslog.os_Getenv "DATADOG_URL") = inl ("tcp", "agent:8125")
  /\ datadog.NewWriter "svc" "stream" SampleMore.no_dials
     = (SampleMore.no_dials,
        inr (errorString
               "invalid datadog URL: only the UDP protocol is supported but tcp was found")).
Proof.
  split; [reflexivity|].
  destruct (datadog_NewWriter_udp_only "svc" "stream" SampleMore.no_dials) as (_ & Hscheme & _).
  exact (Hscheme "tcp" "agent:8125" ltac:(discriminate) eq_refl ltac:(discriminate)).
Defined.

End TcpSamples.

Section WireSamples.
Import GoStrings Go syslog syslog_more syslog_conn.
#[local] Existing Instance Sample.time.
#[local] Existing Instance Sample.ecs.
#[local] Existing Instance Sample.templates.
#[local] Existing Instance Sample.os.
#[local] Existing Instance Sample.net.
#[local] Existing Instance SampleMore.wire.
#[local] Existing Instance dialed_WriteCloser.
#[local] Existing Instance dialed_ConnBackend.

Local Abbreviation nl := (String "010" "").
Local Abbreviation one := (Sample.line "svc" "one").
Local Abbreviation two := (Sample.line "svc" "two").

(** The candidate [tls] is dialed as [tcp] and gets a buffered
    connection. *)
Lemma dialed_writer_framing_witness :
  dialWriter "tls" "logs.example.com:514" None "" (Sample.outside [true])
  = Ret (Sample.outside_after [] [EvDial "tcp" "logs.example.com:514"],
         inl (dialed_buffered (SampleMore.tls_conn "")))
  /\ newWriter (writerConfig.mk
                  (dialed_buffered (SampleMore.tls_conn "")) "" "" "")
     = Ret SampleMore.tls_writer
  /\ exists c, writer.backend SampleMore.tls_writer = dialed_buffered (mkBufferedConn bufio_NewWriter c)
               /\ writer.out SampleMore.tls_writer = out_directWrite
               /\ writer.flush SampleMore.tls_writer = flush_backend.
Proof.
  split; [reflexivity|]. split; [reflexivity|].
  exact (dialed_writer_framing "tls" "logs.example.com:514" None ""
           (Sample.outside [true])
           (Sample.outside_after [] [EvDial "tcp" "logs.example.com:514"])
           (dialed_buffered (SampleMore.tls_conn "")) "" "" ""
           SampleMore.tls_writer eq_refl eq_refl).
Defined.

(** Two messages are buffered, then flushed. *)
Lemma successful_batch_ends_flushed_witness :
  exists w1 c1 c2,
    write_each SampleMore.tls_writer [one; two] = (w1, None)
    /\ writer.backend w1 = dialed_buffered c1
    /\ buf c1 = "<10>svc: one" +:+ nl +:+ "<10>svc: two" +:+ nl
    /\ bufferedConn_Flush c1 = (c2, None)
    /\ buf c2 = "".
Proof.
  assert (WriteMessageBatch SampleMore.tls_writer [one; two]
          = (fst (WriteMessageBatch SampleMore.tls_writer [one; two]), None)) as Hbatch
    by reflexivity.
  destruct (successful_batch_ends_flushed SampleMore.tls_writer
              (SampleMore.tls_conn "") [one; two]
              (fst (WriteMessageBatch SampleMore.tls_writer [one; two])) eq_refl eq_refl Hbatch)
    as (w1 & c1 & c2 & Heach & Hback & Hflush & _).
  exists w1, c1, c2. split; [exact Heach|]. split; [exact Hback|].
  assert (w1 = fst (write_each SampleMore.tls_writer [one; two])) as -> by now rewrite Heach.
  assert (c1 = SampleMore.tls_conn ("<10>svc: one" +:+ nl +:+ "<10>svc: two" +:+ nl)) as ->.
  { cbv in Hback. now injection Hback as <-. }
  split; [reflexivity|]. split; [exact Hflush|].
  cbv in Hflush. now injection Hflush as <-.
Defined.

(** A dead writer with bytes in its buffer is closed with them. *)
Lemma Close_does_not_flush_witness :
  let c := SampleMore.tls_conn "<10>svc: one" in
  let w := writer.set_dead true (writer.set_backend (dialed_buffered c) SampleMore.tls_writer) in
  writer.dead w = true
  /\ writer.backend (snd (fst (Close w initial_globals))) = dialed_buffered c.
Proof.
  intros c w. split; [reflexivity|].
  rewrite (Close_does_not_flush w c initial_globals eq_refl eq_refl). reflexivity.
Defined.

End WireSamples.

Section JsonSamples.
Import GoStrings Go journald journald_more.
#[local] Existing Instance Sample.time.
#[local] Existing Instance Sample.ecs.
#[local] Existing Instance SampleMore.encoding_json.

(** A quoted JSON text is unquoted; the flag remembers it. *)
Lemma fillEvent_body_classification_witness :
  let r := mkReader "CONTAINER_ID_FULL" 0
             (mkJournal (list_to_map [("MESSAGE", SampleMore.quoted "{}")]) (inl 0%Z) 0%Z
                false) in
  let ev' := fillEvent r (lib.Message.Event lib.Message.zero) in
  ecslogs.Event.WasMessagequoted ev' = true
  /\ ecslogs.Event.IsMessageJson ev' = true
  /\ ecslogs.Event.Message ev' = "{}".
Proof.
  intros r ev'.
  destruct (fillEvent_body_classification r (lib.Message.Event lib.Message.zero))
    as (_ & _ & _ & Hbody & _ & Hflags).
  assert (ecslogs.Event.WasMessagequoted ev' = true) as Hquoted by reflexivity.
  split; [exact Hquoted|]. split; [exact (Hflags Hquoted)|].
  exact (Hbody "{}" "{}" Hquoted eq_refl eq_refl).
Defined.

End JsonSamples.

Section NoTailSamples.
Import GoStrings Go journald journald_more.
#[local] Existing Instance Sample.time.
#[local] Existing Instance Sample.ecs.
#[local] Existing Instance Sample.encoding.
#[local] Existing Instance SampleMore.sdjournal_no_tail.
#[local] Existing Instance Sample.os.

(** [SeekTail] fails: no reader, and the journal is closed. *)
Lemma NewReader_outcomes_witness :
  NewReader = (Some (Journal_Close (Sample.entry [])), inr (errorString "bad descriptor"))
  /\ closed (Journal_Close (Sample.entry [])) = true.
Proof.
  split; [reflexivity|].
  destruct NewReader_outcomes as [_ Hfails].
  destruct (Hfails (Some (Journal_Close (Sample.entry []))) (errorString "bad descriptor")
              eq_refl) as [Hclosed _].
  exact Hclosed.
Defined.

End NoTailSamples.
